(** * Job submission and deduplication layer

    A shallow embedding of [src/utils.py] (experiment identifiers and
    checkpoint paths) and [submission/utils.py] (hyperparameter expansion,
    existence filter, job dispatcher), with the properties the specification
    states about them; and of the job's side, [submission/quant.py] and
    [src/datasets.py], with further properties of the code. *)

From Stdlib Require Import ZArith List String Ascii Bool Lia Arith.
From Stdlib Require Import Decimal DecimalString DecimalZ DecimalPos DecimalFacts.
Import ListNotations.

Open Scope string_scope.
Open Scope list_scope.

(** ** Python primitives used by the code *)

Module Py.

(** [str(n)] for an [int]. *)
Definition str_int (z : Z) : string := NilZero.string_of_int (Z.to_int z).

(** [sep.join(xs)]. *)
Fixpoint join (sep : string) (xs : list string) : string :=
  match xs with
  | [] => ""
  | [x] => x
  | x :: rest => x ++ sep ++ join sep rest
  end.

(** [s.startswith(c)] and [s.endswith(c)] for a one-character [c]. *)
Definition startswith (c : ascii) (s : string) : bool :=
  match s with
  | String a _ => Ascii.eqb a c
  | EmptyString => false
  end.

Fixpoint endswith (c : ascii) (s : string) : bool :=
  match s with
  | EmptyString => false
  | String a EmptyString => Ascii.eqb a c
  | String _ rest => endswith c rest
  end.

(** [os.path.join(a, b)] of [posixpath], for two components:
    an absolute [b] discards [a]; an empty [a] or one that ends with the
    separator takes no extra separator. *)
Definition os_path_join (a b : string) : string :=
  if startswith "/" b then b
  else if (String.eqb a "" || endswith "/" a)%bool then a ++ b
  else a ++ "/" ++ b.

(** No character of [s] is [c]. *)
Fixpoint lacks (c : ascii) (s : string) : bool :=
  match s with
  | EmptyString => true
  | String a rest => negb (Ascii.eqb a c) && lacks c rest
  end.

(** The characters [str] of an [int] is made of. *)
Definition int_char (c : ascii) : bool :=
  existsb (Ascii.eqb c) ["0"; "1"; "2"; "3"; "4"; "5"; "6"; "7"; "8"; "9"; "-"]%char.

(** [itertools.product] over the argument pools, as the library documents it:
    [result = [[]]; for pool in pools: result = [x+[y] for x in result for y in pool]]. *)
Definition product {A : Type} (pools : list (list A)) : list (list A) :=
  fold_left
    (fun result pool => flat_map (fun x => map (fun y => x ++ [y]) pool) result)
    pools [[]].

End Py.

(** ** The switches of [src/utils.py]

    [ConvertableEnum.__str__] returns the member's name. *)

Inductive LossSwitch := MSE | CE.

Inductive ModelSwitch :=
| SIMPLE_CNN_DEPTH | SIMPLE_CNN | SIMPLE_CNN_BN | SIMPLE_CNN_SK | SIMPLE_CNN_SK_BN
| RESNET18 | RESNET34 | RESNET50 | RESNET_BASIC | RESNET_BOTTLENECK.

Inductive ActivationSwitch :=
| SOFTPLUS_B_01 | SOFTPLUS_B_1 | SOFTPLUS_B_2 | SOFTPLUS_B100 | SOFTPLUS_B10
| SOFTPLUS_B7 | SOFTPLUS_B5 | SOFTPLUS_B3 | SOFTPLUS_B1 | LEAKY_RELU | RELU.

Inductive DatasetSwitch := CIFAR10 | MNIST | IMAGENETTE | FASHION_MNIST | GRADS.

Definition str_loss (l : LossSwitch) : string :=
  match l with MSE => "MSE" | CE => "CE" end.

Definition str_model (m : ModelSwitch) : string :=
  match m with
  | SIMPLE_CNN_DEPTH => "SIMPLE_CNN_DEPTH"
  | SIMPLE_CNN => "SIMPLE_CNN"
  | SIMPLE_CNN_BN => "SIMPLE_CNN_BN"
  | SIMPLE_CNN_SK => "SIMPLE_CNN_SK"
  | SIMPLE_CNN_SK_BN => "SIMPLE_CNN_SK_BN"
  | RESNET18 => "RESNET18"
  | RESNET34 => "RESNET34"
  | RESNET50 => "RESNET50"
  | RESNET_BASIC => "RESNET_BASIC"
  | RESNET_BOTTLENECK => "RESNET_BOTTLENECK"
  end.

Definition str_activation (a : ActivationSwitch) : string :=
  match a with
  | SOFTPLUS_B_01 => "SOFTPLUS_B_01"
  | SOFTPLUS_B_1 => "SOFTPLUS_B_1"
  | SOFTPLUS_B_2 => "SOFTPLUS_B_2"
  | SOFTPLUS_B100 => "SOFTPLUS_B100"
  | SOFTPLUS_B10 => "SOFTPLUS_B10"
  | SOFTPLUS_B7 => "SOFTPLUS_B7"
  | SOFTPLUS_B5 => "SOFTPLUS_B5"
  | SOFTPLUS_B3 => "SOFTPLUS_B3"
  | SOFTPLUS_B1 => "SOFTPLUS_B1"
  | LEAKY_RELU => "LEAKY_RELU"
  | RELU => "RELU"
  end.

Definition str_dataset (d : DatasetSwitch) : string :=
  match d with
  | CIFAR10 => "CIFAR10"
  | MNIST => "MNIST"
  | IMAGENETTE => "IMAGENETTE"
  | FASHION_MNIST => "FASHION_MNIST"
  | GRADS => "GRADS"
  end.

(** ** Floats

    [str] of a Python float is the shortest literal that reads back as the
    same float; it is not computed here.  The float type and its [str] are an
    interface, and the two facts about [str] that naming relies on are stated
    where they are used. *)

Class PyFloat := {
  float : Type;
  str_float : float -> string;
  nan : float;                       (* what [Series.map] leaves for a missing key *)
  float_of_int : Z -> float;
  float_mul : float -> float -> float;
  int_of_float : float -> Z          (* [astype(int)] *)
}.

(** Distinct floats print differently. *)
Definition str_float_injective `{PyFloat} : Prop :=
  forall x y : float, str_float x = str_float y -> x = y.

(** A float literal holds digits, a sign, a point, an exponent mark or the
    letters of inf and nan: never a colon. *)
Definition str_float_no_colon `{PyFloat} : Prop :=
  forall x : float, Py.lacks ":" (str_float x) = true.

(** ** Values, rows and records *)

Section Data.
Context `{PyFloat}.

(** The Python values a job table holds. *)
Inductive value :=
| VNone
| VBool (b : bool)
| VInt (z : Z)
| VFloat (x : float)
| VStr (s : string)
| VInts (l : list Z)
| VLoss (l : LossSwitch)
| VModel (m : ModelSwitch)
| VActivation (a : ActivationSwitch)
| VDataset (d : DatasetSwitch).

(** A row of a table, and a keyword dictionary: names in insertion order. *)
Definition row := list (string * value).

Fixpoint lookup (k : string) (x : row) : option value :=
  match x with
  | [] => None
  | (k', v) :: rest => if String.eqb k k' then Some v else lookup k rest
  end.

(** [x[k] = v] on a dictionary: overwrite in place, or append. *)
Fixpoint assign (k : string) (v : value) (x : row) : row :=
  match x with
  | [] => [(k, v)]
  | (k', v') :: rest =>
      if String.eqb k k' then (k, v) :: rest else (k', v') :: assign k v rest
  end.

(** The row without the keys [ks]. *)
Fixpoint drop (ks : list string) (x : row) : row :=
  match x with
  | [] => []
  | (k, v) :: rest =>
      if existsb (String.eqb k) ks then drop ks rest else (k, v) :: drop ks rest
  end.

(** A hyperparameter record: the keyword-only parameters of
    [get_experiment_prefix] with the kinds of value the pipeline gives them
    (switch members, layer sizes, integers, a float), and every other
    column, which the function receives as [**args] and ignores. *)
Record record := mk_record {
  dataset : DatasetSwitch;
  model_name : ModelSwitch;
  layers : list Z;
  activation : ActivationSwitch;
  seed : Z;
  l2_reg : float;
  img_size : Z;
  other : row
}.

Definition prefix_keywords : list string :=
  ["dataset"; "model_name"; "layers"; "activation"; "seed"; "l2_reg"; "img_size"].

(** Calling [get_experiment_prefix] with a row as keywords: Python raises
    [TypeError] when a keyword-only parameter is missing.  A value of
    another kind than the parameter's is outside the records modelled here
    and is refused the same way. *)
Definition bind_keywords (x : row) : option record :=
  match lookup "dataset" x, lookup "model_name" x, lookup "layers" x,
        lookup "activation" x, lookup "seed" x, lookup "l2_reg" x,
        lookup "img_size" x with
  | Some (VDataset d), Some (VModel m), Some (VInts l), Some (VActivation a),
    Some (VInt s), Some (VFloat w), Some (VInt i) =>
      Some (mk_record d m l a s w i (drop prefix_keywords x))
  | _, _, _, _, _, _, _ => None
  end.

(** Assigning a column that is not one of the seven keywords. *)
Definition set_column (k : string) (v : value) (r : record) : record :=
  mk_record (dataset r) (model_name r) (layers r) (activation r) (seed r)
            (l2_reg r) (img_size r) (assign k v (other r)).

(** Reading a string column back; a missing cell reads as the empty string. *)
Definition str_column (k : string) (r : record) : string :=
  match lookup k (other r) with
  | Some (VStr s) => s
  | _ => ""
  end.

(** *** [src/utils.py] *)

Definition EXPERIMENT_PREFIX_SEP : string := "::".

Definition name_list (r : record) : list string :=
  [ str_model (model_name r);
    Py.join "_" (map Py.str_int (layers r));
    str_activation (activation r);
    Py.str_int (seed r);
    str_float (l2_reg r);
    Py.str_int (img_size r) ].

Definition get_experiment_prefix (r : record) : string :=
  Py.os_path_join (str_dataset (dataset r))
                  (Py.join EXPERIMENT_PREFIX_SEP (name_list r)).

Definition get_save_path (r : record) : string :=
  "checkpoints/" ++ get_experiment_prefix r ++ ".pt".

(** *** The argument expander of the [submit_*] functions

    [pd.DataFrame(list(product( *args.values())), columns=args.keys())]. *)

Definition grid := list (string * list value).

Definition DataFrame (data : list (list value)) (columns : list string) : list row :=
  map (combine columns) data.

Definition expand (args : grid) : list row :=
  DataFrame (Py.product (map snd args)) (map fst args).




(** Row-wise keyword binding of a whole table; the first row that does not
    bind raises. *)
Fixpoint bind_rows (rows : list row) : option (list record) :=
  match rows with
  | [] => Some []
  | x :: rest =>
      match bind_keywords x, bind_rows rest with
      | Some r, Some rs => Some (r :: rs)
      | _, _ => None
      end
  end.

End Data.

(** ** Effects: console, executor and exceptions *)

Inductive exn :=
| IndexError
| TypeError
| ValueError
| KeyError (key : string)
| JobFailed (msg : string).

(** The job functions the submitters pass to the dispatcher. *)
Inductive job_func := training_main | grads_main | quant_main.

Inductive outcome (X : Type) :=
| Returned (x : X)
| Raised (e : exn).

Arguments Returned {X} x.
Arguments Raised {X} e.

Section Effects.
Context `{PyFloat}.

(** The type of one job's argument record. *)
Context {A : Type}.

(** What a call does to the outside, in order. *)
Inductive event :=
| Print (line : string)
| PrintNunique (args : list A)
| Input
| NewExecutor (folder : string)
| UpdateParameters (timeout_min cpus_per_task : Z) (slurm_additional_parameters : row)
| Call (func : job_func) (jobs_args : list A)
| MapArray (func : job_func) (jobs_args : list A)
| Result (job : nat).

(** A computation: the events so far, and a value or the exception that
    ended it. *)
Definition M (X : Type) : Type := list event * outcome X.

Definition ret {X} (x : X) : M X := ([], Returned x).

Definition raise {X} (e : exn) : M X := ([], Raised e).

Definition bind {X Y} (c : M X) (k : X -> M Y) : M Y :=
  match c with
  | (t, Raised e) => (t, Raised e)
  | (t, Returned x) => let (t', r) := k x in (t ++ t', r)
  end.

Definition tell (e : event) : M unit := ([e], Returned tt).

Definition print (line : string) : M unit := tell (Print line).

(** One [print] per element, as [column.apply(print)] does. *)
Fixpoint print_each (lines : list string) : M unit :=
  match lines with
  | [] => ret tt
  | l :: rest => bind (print l) (fun _ => print_each rest)
  end.

(** [xs[i]]. *)
Definition index {X} (xs : list X) (i : nat) : M X :=
  match nth_error xs i with
  | Some x => ret x
  | None => raise IndexError
  end.

(** [[f(x) for x in xs]]: in order, and the first exception ends it. *)
Fixpoint for_each {X Y} (f : X -> M Y) (xs : list X) : M (list Y) :=
  match xs with
  | [] => ret []
  | x :: rest =>
      bind (f x) (fun y => bind (for_each f rest) (fun ys => ret (y :: ys)))
  end.

(** The operator at the console: the line [input()] reads. *)
Class Operator := {
  answer : string
}.

(** [run_here func jobs_args] is the exception of the call
    [func(jobs_args)], if it raises; [job_outcome func i x] is what
    [job.result()] gives for the array job [i], which calls [func] on [x]. *)
Class Jobs := {
  run_here : job_func -> list A -> option exn;
  job_outcome : job_func -> nat -> A -> outcome value
}.

Context {operator : Operator} {jobs : Jobs}.

Definition input : M string := ([Input], Returned answer).

Definition call (func : job_func) (jobs_args : list A) : M unit :=
  ([Call func jobs_args],
   match run_here func jobs_args with
   | Some e => Raised e
   | None => Returned tt
   end).

(** [executor.map_array(func, jobs_args)]: one job per element, each to
    call [func] on that element; the handles come back in order. *)
Definition map_array (func : job_func) (jobs_args : list A) : M (list (nat * A)) :=
  ([MapArray func jobs_args], Returned (combine (seq 0 (List.length jobs_args)) jobs_args)).

Definition job_result (func : job_func) (job : nat * A) : M value :=
  ([Result (fst job)], job_outcome func (fst job) (snd job)).

(** The outcomes the jobs of an array submission will give, in submission
    order. *)
Definition outcomes (func : job_func) (jobs_args : list A) : list (outcome value) :=
  map (fun job => job_outcome func (fst job) (snd job))
      (combine (seq 0 (List.length jobs_args)) jobs_args).

End Effects.

Arguments event {_} A.
Arguments M {_} A X.
Arguments Jobs {_} A.

Declare Scope py_scope.
Delimit Scope py_scope with py.
Notation "x <- c ;; k" := (bind c (fun x => k))
  (at level 61, c at next level, right associativity) : py_scope.
Notation "c ;; k" := (bind c (fun _ => k))
  (at level 61, right associativity) : py_scope.

(** ** [submission/utils.py] *)

(** [paths.LOCAL_OUTPUT_DIR]: the module [src/paths.py] is configuration of
    the installation, so the constant is a parameter. *)
Class Paths := {
  LOCAL_OUTPUT_DIR : string
}.

(** [DataFrame.apply] along the rows of a table without rows does not call
    the function; what it returns instead, and whether assigning that to a
    column raises [ValueError], depends on the pandas version.
    [apply_without_rows] is the exception of the installed version, if it
    raises. *)
Class Pandas := {
  apply_without_rows : option exn
}.

(** The machine the submission runs on. *)
Class Host := {
  now : string;                      (* [datetime.now()], printed *)
  path_exists : string -> bool       (* [os.path.exists] *)
}.

Section Dispatcher.
Context `{PyFloat} {operator : Operator}.
Context {A : Type} {jobs : Jobs A}.

Local Open Scope py_scope.

Definition slurm_additional_parameters : row :=
  [("constraint", VStr "thin"); ("reservation", VStr "safe"); ("gpus", VInt 1)].

Definition execute_job_submission (block_main : bool) (port : option Z)
    (timeout : Z) (args : list A) (func : job_func) : M A (option (list value)) :=
  let jobs_args := args in
  tell (PrintNunique args) ;;
  print ("total num of jobs " ++ Py.str_int (Z.of_nat (List.length args))) ;;
  jobs_args <- match port with
               | Some _ =>
                   print "Running only the first job because of the debug flag" ;;
                   first <- index jobs_args 0 ;;
                   ret [first]
               | None => ret jobs_args
               end ;;
  if Nat.eqb (List.length args) 0 then
    print "No jobs to run exiting" ;;
    ret None
  else
    print "Do you want to continue? [y/n]" ;;
    line <- input ;;
    if negb (String.eqb line "y") then
      print "Aborted" ;;
      ret None
    else
      print "submitting jobs" ;;
      tell (NewExecutor "logs/%j") ;;
      tell (UpdateParameters timeout 8 slurm_additional_parameters) ;;
      match port with
      | Some 0%Z =>
          print "Running in locally" ;;
          call func jobs_args ;;
          ret None
      | _ =>
          jobs <- map_array func jobs_args ;;
          print "Job submitted" ;;
          if block_main then
            print "Waiting for job to finish" ;;
            results <- for_each (job_result func) jobs ;;
            print "All jobs finished" ;;
            ret (Some results)
          else
            ret None
      end.

End Dispatcher.

Section Submitters.
Context `{PyFloat} {paths : Paths} {host : Host} {operator : Operator}.

Local Open Scope py_scope.

Definition value_of_port (port : option Z) : value :=
  match port with
  | Some p => VInt p
  | None => VNone
  end.

(** [column.map(batch_size)] with a dictionary keyed by activation, cell by
    cell.  (When a key is missing pandas makes the whole column float, so
    the sizes found beside it print as floats; the column enters neither the
    filters nor the reports.) *)
Definition map_batch_size (batch_size : ActivationSwitch -> option Z)
    (cell : option value) : value :=
  match cell with
  | Some (VActivation a) =>
      match batch_size a with
      | Some b => VInt b
      | None => VFloat nan
      end
  | _ => VFloat nan
  end.

(** [(column * warmup_epochs_ratio).astype(int)] on one cell that holds a
    number.  Any other cell is refused here; pandas raises for it too, with
    an exception that depends on the cell ([None] becomes nan and fails in
    [astype]), as it does for a product that is nan or infinite.  The
    statements below are about tables whose [epochs] are numbers. *)
Definition warmup_epochs_cell (warmup_epochs_ratio : float) (cell : option value)
  : option value :=
  match cell with
  | Some (VInt e) =>
      Some (VInt (int_of_float (float_mul (float_of_int e) warmup_epochs_ratio)))
  | Some (VBool b) =>
      Some (VInt (int_of_float (float_mul (float_of_int (if b then 1 else 0))
                                          warmup_epochs_ratio)))
  | Some (VFloat e) => Some (VInt (int_of_float (float_mul e warmup_epochs_ratio)))
  | _ => None
  end.

Section Records.
Context {pandas : Pandas} {jobs : Jobs record}.

(** Applying a function that takes the row as keywords, row by row. *)
Definition bind_table (rows : list row) : M record (list record) :=
  match rows with
  | [] =>
      match apply_without_rows with
      | Some e => raise e
      | None => ret []
      end
  | _ =>
      match bind_rows rows with
      | Some table => ret table
      | None => raise TypeError
      end
  end.

Definition warmup_epochs (warmup_epochs_ratio : float) (x : record)
  : M record record :=
  match warmup_epochs_cell warmup_epochs_ratio (lookup "epochs" (other x)) with
  | Some v => ret (set_column "warmup_epochs" v x)
  | None => raise TypeError
  end.

Definition submit_training (block_main : bool) (port : option Z) (timeout : Z)
    (batch_size : ActivationSwitch -> option Z) (warmup_epochs_ratio : float)
    (args : grid) : M record (option (list value)) :=
  let columns := map fst args in
  let args := expand args in
  args <- bind_table args ;;
  let args :=
    map (fun x => set_column "tb_postfix" (VStr (get_experiment_prefix x)) x) args in
  let args :=
    map (fun x => set_column "checkpoint_path" (VStr (get_save_path x)) x) args in
  let checkpoint_exists := fun x => path_exists (str_column "checkpoint_path" x) in
  print "Checkpoints skipped because they do already exist" ;;
  print_each (map (str_column "checkpoint_path") (filter checkpoint_exists args)) ;;
  let valid_args := filter (fun x => negb (checkpoint_exists x)) args in
  let valid_args := map (set_column "port" (value_of_port port)) valid_args in
  let valid_args := map (set_column "block_main" (VBool block_main)) valid_args in
  let valid_args := map (set_column "timeout" (VInt timeout)) valid_args in
  let valid_args :=
    map (fun x => set_column "batch_size"
                    (map_batch_size batch_size (Some (VActivation (activation x)))) x)
        valid_args in
  valid_args <- (if existsb (String.eqb "epochs") columns
                 then for_each (warmup_epochs warmup_epochs_ratio) valid_args
                 else raise (KeyError "epochs")) ;;
  execute_job_submission block_main port timeout valid_args training_main.

Definition submit_grads (block_main : bool) (port : option Z) (timeout : Z)
    (batch_size : ActivationSwitch -> option Z) (args : grid)
  : M record (option (list value)) :=
  print ("time: " ++ now) ;;
  let columns := map fst args in
  let args := expand args in
  let args := map (assign "port" (value_of_port port)) args in
  let args := map (assign "block_main" (VBool block_main)) args in
  let args := map (assign "timeout" (VInt timeout)) args in
  args <- (if existsb (String.eqb "activation") columns
           then ret (map (fun x => assign "batch_size"
                                     (map_batch_size batch_size (lookup "activation" x)) x)
                         args)
           else raise (KeyError "activation")) ;;
  args <- bind_table args ;;
  let args :=
    map (fun x => set_column "experiment_prefix" (VStr (get_experiment_prefix x)) x)
        args in
  let args :=
    map (fun x => set_column "experiment_output_dir"
                    (VStr (Py.os_path_join LOCAL_OUTPUT_DIR
                                           (str_column "experiment_prefix" x))) x)
        args in
  let args :=
    map (fun x => set_column "checkpoint_path" (VStr (get_save_path x)) x) args in
  let output_dir_exists :=
    fun x => path_exists (str_column "experiment_output_dir" x) in
  let checkpoint_exists := fun x => path_exists (str_column "checkpoint_path" x) in
  let valid_ids := fun x => checkpoint_exists x && negb (output_dir_exists x) in
  let valid_args := filter valid_ids args in
  print "Checkpoints skipped:" ;;
  print_each (map (str_column "checkpoint_path")
                  (filter (fun x => negb (checkpoint_exists x)) args)) ;;
  print "Output dirs skipped:" ;;
  print_each (map (str_column "experiment_output_dir")
                  (filter output_dir_exists args)) ;;
  print "Valid args:" ;;
  print_each (map (str_column "experiment_output_dir") (filter valid_ids args)) ;;
  execute_job_submission block_main port timeout valid_args grads_main.

End Records.

Section Rows.
Context {jobs : Jobs row}.

Definition submit_measurements (block_main : bool) (port : option Z)
    (timeout : Z) (args : grid) : M row (option (list value)) :=
  print ("time: " ++ now) ;;
  let args := expand args in
  let args := map (assign "port" (value_of_port port)) args in
  let args := map (assign "block_main" (VBool block_main)) args in
  let args := map (assign "timeout" (VInt timeout)) args in
  execute_job_submission block_main port timeout args quant_main.

End Rows.

End Submitters.

(** ** What a trace shows *)

Section Observations.
Context `{PyFloat} {A : Type}.

(** The argument a job function is called with: the dispatcher's whole
    list, or one of its records. *)
Inductive func_arg :=
| WholeList (jobs_args : list A)
| OneRecord (x : A).

(** The calls of the job function an event stands for: a direct call is one
    call on the list it is given; an array submission is one call per
    element. *)
Definition invocations_of (e : event A) : list (job_func * func_arg) :=
  match e with
  | Call func jobs_args => [(func, WholeList jobs_args)]
  | MapArray func jobs_args => map (fun x => (func, OneRecord x)) jobs_args
  | _ => []
  end.

Definition invocations (t : list (event A)) : list (job_func * func_arg) :=
  flat_map invocations_of t.

(** The records handed to the job function, either way. *)
Definition dispatched_of (e : event A) : list A :=
  match e with
  | Call _ jobs_args => jobs_args
  | MapArray _ jobs_args => jobs_args
  | _ => []
  end.

Definition dispatched (t : list (event A)) : list A := flat_map dispatched_of t.

(** The records submitted to the remote executor. *)
Definition submitted_of (e : event A) : list A :=
  match e with
  | MapArray _ jobs_args => jobs_args
  | _ => []
  end.

Definition submitted (t : list (event A)) : list A := flat_map submitted_of t.

(** An event that hands nothing to a job function. *)
Definition silent (e : event A) : Prop :=
  match e with
  | Call _ _ | MapArray _ _ => False
  | _ => True
  end.

Definition is_input (e : event A) : bool :=
  match e with
  | Input => true
  | _ => false
  end.

(** Whether the console was read. *)
Definition prompted (t : list (event A)) : bool := existsb is_input t.

(** The job handles whose result was requested, in order. *)
Definition requested_of (e : event A) : list nat :=
  match e with
  | Result job => [job]
  | _ => []
  end.

Definition requested (t : list (event A)) : list nat := flat_map requested_of t.

Definition printed_of (e : event A) : list string :=
  match e with
  | Print line => [line]
  | _ => []
  end.

Definition printed (t : list (event A)) : list string := flat_map printed_of t.

End Observations.

Arguments func_arg : clear implicits.

(** The first lines of [quant.main]: [args["port"]] on what it is called
    with.  A list cannot be subscripted by a string. *)
Definition subscript_port `{PyFloat} (args : func_arg row) : outcome value :=
  match args with
  | WholeList _ => Raised TypeError
  | OneRecord x =>
      match lookup "port" x with
      | Some v => Returned v
      | None => Raised (KeyError "port")
      end
  end.

(** ** Vocabulary of the statements *)

Definition trace {E X : Type} (c : list E * outcome X) : list E := fst c.

Definition result {E X : Type} (c : list E * outcome X) : outcome X := snd c.

(** An operator who types [y] at the prompt. *)
Definition confirming : Operator := {| answer := "y" |}.

(** The job list after the debug flag's cut: its first record when a port is
    given, all of it otherwise. *)
Definition debug_cut {A : Type} (port : option Z) (jobs_args : list A) : list A :=
  match port with
  | Some _ => firstn 1 jobs_args
  | None => jobs_args
  end.

(** The number of combinations of a list of pools. *)
Definition size {A : Type} (pools : list (list A)) : nat :=
  fold_right Nat.mul 1 (map (@List.length A) pools).




Section Jobs_of_a_grid.
Context `{PyFloat} {paths : Paths} {host : Host}.

(** The two existence checks of a job. *)
Definition checkpoint_exists (r : record) : bool := path_exists (get_save_path r).

Definition experiment_output_dir (r : record) : string :=
  Py.os_path_join LOCAL_OUTPUT_DIR (get_experiment_prefix r).

Definition output_dir_exists (r : record) : bool :=
  path_exists (experiment_output_dir r).




(** The jobs [submit_grads] lets through: checkpoint there, output
    directory not. *)
Definition valid_ids (r : record) : bool :=
  checkpoint_exists r && negb (output_dir_exists r).

(** The rows of [submit_grads] when their keywords are bound. *)
Definition grads_rows (block_main : bool) (port : option Z) (timeout : Z)
    (batch_size : ActivationSwitch -> option Z) (args : grid) : list row :=
  map (fun x => assign "batch_size" (map_batch_size batch_size (lookup "activation" x)) x)
    (map (assign "timeout" (VInt timeout))
       (map (assign "block_main" (VBool block_main))
          (map (assign "port" (value_of_port port)) (expand args)))).

(** The columns [submit_grads] adds after that. *)
Definition grads_columns (r : record) : record :=
  set_column "checkpoint_path" (VStr (get_save_path r))
    (set_column "experiment_output_dir" (VStr (experiment_output_dir r))
       (set_column "experiment_prefix" (VStr (get_experiment_prefix r)) r)).

(** The lines of the report of [submit_grads], given what goes under each
    heading. *)
Definition grads_report (checkpoint_missing output_exists valid : list record)
  : list string :=
  [("time: " ++ now)%string] ++
  ["Checkpoints skipped:"] ++ map get_save_path checkpoint_missing ++
  ["Output dirs skipped:"] ++ map experiment_output_dir output_exists ++
  ["Valid args:"] ++ map experiment_output_dir valid.

End Jobs_of_a_grid.

(** The blocking option at the end of the dispatcher, on the handles of an
    array submission. *)
Definition wait_for_results `{PyFloat} {A : Type} {jobs : Jobs A}
    (block_main : bool) (func : job_func) (handles : list (nat * A))
  : M A (option (list value)) :=
  if block_main then
    (print "Waiting for job to finish" ;;
     results <- for_each (job_result func) handles ;;
     print "All jobs finished" ;;
     ret (Some results))%py
  else ret None.

(** What the dispatcher prints and does before it dispatches, once the
    operator has confirmed. *)
Definition preamble `{PyFloat} {A : Type} (port : option Z) (timeout : Z)
    (args : list A) : list (event A) :=
  [PrintNunique args;
   Print ("total num of jobs " ++ Py.str_int (Z.of_nat (List.length args)))%string]
  ++ match port with
     | Some _ => [Print "Running only the first job because of the debug flag"]
     | None => []
     end
  ++ [Print "Do you want to continue? [y/n]"; Input; Print "submitting jobs";
      NewExecutor "logs/%j"; UpdateParameters timeout 8 slurm_additional_parameters].

(** The same product by recursion on the pools, the first pool outermost. *)
Fixpoint product_rec {A : Type} (pools : list (list A)) : list (list A) :=
  match pools with
  | [] => [[]]
  | pool :: rest => flat_map (fun y => map (cons y) (product_rec rest)) pool
  end.



(** ** Sample data *)

(** Floats with no fractional part, and nan, printed as Python prints them
    below 1e16 (from there on Python writes an exponent). *)
Definition whole_floats : PyFloat :=
  {| float := option Z;
     str_float := fun x => match x with Some z => (Py.str_int z ++ ".0")%string | None => "nan" end;
     nan := None;
     float_of_int := Some;
     float_mul := fun x y =>
       match x, y with
       | Some a, Some b => Some (a * b)%Z
       | _, _ => None
       end;
     int_of_float := fun x => match x with Some z => z | None => 0%Z end |}.

Definition whole (z : Z) : @float whole_floats := Some z.

(** The grid of the specification's example, two models and two seeds. *)
Definition sample_grid : @grid whole_floats :=
  [ ("dataset", [VDataset MNIST]);
    ("model_name", [VModel RESNET18; VModel RESNET34]);
    ("layers", [VInts [64; 128]%Z]);
    ("activation", [VActivation RELU]);
    ("seed", [VInt 1; VInt 2]);
    ("l2_reg", [VFloat (whole 0)]);
    ("img_size", [VInt 32]);
    ("epochs", [VInt 10]) ].

(** A grid of one job. *)
Definition single_grid : @grid whole_floats :=
  [ ("dataset", [VDataset MNIST]);
    ("model_name", [VModel RESNET18]);
    ("layers", [VInts [64; 128]%Z]);
    ("activation", [VActivation RELU]);
    ("seed", [VInt 1]);
    ("l2_reg", [VFloat (whole 0)]);
    ("img_size", [VInt 32]) ].


(** Two jobs of that grid that differ in the seed alone. *)
Definition resnet18_seed1 : @record whole_floats :=
  mk_record MNIST RESNET18 [64; 128]%Z RELU 1 (whole 0) 32 [("epochs", VInt 10)].

Definition resnet18_seed2 : @record whole_floats :=
  mk_record MNIST RESNET18 [64; 128]%Z RELU 2 (whole 0) 32 [("epochs", VInt 10)].

(** A pandas that refuses the column computed from no rows. *)
Definition strict_pandas : Pandas := {| apply_without_rows := Some ValueError |}.

Definition sample_paths : Paths := {| LOCAL_OUTPUT_DIR := "outputs" |}.

(** A disk with the checkpoint of (RESNET18, seed 1) only. *)
Definition one_checkpoint : Host :=
  {| now := "2024-01-01 00:00:00";
     path_exists := fun p =>
       String.eqb p "checkpoints/MNIST/RESNET18::64_128::RELU::1::0.0::32.pt" |}.

(** A disk with the output directory of (RESNET18, seed 1) and no checkpoint. *)
Definition stale_output : Host :=
  {| now := "2024-01-01 00:00:00";
     path_exists := fun p =>
       String.eqb p "outputs/MNIST/RESNET18::64_128::RELU::1::0.0::32" |}.

(** Jobs that all return [None]. *)
Definition quiet_jobs {A : Type} : @Jobs whole_floats A :=
  {| run_here := fun _ _ => None;
     job_outcome := fun _ _ _ => Returned VNone |}.

(** Jobs of which the second fails. *)
Definition second_fails {A : Type} : @Jobs whole_floats A :=
  {| run_here := fun _ _ => None;
     job_outcome := fun _ i _ =>
       if Nat.eqb i 1 then Raised (JobFailed "out of memory") else Returned (VInt (Z.of_nat i)) |}.


Definition single_table : list (@record whole_floats) :=
  Eval vm_compute in
    match bind_rows (grads_rows true None 10 (fun _ => Some 32%Z) single_grid) with
    | Some table => table
    | None => []
    end.

(** ** More of what a trace shows *)

Section Executor_events.
Context `{PyFloat} {A : Type}.

(** An event on the remote executor: its construction, its configuration,
    a submission or a wait. *)
Definition on_executor (e : event A) : bool :=
  match e with
  | NewExecutor _ | UpdateParameters _ _ _ | MapArray _ _ | Result _ => true
  | _ => false
  end.

(** Whether the run touched the remote executor at all. *)
Definition used_executor (t : list (event A)) : bool := existsb on_executor t.

(** What the dispatcher prints and reads when the operator declines. *)
Definition declined_trace (port : option Z) (args : list A) : list (event A) :=
  [PrintNunique args;
   Print ("total num of jobs " ++ Py.str_int (Z.of_nat (List.length args)))%string]
  ++ match port with
     | Some _ => [Print "Running only the first job because of the debug flag"]
     | None => []
     end
  ++ [Print "Do you want to continue? [y/n]"; Input; Print "Aborted"].

End Executor_events.

(** The rows [submit_measurements] hands to the dispatcher. *)
Definition measurement_rows `{PyFloat} (block_main : bool) (port : option Z)
    (timeout : Z) (args : grid) : list row :=
  map (assign "timeout" (VInt timeout))
    (map (assign "block_main" (VBool block_main))
       (map (assign "port" (value_of_port port)) (expand args))).

(** The fields [get_experiment_prefix] reads. *)
Definition consumed `{PyFloat} (r : record)
  : DatasetSwitch * ModelSwitch * list Z * ActivationSwitch * Z * float * Z :=
  (dataset r, model_name r, layers r, activation r, seed r, l2_reg r, img_size r).

(** ** The rest of [src/utils.py] *)

(** More of Python's strings. *)
Module PyStr.

(** [sub in s]. *)
Fixpoint contains (sub s : string) : bool :=
  String.prefix sub s
  || match s with
     | EmptyString => false
     | String _ rest => contains sub rest
     end.

(** [s.endswith(suffix)]. *)
Fixpoint endswith (suffix s : string) : bool :=
  String.eqb s suffix
  || match s with
     | EmptyString => false
     | String _ rest => endswith suffix rest
     end.

(** [s.replace(old, new)]: the occurrences of [old] from the left, without
    overlap.  [skip] counts the characters of an occurrence still to pass. *)
Fixpoint replace_from (skip : nat) (old new s : string) : string :=
  match s with
  | EmptyString => EmptyString
  | String a rest =>
      match skip with
      | S k => replace_from k old new rest
      | O =>
          if String.prefix old s
          then (new ++ replace_from (String.length old - 1) old new rest)%string
          else String a (replace_from 0 old new rest)
      end
  end.

(** An empty [old] matches before every character and at the end. *)
Fixpoint between (new s : string) : string :=
  match s with
  | EmptyString => new
  | String a rest => (new ++ String a (between new rest))%string
  end.

Definition replace (old new s : string) : string :=
  match old with
  | EmptyString => between new s
  | _ => replace_from 0 old new s
  end.

(** [s.upper()] on ASCII. *)
Definition upper_char (c : ascii) : ascii :=
  let n := nat_of_ascii c in
  if Nat.leb 97 n && Nat.leb n 122 then ascii_of_nat (n - 32) else c.

Fixpoint upper (s : string) : string :=
  match s with
  | EmptyString => EmptyString
  | String a rest => String (upper_char a) (upper rest)
  end.

(** [os.path.basename(p)]: what follows the last separator. *)
Fixpoint basename (p : string) : string :=
  match p with
  | EmptyString => EmptyString
  | String a rest =>
      if Py.lacks "/" rest
      then if Ascii.eqb a "/" then rest else p
      else basename rest
  end.

End PyStr.

Inductive AugmentationSwitch := EXP_VIS | EXP_GEN | TRAIN.

Definition str_augmentation (a : AugmentationSwitch) : string :=
  match a with
  | EXP_VIS => "EXP_VIS"
  | EXP_GEN => "EXP_GEN"
  | TRAIN => "TRAIN"
  end.

(** The exceptions of the job's side: the built-in ones above, and those
    the code raises with a message. *)
Inductive error :=
| Builtin (e : exn)
| ValueErrorMsg (msg : string)       (* [ValueError] with its message *)
| ArgumentTypeError (msg : string)
| NameError (msg : string)
| NotImplementedError (msg : string)
| RuntimeError (msg : string)
| AssertionError (msg : string)
| UnboundLocalError (variable : string)
| AttributeError (attribute : string).

Inductive res (X : Type) :=
| Done (x : X)
| Failed (e : error).

Arguments Done {X} x.
Arguments Failed {X} e.

(** [ConvertableEnum]: a class's name, its members in definition order,
    and the name and value of a member. *)
Class ConvertableEnum (E : Type) := {
  cls_name : string;
  members : list E;
  name : E -> string;
  enum_value : E -> Z
}.

#[export] Instance LossSwitch_enum : ConvertableEnum LossSwitch :=
  {| cls_name := "LossSwitch";
     members := [MSE; CE];
     name := str_loss;
     enum_value := fun l => match l with MSE => 0 | CE => 1 end%Z |}.

#[export] Instance ModelSwitch_enum : ConvertableEnum ModelSwitch :=
  {| cls_name := "ModelSwitch";
     members := [SIMPLE_CNN_DEPTH; SIMPLE_CNN; SIMPLE_CNN_BN; SIMPLE_CNN_SK;
                 SIMPLE_CNN_SK_BN; RESNET18; RESNET34; RESNET50; RESNET_BASIC;
                 RESNET_BOTTLENECK];
     name := str_model;
     enum_value := fun m =>
       match m with
       | SIMPLE_CNN_DEPTH => 1000
       | SIMPLE_CNN => 1001
       | SIMPLE_CNN_BN => 1007
       | SIMPLE_CNN_SK => 1008
       | SIMPLE_CNN_SK_BN => 1009
       | RESNET18 => 1002
       | RESNET34 => 1003
       | RESNET50 => 1004
       | RESNET_BASIC => 1005
       | RESNET_BOTTLENECK => 1006
       end%Z |}.

#[export] Instance ActivationSwitch_enum : ConvertableEnum ActivationSwitch :=
  {| cls_name := "ActivationSwitch";
     members := [SOFTPLUS_B_01; SOFTPLUS_B_1; SOFTPLUS_B_2; SOFTPLUS_B100;
                 SOFTPLUS_B10; SOFTPLUS_B7; SOFTPLUS_B5; SOFTPLUS_B3; SOFTPLUS_B1;
                 LEAKY_RELU; RELU];
     name := str_activation;
     enum_value := fun a =>
       match a with
       | SOFTPLUS_B_01 => 11
       | SOFTPLUS_B_1 => 12
       | SOFTPLUS_B_2 => 13
       | SOFTPLUS_B100 => 17
       | SOFTPLUS_B10 => 16
       | SOFTPLUS_B7 => 18
       | SOFTPLUS_B5 => 15
       | SOFTPLUS_B3 => 19
       | SOFTPLUS_B1 => 14
       | LEAKY_RELU => 21
       | RELU => 10
       end%Z |}.

#[export] Instance DatasetSwitch_enum : ConvertableEnum DatasetSwitch :=
  {| cls_name := "DatasetSwitch";
     members := [CIFAR10; MNIST; IMAGENETTE; FASHION_MNIST; GRADS];
     name := str_dataset;
     enum_value := fun d =>
       match d with
       | CIFAR10 => 200
       | MNIST => 201
       | IMAGENETTE => 202
       | FASHION_MNIST => 203
       | GRADS => 299
       end%Z |}.

#[export] Instance AugmentationSwitch_enum : ConvertableEnum AugmentationSwitch :=
  {| cls_name := "AugmentationSwitch";
     members := [EXP_VIS; EXP_GEN; TRAIN];
     name := str_augmentation;
     enum_value := fun a => match a with EXP_VIS => 1 | EXP_GEN => 2 | TRAIN => 3 end%Z |}.

(** [cls[value]]: the member of that name.  Two names with one value would
    be one member under two names; no class here has such a pair. *)
Definition getitem {E : Type} `{ConvertableEnum E} (value : string) : option E :=
  find (fun e => String.eqb (name e) value) members.

Definition convert {E : Type} `{ConvertableEnum E} (value : string) : res E :=
  match getitem value with
  | Some e => Done e
  | None =>
      Failed (ArgumentTypeError
                ("Invalid " ++ cls_name ++ " value '" ++ value ++ "'. Choose from "
                 ++ Py.join ", " (map name members) ++ "."))
  end.

(** [float(s)] and the comparisons with zero the code makes. *)
Class PyFloatOps `{PyFloat} := {
  float_of_string : string -> option float;   (* [None]: [ValueError] *)
  float_gt_zero : float -> bool;              (* [x > 0] *)
  float_eq_zero : float -> bool               (* [x == 0] *)
}.

Section Conversions.
Context `{PyFloatOps}.

(** [str(v)]. *)
Definition str_value (v : value) : string :=
  match v with
  | VNone => "None"
  | VBool true => "True"
  | VBool false => "False"
  | VInt z => Py.str_int z
  | VFloat x => str_float x
  | VStr s => s
  | VInts l => "[" ++ Py.join ", " (map Py.str_int l) ++ "]"
  | VLoss l => str_loss l
  | VModel m => str_model m
  | VActivation a => str_activation a
  | VDataset d => str_dataset d
  end.

(** The modules of [torch.nn] the two functions build. *)
Inductive activation_fn :=
| LeakyReLU
| ReLU
| Softplus (beta : float).

Inductive loss_fn :=
| MSELoss (reduction : string)
| CrossEntropyLoss (reduction : string).

Definition convert_str_to_activation_fn (activation : value) : res activation_fn :=
  let str_activation := str_value activation in
  if PyStr.contains "LEAKY_RELU" str_activation then Done LeakyReLU
  else if PyStr.contains "RELU" str_activation then Done ReLU
  else if PyStr.contains "SOFTPLUS" str_activation then
    let beta := PyStr.replace "SOFTPLUS_B" "" str_activation in
    let beta := PyStr.replace "_" "." beta in
    match float_of_string beta with
    | Some beta => Done (Softplus beta)
    | None => Failed (Builtin ValueError)
    end
  else Failed (NameError str_activation).

(** [member == loss] between a member and any value: the same member. *)
Definition eq_loss (member : LossSwitch) (loss : value) : bool :=
  match loss, member with
  | VLoss MSE, MSE | VLoss CE, CE => true
  | _, _ => false
  end.

Definition convert_str_to_loss_fn (loss : value) : res loss_fn :=
  if eq_loss MSE loss then Done (MSELoss "sum")
  else if eq_loss CE loss then Done (CrossEntropyLoss "sum")
  else Failed (NameError (str_value loss)).

(** [v == 0]: numbers compare by value, [False] is zero, anything else
    differs from zero. *)
Definition eq_zero (v : value) : bool :=
  match v with
  | VInt z => Z.eqb z 0
  | VBool b => negb b
  | VFloat x => float_eq_zero x
  | _ => false
  end.

End Conversions.

(** The literal the name of a softplus member stands for. *)
Definition beta_literal (a : ActivationSwitch) : string :=
  match a with
  | SOFTPLUS_B_01 => ".01"
  | SOFTPLUS_B_1 => ".1"
  | SOFTPLUS_B_2 => ".2"
  | SOFTPLUS_B100 => "100"
  | SOFTPLUS_B10 => "10"
  | SOFTPLUS_B7 => "7"
  | SOFTPLUS_B5 => "5"
  | SOFTPLUS_B3 => "3"
  | SOFTPLUS_B1 => "1"
  | LEAKY_RELU | RELU => ""
  end.

(** ** The job's side: [submission/quant.py] and what it calls

    [src/paths.py] is configuration of the installation: what the code reads
    from it is a parameter. *)
Class DataPaths := {
  paths_attribute : string -> option string;      (* [getattr(paths, name)] *)
  get_local_data_dir : DatasetSwitch -> string;
  get_remote_data_dir : DatasetSwitch -> string;
  COMPUTE_OUTPUT_DIR : string;
  LOCAL_QUANTS_DIR : string
}.

(** The node a job runs on. *)
Class Node := {
  cuda_is_available : bool;                       (* [torch.cuda.is_available()] *)
  job_hostname : res string;                      (* [submitit.JobEnvironment().hostname] *)
  returncode : list string -> Z;                  (* of [subprocess.run] on an argument list *)
  stderr : list string -> string;
  shell_returncode : string -> Z                  (* of [subprocess.run(..., shell=True)] *)
}.

(** [quant_measures_grads.main(root_path=..., **args)]. *)
Class Measures `{PyFloat} (R : Type) := {
  quant_measures_grads_main : string -> row -> res R
}.

Section NodeSide.
Context `{PyFloatOps} {R : Type}.

(** What a job does to the outside, in order. *)
Inductive effect :=
| Stdout (line : string)
| StdoutArgs (args : func_arg row)
| Listen (hostname : string) (port : value)
| WaitForClient
| Makedirs (path : string)
| System (command : string)
| Subprocess (argv : list string)
| Shell (command : string)
| MeasuresMain (root_path : string) (args : row)
| ToCsv (results : R) (path : string).

Definition Job (X : Type) : Type := list effect * res X.

Definition job_ret {X} (x : X) : Job X := ([], Done x).

Definition job_raise {X} (e : error) : Job X := ([], Failed e).

Definition job_bind {X Y} (c : Job X) (k : X -> Job Y) : Job Y :=
  match c with
  | (t, Failed e) => (t, Failed e)
  | (t, Done x) => let (t', r) := k x in (t ++ t', r)
  end.

Definition perform (e : effect) : Job unit := ([e], Done tt).

Definition lift {X} (r : res X) : Job X := ([], r).

(** [args[k]] on a dictionary. *)
Definition subscript (k : string) (args : row) : Job value :=
  match lookup k args with
  | Some v => job_ret v
  | None => job_raise (Builtin (KeyError k))
  end.

End NodeSide.

Arguments effect {_} R.
Arguments Job {_} R X.

Declare Scope job_scope.
Delimit Scope job_scope with job.
Notation "x <- c ;; k" := (job_bind c (fun x => k))
  (at level 61, c at next level, right associativity) : job_scope.
Notation "c ;; k" := (job_bind c (fun _ => k))
  (at level 61, right associativity) : job_scope.

Definition effects {E X : Type} (c : list E * res X) : list E := fst c.

Definition returned {E X : Type} (c : list E * res X) : res X := snd c.

Section Device.
Context `{PyFloatOps} {R : Type} {node : Node}.

Local Open Scope job_scope.

(** [determine_device] writes into the dictionary it is given; the
    dictionary after the call is what the model returns. *)
Definition determine_device (args : row) : Job R row :=
  let device := if cuda_is_available then "cuda" else "cpu" in
  port <- subscript "port" args ;;
  let device := if eq_zero port then "cpu" else device in
  let args := assign "device" (VStr device) args in
  perform (Stdout ("Using " ++ device ++ " device")) ;;
  job_ret args.

End Device.

(** ** [src/datasets.py]: the registry *)

(** The functions the module decorates with [register_dataset]. *)
Inductive dataset_func :=
| get_imagenet_dataset
| get_imagenette_dataset
| get_fashion_mnist_dataset
| get_cifar10_dataset
| get_mnist_dataset
| get_grad_dataloader.

Definition DatasetSwitch_eq_dec (a b : DatasetSwitch) : {a = b} + {a <> b}.
Proof. decide equality. Defined.

Definition dataset_func_eq_dec (a b : dataset_func) : {a = b} + {a <> b}.
Proof. decide equality. Defined.

(** A dictionary with keys of a type with decidable equality, in insertion
    order. *)
Section Dict.
Context {K V : Type} (eq_dec : forall a b : K, {a = b} + {a <> b}).

Fixpoint dict_get (k : K) (d : list (K * V)) : option V :=
  match d with
  | [] => None
  | (k', v) :: rest => if eq_dec k k' then Some v else dict_get k rest
  end.

Fixpoint dict_set (k : K) (v : V) (d : list (K * V)) : list (K * V) :=
  match d with
  | [] => [(k, v)]
  | (k', v') :: rest =>
      if eq_dec k k' then (k, v) :: rest else (k', v') :: dict_set k v rest
  end.

End Dict.

(** The module's state: the dictionary [registered_datasets], and the
    attribute [__root_path__] of the function objects, which
    [register_dataset] writes on the function itself. *)
Record module_state := {
  registered_datasets : list (DatasetSwitch * dataset_func);
  root_path_attribute : list (dataset_func * string)
}.

Definition fresh_module : module_state :=
  {| registered_datasets := []; root_path_attribute := [] |}.

Section Registry.
Context {data_paths : DataPaths}.

(** [register_dataset(name)(func)]. *)
Definition register_dataset (name : DatasetSwitch) (func : dataset_func)
    (st : module_state) : res module_state :=
  let str_name := str_dataset name in
  let attribute := (PyStr.upper str_name ++ "_ROOT")%string in
  match paths_attribute attribute with
  | None => Failed (AttributeError attribute)
  | Some root =>
      Done {| registered_datasets :=
                dict_set DatasetSwitch_eq_dec name func (registered_datasets st);
              root_path_attribute :=
                dict_set dataset_func_eq_dec func root (root_path_attribute st) |}
  end.

(** [DatasetSwitch.<attribute>], as the decorator lines evaluate it. *)
Definition DatasetSwitch_attribute (attribute : string) : res DatasetSwitch :=
  match getitem attribute with
  | Some d => Done d
  | None => Failed (AttributeError attribute)
  end.

(** The decorator lines of the module, in order: the member each names and
    the function it decorates. *)
Definition decorators : list (string * dataset_func) :=
  [ ("IMAGENET", get_imagenet_dataset);
    ("IMAGENETTE", get_imagenette_dataset);
    ("FASHION_MNIST", get_fashion_mnist_dataset);
    ("CIFAR10", get_cifar10_dataset);
    ("MNIST", get_mnist_dataset);
    ("GRADS", get_grad_dataloader) ].

Fixpoint run_decorators (lines : list (string * dataset_func)) (st : module_state)
  : res module_state :=
  match lines with
  | [] => Done st
  | (attribute, func) :: rest =>
      match DatasetSwitch_attribute attribute with
      | Failed e => Failed e
      | Done name =>
          match register_dataset name func st with
          | Failed e => Failed e
          | Done st' => run_decorators rest st'
          end
      end
  end.

(** Importing the module. *)
Definition import_datasets : res module_state := run_decorators decorators fresh_module.

End Registry.

(** ** [src/datasets.py]: directories and data movement *)

Section Directories.
Context `{PyFloatOps} {R : Type}.
Context {paths : Paths} {data_paths : DataPaths} {node : Node}.

Local Open Scope job_scope.

(** [registered_datasets[key]]: a list cannot be a key; only the members
    the module registered are there. *)
Definition registered (st : module_state) (key : value)
  : Job R (DatasetSwitch * dataset_func) :=
  match key with
  | VInts _ => job_raise (Builtin TypeError)
  | VDataset d =>
      match dict_get DatasetSwitch_eq_dec d (registered_datasets st) with
      | Some func => job_ret (d, func)
      | None => job_raise (Builtin (KeyError (str_value key)))
      end
  | _ => job_raise (Builtin (KeyError (str_value key)))
  end.

Definition root_path_of (st : module_state) (func : dataset_func) : Job R string :=
  match dict_get dataset_func_eq_dec func (root_path_attribute st) with
  | Some root => job_ret root
  | None => job_raise (AttributeError "__root_path__")
  end.

Definition resolve_data_directories (st : module_state) (args : row)
  : Job R (string * string * string * string * string * string * string) :=
  key <- subscript "dataset" args ;;
  entry <- registered st key ;;
  let (dataset, func) := entry in
  DATA_DIR <- root_path_of st func ;;
  port <- subscript "port" args ;;
  let (COMPUTE_DATA_DIR, COMPUTE_OUTPUT_DIR) :=
    if eq_zero port
    then (get_local_data_dir dataset, LOCAL_OUTPUT_DIR)
    else (get_remote_data_dir dataset, COMPUTE_OUTPUT_DIR) in
  let LOCAL_OUTPUT_DIR := LOCAL_OUTPUT_DIR in
  let (EXT, BASE_DIR) :=
    if PyStr.endswith ".tgz" DATA_DIR
    then ("tgz", PyStr.replace ".tgz" "" (PyStr.basename DATA_DIR))
    else ("tar", PyStr.basename DATA_DIR) in
  let COMPUTE_DATA_DIR_BASE_DIR := Py.os_path_join COMPUTE_DATA_DIR BASE_DIR in
  perform (Makedirs COMPUTE_DATA_DIR_BASE_DIR) ;;
  let TARGET_DIR :=
    if String.eqb EXT "tar" then COMPUTE_DATA_DIR_BASE_DIR else COMPUTE_DATA_DIR in
  perform (Makedirs COMPUTE_OUTPUT_DIR) ;;
  job_ret (DATA_DIR, COMPUTE_DATA_DIR, EXT, COMPUTE_DATA_DIR_BASE_DIR, TARGET_DIR,
           COMPUTE_OUTPUT_DIR, LOCAL_OUTPUT_DIR).

(** [subprocess.run] on an argument list, and the check of its return
    code. *)
Definition run_checked (argv : list string) (failure : string -> string)
  : Job R unit :=
  perform (Subprocess argv) ;;
  if negb (Z.eqb (returncode argv) 0)
  then job_raise (RuntimeError (failure (stderr argv)))
  else job_ret tt.

Definition move_output_compute_node (COMPUTE_OUTPUT_DIR experiment_output_dir : string)
  : Job R unit :=
  run_checked
    ["time"; "fpsync"; "-n"; "8"; "-m"; "tarify"; "-s"; "2000M";
     COMPUTE_OUTPUT_DIR; experiment_output_dir]
    (fun stderr => "Failed to sync output: " ++ stderr)%string.

Definition extract_the_dataset_on_compute_node
    (COMPUTE_DATA_DIR EXT COMPUTE_DATA_DIR_BASE_DIR : string) : Job R unit :=
  let command :=
    ("time ls " ++ COMPUTE_DATA_DIR ++ "*." ++ EXT
     ++ " | xargs -n 1 -P 8 -I @ tar -xf @ -C " ++ COMPUTE_DATA_DIR_BASE_DIR)%string in
  perform (Shell command) ;;
  if negb (Z.eqb (shell_returncode command) 0)
  then job_raise (RuntimeError "Failed to extract data")
  else job_ret tt.

Definition move_data_to_compute_node (DATA_DIR : string) (IS_COMPRESSED : bool)
    (COMPUTE_DATA_DIR : string) : Job R unit :=
  run_checked
    (if IS_COMPRESSED
     then ["time"; "rsync"; "-avh"; "--progress"; DATA_DIR; COMPUTE_DATA_DIR]
     else ["time"; "fpsync"; "-n"; "8"; "-m"; "tarify"; "-s"; "2000M";
           DATA_DIR; COMPUTE_DATA_DIR])
    (fun stderr => "Failed to sync data: " ++ stderr)%string.

End Directories.

(** ** [src/datasets.py]: [RepeatedSequentialSampler] *)

(** The sampler over a data source of [datasource_len] items. *)
Record RepeatedSequentialSampler := {
  datasource_len : nat;
  num_repeats : Z
}.

(** [range(n)]: empty for a negative [n]. *)
Definition range (n : Z) : list nat := seq 0 (Z.to_nat n).

(** The indices [__iter__] yields, in order. *)
Definition sampler_iter (s : RepeatedSequentialSampler) : list nat :=
  flat_map (fun i => map (fun _ => i) (range (num_repeats s))) (seq 0 (datasource_len s)).

(** What [__len__] returns. *)
Definition sampler_len (s : RepeatedSequentialSampler) : Z :=
  (Z.of_nat (datasource_len s) * num_repeats s)%Z.

(** ** [submission/quant.py] *)

Section QuantMain.
Context `{PyFloatOps} {R : Type}.
Context {paths : Paths} {data_paths : DataPaths} {node : Node} {measures : Measures R}.

Local Open Scope job_scope.

(** [v > 0]: numbers compare, [True] is one; nothing else is ordered with
    an [int]. *)
Definition gt_zero (v : value) : res bool :=
  match v with
  | VInt z => Done (Z.ltb 0 z)
  | VBool b => Done b
  | VFloat x => Done (float_gt_zero x)
  | _ => Failed (Builtin TypeError)
  end.

(** [key in args]. *)
Definition has_key (key : string) (args : row) : bool :=
  match lookup key args with
  | Some _ => true
  | None => false
  end.

(** [main(args)], with the state of [src.datasets] it finds.  The dispatcher
    calls it on a list in local mode and on one dictionary per array job. *)
Definition main (st : module_state) (args : func_arg row) : Job R unit :=
  perform (StdoutArgs args) ;;
  match args with
  | WholeList _ => job_raise (Builtin TypeError)
  | OneRecord args =>
      port <- subscript "port" args ;;
      debug <- match port with
               | VNone => job_ret false
               | _ => lift (gt_zero port)
               end ;;
      (if debug : bool then
         hostname <- lift job_hostname ;;
         perform (Stdout ("Debugger is running on node " ++ hostname ++ " port "
                          ++ str_value port)) ;;
         perform (Listen hostname port) ;;
         perform (Stdout "Waiting for debugger attach") ;;
         perform WaitForClient
       else job_ret tt) ;;
      args <- determine_device args ;;
      dirs <- resolve_data_directories st args ;;
      let '(DATA_DIR, COMPUTE_DATA_DIR, EXT, COMPUTE_DATA_DIR_BASE_DIR, TARGET_DIR,
            COMPUTE_OUTPUT_DIR, LOCAL_OUTPUT_DIR) := dirs in
      perform (System "module load Fpart/1.5.1-gcc-8.5.0") ;;
      move_data_to_compute_node LOCAL_OUTPUT_DIR (String.eqb EXT "tgz") COMPUTE_DATA_DIR ;;
      extract_the_dataset_on_compute_node COMPUTE_DATA_DIR EXT TARGET_DIR ;;
      perform (Stdout "Running main job...") ;;
      perform (Stdout ("Data is in " ++ COMPUTE_DATA_DIR_BASE_DIR)) ;;
      results <- (if has_key "root_path" args
                  then job_raise (Builtin TypeError)
                  else perform (MeasuresMain COMPUTE_DATA_DIR args) ;;
                       lift (quant_measures_grads_main COMPUTE_DATA_DIR args)) ;;
      perform (Makedirs LOCAL_QUANTS_DIR) ;;
      perform (ToCsv results (Py.os_path_join LOCAL_QUANTS_DIR "quants.csv")) ;;
      job_ret tt
  end.

End QuantMain.

(** What the effects of a job show. *)
Section Job_observations.
Context `{PyFloat} {R : Type}.

Definition is_listen (e : effect R) : bool :=
  match e with Listen _ _ => true | _ => false end.

Definition is_to_csv (e : effect R) : bool :=
  match e with ToCsv _ _ => true | _ => false end.

Definition is_measures (e : effect R) : bool :=
  match e with MeasuresMain _ _ => true | _ => false end.

Definition is_makedirs (e : effect R) : bool :=
  match e with Makedirs _ => true | _ => false end.

(** The commands run, in order. *)
Definition command_of (e : effect R) : list (list string) :=
  match e with
  | System command => [[command]]
  | Subprocess argv => [argv]
  | Shell command => [[command]]
  | _ => []
  end.

Definition commands (t : list (effect R)) : list (list string) := flat_map command_of t.

End Job_observations.

(** ** [src/datasets.py]: augmentations *)

Definition AugmentationSwitch_eqb (a b : AugmentationSwitch) : bool :=
  match a, b with
  | EXP_VIS, EXP_VIS | EXP_GEN, EXP_GEN | TRAIN, TRAIN => true
  | _, _ => false
  end.

Section Augmentations.
Context `{PyFloatOps}.

(** The transforms the module builds, with their arguments; a float
    written in the source is kept as its literal. *)
#[warnings="-register-all"] Inductive transform :=
| ToTensor
| RandomResizedCrop (size : Z)
| RandomChoice (transforms : list transform)
| RandomHorizontalFlip
| RandomVerticalFlip
| ColorJitter (brightness contrast saturation hue : string)
| RandomRotation (degrees : Z)
| RandomAffine (degrees : Z) (translate : string * string)
| RandomPerspective (distortion_scale : string)
| RandomErasing (p : string) (value : string)
| RandomGrayscale (p : string)
| Resize (size : Z * Z)
| Normalize (mean std : list string)
| AddInverse (dim : Z)
| GaussianISONoise (std : float)
| GaussianBlur (kernel_size : Z) (sigma : float).

Definition CIFAR10_MEAN : list string := ["0.49139968"; "0.48215841"; "0.44653091"].
Definition CIFAR10_STD : list string := ["0.24703223"; "0.24348513"; "0.26158784"].
Definition IMAGENETTE_MEAN : list string := ["0.485"; "0.456"; "0.406"].
Definition IMAGENETTE_STD : list string := ["0.229"; "0.224"; "0.225"].
Definition IMAGENET_MEAN : list string := ["0.485"; "0.456"; "0.406"].
Definition IMAGENET_STD : list string := ["0.229"; "0.224"; "0.225"].
Definition FASHION_MNIST_MEAN : list string := ["0.5"].
Definition FASHION_MNIST_STD : list string := ["0.5"].
Definition MNIST_MEAN : list string := ["0.5"].
Definition MNIST_STD : list string := ["0.5"].

(** The random choice of the two ImageNet training pipelines. *)
Definition random_choice : transform :=
  RandomChoice
    [ RandomHorizontalFlip;
      RandomVerticalFlip;
      ColorJitter "0.1" "0.1" "0.1" "0.1";
      RandomRotation 10;
      RandomAffine 5 ("0.1", "0.1");
      RandomPerspective "0.1";
      RandomErasing "0.25" "random";
      RandomGrayscale "0.1" ].

(** [xs.append(x)] under [if c]. *)
Definition append_if (c : bool) (x : transform) (xs : list transform) : list transform :=
  if c then xs ++ [x] else xs.

(** The end of the two ImageNet functions: the list may have stayed
    unbound, and [get_aug_imagenet] asserts that it is not empty. *)
Definition bound (augmentations : option (list transform)) : res (list transform) :=
  match augmentations with
  | Some augmentations => Done augmentations
  | None => Failed (UnboundLocalError "augmentations")
  end.

Definition get_aug_imagenet (img_size : Z) (augmentation : AugmentationSwitch)
    (add_inverse : bool) (gaussian_noise_var gaussian_blur_var : float)
    (split : string) : res (list transform) :=
  match
    if AugmentationSwitch_eqb augmentation TRAIN then
      if String.eqb split "train" then
        let augmentations :=
          [ ToTensor;
            RandomResizedCrop img_size;
            random_choice;
            if add_inverse then AddInverse (-3) else Normalize IMAGENET_MEAN IMAGENET_STD;
            GaussianISONoise gaussian_noise_var ] in
        Done (Some (append_if (float_gt_zero gaussian_blur_var)
                              (GaussianBlur 5 gaussian_blur_var) augmentations))
      else if String.eqb split "test" then
        Done (Some [ ToTensor;
                     Resize (img_size, img_size);
                     if add_inverse then AddInverse (-3)
                     else Normalize IMAGENET_MEAN IMAGENET_STD ])
      else Failed (ValueErrorMsg ("Split " ++ split ++ " not recognized"))
    else if AugmentationSwitch_eqb augmentation EXP_GEN then
      let augmentations :=
        [ ToTensor;
          Resize (img_size, img_size);
          if add_inverse then AddInverse (-3) else Normalize IMAGENET_MEAN IMAGENET_STD ] in
      let augmentations :=
        append_if (float_gt_zero gaussian_noise_var)
                  (GaussianISONoise gaussian_noise_var) augmentations in
      Done (Some (append_if (float_gt_zero gaussian_blur_var)
                            (GaussianBlur 5 gaussian_blur_var) augmentations))
    else Done None
  with
  | Failed e => Failed e
  | Done augmentations =>
      let augmentations :=
        if AugmentationSwitch_eqb augmentation EXP_VIS
        then Some [ToTensor; Resize (img_size, img_size)]
        else augmentations in
      match bound augmentations with
      | Failed e => Failed e
      | Done augmentations =>
          if Nat.ltb 0 (List.length augmentations) then Done augmentations
          else Failed (AssertionError "Augmentations list is empty")
      end
  end.

Definition get_aug_imagenette (img_size : Z) (augmentation : AugmentationSwitch)
    (add_inverse : bool) (gaussian_noise_var gaussian_blur_var : float)
    (split : string) : res (list transform) :=
  match
    if AugmentationSwitch_eqb augmentation TRAIN then
      if String.eqb split "train" then
        let augmentations :=
          [ ToTensor;
            RandomResizedCrop img_size;
            random_choice;
            if add_inverse then AddInverse (-3)
            else Normalize IMAGENETTE_MEAN IMAGENETTE_STD;
            GaussianISONoise gaussian_noise_var ] in
        Done (Some (append_if (float_gt_zero gaussian_blur_var)
                              (GaussianBlur 5 gaussian_blur_var) augmentations))
      else if String.eqb split "test" then
        Done (Some [ ToTensor;
                     Resize (img_size, img_size);
                     if add_inverse then AddInverse (-3)
                     else Normalize IMAGENETTE_MEAN IMAGENETTE_STD ])
      else Failed (ValueErrorMsg ("Split " ++ split ++ " not recognized"))
    else if AugmentationSwitch_eqb augmentation EXP_GEN then
      let augmentations :=
        [ ToTensor;
          Resize (img_size, img_size);
          if add_inverse then AddInverse (-3)
          else Normalize IMAGENETTE_MEAN IMAGENETTE_STD;
          GaussianISONoise gaussian_noise_var ] in
      Done (Some (append_if (float_gt_zero gaussian_blur_var)
                            (GaussianBlur 5 gaussian_blur_var) augmentations))
    else Done None
  with
  | Failed e => Failed e
  | Done augmentations =>
      let augmentations :=
        if AugmentationSwitch_eqb augmentation EXP_VIS
        then Some [ToTensor; Resize (img_size, img_size)]
        else augmentations in
      bound augmentations
  end.

(** Returns the test pipeline first. *)
Definition get_aug_fmnist (img_size : Z) (add_inverse : bool)
    (gaussian_noise_var gaussian_blur_var : float) (augmentation : AugmentationSwitch)
  : res (list transform * list transform) :=
  if AugmentationSwitch_eqb augmentation EXP_VIS then
    let test_transform := [ToTensor; Resize (img_size, img_size)] in
    let train_transform := test_transform in
    if add_inverse
    then Failed (NotImplementedError "AddInverse not implemented for FashionMNIST")
    else Done (test_transform, train_transform)
  else
    let test_transform :=
      [ ToTensor;
        Normalize FASHION_MNIST_MEAN FASHION_MNIST_STD;
        Resize (img_size, img_size) ] in
    let train_transform := test_transform in
    if AugmentationSwitch_eqb augmentation TRAIN then
      let train_transform :=
        append_if (float_gt_zero gaussian_noise_var)
                  (GaussianISONoise gaussian_noise_var) train_transform in
      let train_transform :=
        append_if (float_gt_zero gaussian_blur_var)
                  (GaussianBlur 5 gaussian_blur_var) train_transform in
      if add_inverse
      then Failed (NotImplementedError "AddInverse not implemented for FashionMNIST")
      else Done (test_transform, train_transform)
    else if AugmentationSwitch_eqb augmentation EXP_GEN then
      let train_transform :=
        append_if (float_gt_zero gaussian_noise_var)
                  (GaussianISONoise gaussian_noise_var) train_transform in
      let test_transform :=
        append_if (float_gt_zero gaussian_noise_var)
                  (GaussianISONoise gaussian_noise_var) test_transform in
      let train_transform :=
        append_if (float_gt_zero gaussian_blur_var)
                  (GaussianBlur 5 gaussian_blur_var) train_transform in
      let test_transform :=
        append_if (float_gt_zero gaussian_blur_var)
                  (GaussianBlur 5 gaussian_blur_var) test_transform in
      Done (test_transform, train_transform)
    else Done (test_transform, train_transform).

(** Returns the training pipeline first. *)
Definition get_aug_cifar10 (img_size : Z) (add_inverse : bool)
    (gaussian_noise_var gaussian_blur_var : float) (augmentation : AugmentationSwitch)
  : res (list transform * list transform) :=
  if AugmentationSwitch_eqb augmentation EXP_VIS then
    let test_transform := [ToTensor; Resize (img_size, img_size)] in
    let train_transform := test_transform in
    if add_inverse
    then Failed (NotImplementedError "AddInverse not implemented for CIFAR10")
    else Done (train_transform, test_transform)
  else
    let test_transform :=
      [ ToTensor;
        Resize (img_size, img_size);
        if add_inverse then AddInverse (-3) else Normalize CIFAR10_MEAN CIFAR10_STD ] in
    let train_transform := test_transform in
    if AugmentationSwitch_eqb augmentation TRAIN then
      let train_transform := train_transform ++ [RandomHorizontalFlip] in
      let train_transform :=
        append_if (float_gt_zero gaussian_noise_var)
                  (GaussianISONoise gaussian_noise_var) train_transform in
      let train_transform :=
        append_if (float_gt_zero gaussian_blur_var)
                  (GaussianBlur 5 gaussian_blur_var) train_transform in
      Done (train_transform, test_transform)
    else if AugmentationSwitch_eqb augmentation EXP_GEN then
      let train_transform :=
        append_if (float_gt_zero gaussian_noise_var)
                  (GaussianISONoise gaussian_noise_var) train_transform in
      let test_transform :=
        append_if (float_gt_zero gaussian_noise_var)
                  (GaussianISONoise gaussian_noise_var) test_transform in
      let train_transform :=
        append_if (float_gt_zero gaussian_blur_var)
                  (GaussianBlur 5 gaussian_blur_var) train_transform in
      let test_transform :=
        append_if (float_gt_zero gaussian_blur_var)
                  (GaussianBlur 5 gaussian_blur_var) test_transform in
      Done (train_transform, test_transform)
    else Done (train_transform, test_transform).

Definition get_aug_mnist (img_size : Z) (add_inverse : bool)
    (gaussian_noise_var gaussian_blur_var : float) (augmentation : AugmentationSwitch)
  : res (list transform * list transform) :=
  if AugmentationSwitch_eqb augmentation EXP_VIS then
    let test_transform := [ToTensor; Resize (img_size, img_size)] in
    let train_transform := test_transform in
    if add_inverse
    then Failed (NotImplementedError "AddInverse not implemented for MNIST")
    else Done (train_transform, test_transform)
  else
    let test_transform :=
      [ ToTensor;
        Resize (img_size, img_size);
        if add_inverse then AddInverse (-3) else Normalize MNIST_MEAN MNIST_STD ] in
    let train_transform := test_transform in
    let train_transform :=
      append_if (float_gt_zero gaussian_noise_var)
                (GaussianISONoise gaussian_noise_var) train_transform in
    let test_transform :=
      append_if (float_gt_zero gaussian_noise_var
                 && AugmentationSwitch_eqb augmentation EXP_GEN)
                (GaussianISONoise gaussian_noise_var) test_transform in
    let train_transform :=
      append_if (float_gt_zero gaussian_blur_var)
                (GaussianBlur 5 gaussian_blur_var) train_transform in
    let test_transform :=
      append_if (float_gt_zero gaussian_blur_var
                 && AugmentationSwitch_eqb augmentation EXP_GEN)
                (GaussianBlur 5 gaussian_blur_var) test_transform in
    Done (train_transform, test_transform).

(** [xs] begins with [ys]. *)
Fixpoint starts_with (ys xs : list transform) : Prop :=
  match ys, xs with
  | [], _ => True
  | y :: ys', x :: xs' => y = x /\ starts_with ys' xs'
  | _ :: _, [] => False
  end.

Definition is_add_inverse (t : transform) : bool :=
  match t with AddInverse _ => true | _ => false end.

Definition is_normalize (t : transform) : bool :=
  match t with Normalize _ _ => true | _ => false end.

Definition is_noise (t : transform) : bool :=
  match t with GaussianISONoise _ => true | _ => false end.

Definition is_blur (t : transform) : bool :=
  match t with GaussianBlur _ _ => true | _ => false end.

End Augmentations.

(** ** [src/datasets.py]: the datasets and their loaders *)

Section Loaders.
Context `{PyFloatOps}.

(** The datasets of [torchvision.datasets] the module constructs, with the
    arguments it gives; [target_transform] is [None] everywhere. *)
Inductive torchvision_dataset :=
| datasets_ImageNet (root split : string) (transform : list transform)
| datasets_Imagenette (root split : string) (transform : list transform)
                      (download : bool)
| datasets_FashionMNIST (root : string) (train : bool) (download : bool)
                        (transform : list transform)
| datasets_CIFAR10 (root : string) (train : bool) (download : bool)
                   (transform : list transform)
| datasets_MNIST (root : string) (train : bool) (download : bool)
                 (transform : list transform).

(** The arguments of a [DataLoader]: the data is what a dataset function
    returned, which can be [None]; [shuffle] is given for the training loader
    only. *)
Record DataLoader_args {S : Type} := {
  loader_data : option torchvision_dataset;
  loader_batch_size : Z;
  loader_shuffle : option bool;
  loader_num_workers : Z;
  loader_prefetch_factor : Z;
  loader_sampler : option S
}.

Arguments DataLoader_args : clear implicits.

(** What the code asks of torch and torchvision: [S] is the type of
    sampler objects, [L] of loaders. *)
Class Torch (S L : Type) := {
  construct : torchvision_dataset -> option error;      (* what the constructor raises *)
  classes_len : torchvision_dataset -> res nat;         (* [len(data.classes)] *)
  first_shape : torchvision_dataset -> res (list Z);    (* [data[0][0].shape] *)
  DataLoader : DataLoader_args S -> res L
}.

Context {S L : Type} {torch : Torch S L}.

Definition res_bind {X Y} (c : res X) (k : X -> res Y) : res Y :=
  match c with
  | Done x => k x
  | Failed e => Failed e
  end.

Local Notation "x <- c ;; k" := (res_bind c (fun x => k))
  (at level 61, c at next level, right associativity).

Definition new (d : torchvision_dataset) : res torchvision_dataset :=
  match construct d with
  | Some e => Failed e
  | None => Done d
  end.

Definition get_imagenet_train (root_path : string) (img_size : Z) (add_inverse : bool)
    (gaussian_noise_var gaussian_blur_var : float) (augmentation : AugmentationSwitch)
  : res torchvision_dataset :=
  augmentations_ <- get_aug_imagenet img_size augmentation add_inverse
                      gaussian_noise_var gaussian_blur_var "train" ;;
  new (datasets_ImageNet root_path "train" augmentations_).

Definition get_imagenet_test (root_path : string) (img_size : Z) (add_inverse : bool)
    (gaussian_noise_var gaussian_blur_var : float) (augmentation : AugmentationSwitch)
  : res torchvision_dataset :=
  augmentations_ <- get_aug_imagenet img_size augmentation add_inverse
                      gaussian_noise_var gaussian_blur_var "test" ;;
  new (datasets_ImageNet root_path "val" augmentations_).

Definition get_imagenette_train (root_path : string) (img_size : Z) (add_inverse : bool)
    (gaussian_noise_var gaussian_blur_var : float) (augmentation : AugmentationSwitch)
  : res torchvision_dataset :=
  augmentations_ <- get_aug_imagenette img_size augmentation add_inverse
                      gaussian_noise_var gaussian_blur_var "train" ;;
  new (datasets_Imagenette root_path "train" augmentations_ false).

Definition get_imagenette_test (root_path : string) (img_size : Z) (add_inverse : bool)
    (gaussian_noise_var gaussian_blur_var : float) (augmentation : AugmentationSwitch)
  : res torchvision_dataset :=
  augmentations_ <- get_aug_imagenette img_size augmentation add_inverse
                      gaussian_noise_var gaussian_blur_var "test" ;;
  new (datasets_Imagenette root_path "val" augmentations_ false).

(** [d if img_size is None else img_size]. *)
Definition default_size (d : Z) (img_size : option Z) : Z :=
  match img_size with
  | None => d
  | Some size => size
  end.

(** The bodies of the registered functions; each returns the training data
    and the test data. *)
Definition run_get_imagenet_dataset (root_path : string) (img_size : option Z)
    (add_inverse : bool) (gaussian_noise_var gaussian_blur_var : float)
    (augmentation : AugmentationSwitch) (get_only_test : bool)
  : res (option torchvision_dataset * torchvision_dataset) :=
  let img_size := default_size 224 img_size in
  test_data <- get_imagenet_test root_path img_size add_inverse gaussian_noise_var
                 gaussian_blur_var augmentation ;;
  if get_only_test then Done (None, test_data)
  else
    training_data <- get_imagenet_train root_path img_size add_inverse
                       gaussian_noise_var gaussian_blur_var augmentation ;;
    Done (Some training_data, test_data).

Definition run_get_imagenette_dataset (root_path : string) (img_size : option Z)
    (augmentation : AugmentationSwitch) (gaussian_noise_var gaussian_blur_var : float)
    (add_inverse : bool)
  : res (option torchvision_dataset * torchvision_dataset) :=
  let img_size := default_size 224 img_size in
  training_data <- get_imagenette_train root_path img_size add_inverse
                     gaussian_noise_var gaussian_blur_var augmentation ;;
  test_data <- get_imagenette_test root_path img_size add_inverse gaussian_noise_var
                 gaussian_blur_var augmentation ;;
  Done (Some training_data, test_data).

Definition run_get_fashion_mnist_dataset (root_path : string) (img_size : option Z)
    (add_inverse : bool) (gaussian_noise_var gaussian_blur_var : float)
    (augmentation : AugmentationSwitch)
  : res (option torchvision_dataset * torchvision_dataset) :=
  let img_size := default_size 28 img_size in
  transforms <- get_aug_fmnist img_size add_inverse gaussian_noise_var
                  gaussian_blur_var augmentation ;;
  let (test_transform, train_transform) := transforms : _ * _ in
  training_data <- new (datasets_FashionMNIST root_path true false train_transform) ;;
  test_data <- new (datasets_FashionMNIST root_path false false test_transform) ;;
  Done (Some training_data, test_data).

Definition run_get_cifar10_dataset (root_path : string) (img_size : option Z)
    (add_inverse : bool) (gaussian_noise_var gaussian_blur_var : float)
    (augmentation : AugmentationSwitch)
  : res (option torchvision_dataset * torchvision_dataset) :=
  let img_size := default_size 32 img_size in
  transforms <- get_aug_cifar10 img_size add_inverse gaussian_noise_var
                  gaussian_blur_var augmentation ;;
  let (train_transform, test_transform) := transforms : _ * _ in
  training_data <- new (datasets_CIFAR10 root_path true false train_transform) ;;
  test_data <- new (datasets_CIFAR10 root_path false false test_transform) ;;
  Done (Some training_data, test_data).

Definition run_get_mnist_dataset (root_path : string) (img_size : option Z)
    (add_inverse : bool) (gaussian_noise_var gaussian_blur_var : float)
    (augmentation : AugmentationSwitch)
  : res (option torchvision_dataset * torchvision_dataset) :=
  let img_size := default_size 28 img_size in
  transforms <- get_aug_mnist img_size add_inverse gaussian_noise_var
                  gaussian_blur_var augmentation ;;
  let (train_transform, test_transform) := transforms : _ * _ in
  training_data <- new (datasets_MNIST root_path true false train_transform) ;;
  test_data <- new (datasets_MNIST root_path false false test_transform) ;;
  Done (Some training_data, test_data).

(** The keywords a caller gives [get_training_and_test_dataloader] beyond
    its own parameters ([**dataset_kwargs]): for each keyword a dataset
    function names, whether it is given and with what value, and the names
    of any others.  [root_path] and [get_only_test] are parameters of the
    caller, so never among them. *)
Record dataset_kwargs := {
  kw_img_size : option (option Z);
  kw_add_inverse : option bool;
  kw_gaussian_noise_var : option float;
  kw_gaussian_blur_var : option float;
  kw_augmentation : option AugmentationSwitch;
  kw_others : list string
}.

(** [func(root_path=root_path, get_only_test=get_only_test, **dataset_kwargs)]:
    a function without [**kwargs] refuses a keyword it does not name, a
    parameter without a default must be given. *)
Definition call_registered (func : dataset_func) (root_path : string)
    (get_only_test : bool) (kw : dataset_kwargs)
  : res (option torchvision_dataset * torchvision_dataset) :=
  match func with
  | get_imagenet_dataset =>
      match kw_img_size kw, kw_add_inverse kw, kw_gaussian_noise_var kw,
            kw_gaussian_blur_var kw, kw_augmentation kw with
      | Some img_size, Some add_inverse, Some noise, Some blur, Some augmentation =>
          run_get_imagenet_dataset root_path img_size add_inverse noise blur
                                   augmentation get_only_test
      | _, _, _, _, _ => Failed (Builtin TypeError)
      end
  | get_imagenette_dataset =>
      match kw_img_size kw, kw_augmentation kw, kw_gaussian_noise_var kw,
            kw_gaussian_blur_var kw with
      | Some img_size, Some augmentation, Some noise, Some blur =>
          run_get_imagenette_dataset root_path img_size augmentation noise blur
            (match kw_add_inverse kw with Some b => b | None => false end)
      | _, _, _, _ => Failed (Builtin TypeError)
      end
  | get_mnist_dataset =>
      match kw_img_size kw, kw_add_inverse kw, kw_gaussian_noise_var kw,
            kw_gaussian_blur_var kw, kw_augmentation kw with
      | Some img_size, Some add_inverse, Some noise, Some blur, Some augmentation =>
          run_get_mnist_dataset root_path img_size add_inverse noise blur augmentation
      | _, _, _, _, _ => Failed (Builtin TypeError)
      end
  | get_fashion_mnist_dataset | get_cifar10_dataset | get_grad_dataloader =>
      (* no parameter [get_only_test], no [**kwargs] *)
      Failed (Builtin TypeError)
  end.

(** [repr] of a member, as the message of the missing dataset shows the
    keys. *)
Definition repr_dataset (d : DatasetSwitch) : string :=
  ("<DatasetSwitch." ++ str_dataset d ++ ": " ++ Py.str_int (enum_value d) ++ ">")%string.

Definition get_training_and_test_dataloader (st : module_state)
    (dataset : DatasetSwitch) (root_path : string) (batch_size : Z)
    (num_workers prefetch_factor : Z) (get_only_test shuffle : bool)
    (sampler : option (option torchvision_dataset -> res S)) (kw : dataset_kwargs)
  : res (L * list Z * nat + L * L * list Z * nat) :=
  match dict_get DatasetSwitch_eq_dec dataset (registered_datasets st) with
  | None =>
      Failed (ValueErrorMsg
                ("Dataset " ++ str_dataset dataset
                 ++ " not found. Available datasets: dict_keys(["
                 ++ Py.join ", " (map (fun entry => repr_dataset (fst entry))
                                      (registered_datasets st))
                 ++ "])"))
  | Some func =>
      data <- call_registered func root_path get_only_test kw ;;
      let (training_data, test_data) := data : _ * _ in
      num_classes <- classes_len test_data ;;
      input_shape <- first_shape test_data ;;
      test_sampler <- match sampler with
                      | None => Done None
                      | Some sampler => s <- sampler (Some test_data) ;; Done (Some s)
                      end ;;
      test_dataloader <- DataLoader {| loader_data := Some test_data;
                                       loader_batch_size := batch_size;
                                       loader_shuffle := None;
                                       loader_num_workers := num_workers;
                                       loader_prefetch_factor := prefetch_factor;
                                       loader_sampler := test_sampler |} ;;
      if get_only_test then Done (inl (test_dataloader, input_shape, num_classes))
      else
        train_sampler <- match sampler with
                         | None => Done None
                         | Some sampler => s <- sampler training_data ;; Done (Some s)
                         end ;;
        train_dataloader <- DataLoader {| loader_data := training_data;
                                          loader_batch_size := batch_size;
                                          loader_shuffle := Some shuffle;
                                          loader_num_workers := num_workers;
                                          loader_prefetch_factor := prefetch_factor;
                                          loader_sampler := train_sampler |} ;;
        Done (inr (train_dataloader, test_dataloader, input_shape, num_classes))
  end.

End Loaders.

(** ** More sample data *)

(** An operator who types [n] at the prompt. *)
Definition declining : Operator := {| answer := "n" |}.

(** The whole floats read whole literals only. *)
Definition whole_float_ops : @PyFloatOps whole_floats :=
  {| float_of_string := fun s =>
       option_map (fun i => whole (Z.of_int i)) (NilZero.int_of_string s);
     float_gt_zero := fun x => match x with Some z => Z.ltb 0 z | None => false end;
     float_eq_zero := fun x => match x with Some z => Z.eqb z 0 | None => false end |}.

(** A grid without the [seed] column. *)
Definition seedless_grid : @grid whole_floats :=
  [ ("dataset", [VDataset MNIST]);
    ("model_name", [VModel RESNET18; VModel RESNET34]);
    ("layers", [VInts [64; 128]%Z]);
    ("activation", [VActivation RELU]);
    ("l2_reg", [VFloat (whole 0)]);
    ("img_size", [VInt 32]);
    ("epochs", [VInt 10]) ].

(** The job table of [single_grid], which has no [epochs] column. *)
Definition single_job : list (@record whole_floats) :=
  Eval vm_compute in
    match bind_rows (expand single_grid) with
    | Some table => table
    | None => []
    end.

(** The one measurement job of [single_grid] in local mode. *)
Definition local_measurement_job : @row whole_floats :=
  Eval vm_compute in
    match measurement_rows true (Some 0%Z) 10 single_grid with
    | x :: _ => x
    | [] => []
    end.

(** An installation with the roots of two datasets, one of them an
    archive. *)
Definition sample_data_paths : DataPaths :=
  {| paths_attribute := fun name =>
       if String.eqb name "MNIST_ROOT" then Some "/data/mnist.tgz"
       else if String.eqb name "FASHION_MNIST_ROOT" then Some "/data/fashion"
       else None;
     get_local_data_dir := fun d => ("/tmp/data/" ++ str_dataset d)%string;
     get_remote_data_dir := fun d => ("/scratch/local/" ++ str_dataset d)%string;
     COMPUTE_OUTPUT_DIR := "/scratch/local/outputs";
     LOCAL_QUANTS_DIR := "quants" |}.

(** The module after registering those two. *)
Definition sample_module : module_state :=
  Eval vm_compute in
    match register_dataset (data_paths := sample_data_paths) MNIST get_mnist_dataset
                           fresh_module with
    | Done st =>
        match register_dataset (data_paths := sample_data_paths) FASHION_MNIST
                               get_fashion_mnist_dataset st with
        | Done st' => st'
        | Failed _ => st
        end
    | Failed _ => fresh_module
    end.

(** A node with a GPU where every command succeeds. *)
Definition sample_node : Node :=
  {| cuda_is_available := true;
     job_hostname := Done "node1";
     returncode := fun _ => 0%Z;
     stderr := fun _ => "";
     shell_returncode := fun _ => 0%Z |}.

Definition sample_measures : @Measures whole_floats unit :=
  {| quant_measures_grads_main := fun _ _ => Done tt |}.

(** A remote measurement job on MNIST. *)
Definition mnist_job : @row whole_floats :=
  [("dataset", VDataset MNIST); ("port", VNone)].

(** A torch where every constructor succeeds. *)
Definition sample_torch : @Torch whole_floats unit unit :=
  {| construct := fun _ => None;
     classes_len := fun _ => Done 10;
     first_shape := fun _ => Done [1; 28; 28]%Z;
     DataLoader := fun _ => Done tt |}.

Definition sample_kwargs : @dataset_kwargs whole_floats :=
  {| kw_img_size := Some None;
     kw_add_inverse := Some false;
     kw_gaussian_noise_var := Some (whole 0);
     kw_gaussian_blur_var := Some (whole 0);
     kw_augmentation := Some TRAIN;
     kw_others := [] |}.

(** * Properties *)

(** ** Strings *)

Open Scope string_scope.

Lemma lacks_app (c : ascii) (s t : string) :
  Py.lacks c (s ++ t) = Py.lacks c s && Py.lacks c t.
Proof.
  induction s as [|a s IH]; simpl; [reflexivity|].
  rewrite IH. apply andb_assoc.
Qed.

Lemma lacks_head (c : ascii) (s : string) : Py.lacks c (String c s) = false.
Proof. simpl. rewrite Ascii.eqb_refl. reflexivity. Qed.

(** A string is cut at the first occurrence of a character in one way only. *)
Lemma cut_unique (c : ascii) (s1 s2 t1 t2 : string) :
  Py.lacks c s1 = true -> Py.lacks c s2 = true ->
  s1 ++ String c t1 = s2 ++ String c t2 -> s1 = s2 /\ t1 = t2.
Proof.
  revert s2. induction s1 as [|a s1 IH]; intros [|b s2] L1 L2 E; simpl in *.
  - injection E as E. auto.
  - injection E as E1 E2. subst b. rewrite Ascii.eqb_refl in L2. discriminate.
  - injection E as E1 E2. subst a. rewrite Ascii.eqb_refl in L1. discriminate.
  - injection E as E1 E2. subst b.
    apply andb_true_iff in L1 as [_ L1]. apply andb_true_iff in L2 as [_ L2].
    destruct (IH s2 L1 L2 E2) as [-> ->]. auto.
Qed.

Lemma cut_absurd (c : ascii) (s u t : string) :
  Py.lacks c s = true -> s <> u ++ String c t.
Proof.
  intros L E. subst s. rewrite lacks_app, lacks_head, andb_false_r in L. discriminate.
Qed.

Lemma lacks_cons (c a : ascii) (s : string) :
  Py.lacks c (String a s) = negb (Ascii.eqb a c) && Py.lacks c s.
Proof. reflexivity. Qed.

Lemma int_char_apart (c a : ascii) :
  Py.int_char c = false -> Py.int_char a = true -> negb (Ascii.eqb a c) = true.
Proof.
  intros Hc Ha. apply negb_true_iff, not_true_is_false. intros E.
  apply Ascii.eqb_eq in E. subst a. congruence.
Qed.

Lemma uint_chars (c : ascii) (d : uint) :
  Py.int_char c = false -> Py.lacks c (NilEmpty.string_of_uint d) = true.
Proof.
  intros Hc.
  induction d; cbn [NilEmpty.string_of_uint]; rewrite ?lacks_cons, ?IHd;
    rewrite ?(int_char_apart c _ Hc) by reflexivity; reflexivity.
Qed.

Lemma str_int_chars (c : ascii) (z : Z) :
  Py.int_char c = false -> Py.lacks c (Py.str_int z) = true.
Proof.
  intros Hc. unfold Py.str_int, NilZero.string_of_int, NilZero.string_of_uint.
  destruct (Z.to_int z) as [d|d]; destruct d eqn:Ed; rewrite <- ?Ed;
    rewrite ?lacks_cons, ?uint_chars by assumption;
    rewrite ?(int_char_apart c _ Hc) by reflexivity; reflexivity.
Qed.

Lemma to_int_proper (z : Z) : Z.to_int z <> Pos Nil /\ Z.to_int z <> Neg Nil.
Proof.
  destruct z as [|p|p]; simpl; split; try discriminate;
    intros E; injection E as E; exact (Unsigned.to_uint_nonnil p E).
Qed.

Lemma str_int_inj (z1 z2 : Z) : Py.str_int z1 = Py.str_int z2 -> z1 = z2.
Proof.
  unfold Py.str_int. intros E.
  apply (f_equal NilZero.int_of_string) in E.
  destruct (to_int_proper z1), (to_int_proper z2).
  rewrite !NilZero.isi in E by assumption.
  injection E as E. now apply DecimalZ.to_int_inj.
Qed.

Lemma str_int_nonempty (z : Z) : Py.str_int z <> "".
Proof.
  unfold Py.str_int, NilZero.string_of_int, NilZero.string_of_uint.
  destruct (Z.to_int z) as [d|d]; destruct d; discriminate.
Qed.

Lemma append_cancel_l (s a b : string) : s ++ a = s ++ b -> a = b.
Proof. induction s; simpl; intros E; [assumption|]. injection E as E. auto. Qed.

Lemma join_cons (sep x y : string) (l : list string) :
  Py.join sep (x :: y :: l) = x ++ sep ++ Py.join sep (y :: l).
Proof. reflexivity. Qed.

Lemma join_nonempty (sep x : string) (l : list string) :
  x <> "" -> Py.join sep (x :: l) <> "".
Proof.
  intros Hx. destruct l; [exact Hx|]. rewrite join_cons.
  destruct x; [congruence|discriminate].
Qed.

(** Joining strings that lack the separator's first character loses
    nothing. *)
Lemma join_inj (c : ascii) (sep : string) (xs ys : list string) :
  Forall (fun s => Py.lacks c s = true) xs ->
  Forall (fun s => Py.lacks c s = true) ys ->
  (xs = [] <-> ys = []) ->
  Py.join (String c sep) xs = Py.join (String c sep) ys -> xs = ys.
Proof.
  revert ys. induction xs as [|x xs IH]; intros ys Lx Ly Hnil E.
  - symmetry. now apply Hnil.
  - destruct ys as [|y ys]; [now apply Hnil|].
    inversion Lx as [|? ? Lx1 Lx2]; inversion Ly as [|? ? Ly1 Ly2]; subst.
    destruct xs as [|x' xs], ys as [|y' ys].
    + simpl in E. now subst.
    + rewrite join_cons in E. simpl in E. now apply cut_absurd in E.
    + rewrite join_cons in E. simpl in E. symmetry in E. now apply cut_absurd in E.
    + rewrite !join_cons in E. simpl in E.
      apply cut_unique in E as [-> E]; trivial.
      apply append_cancel_l in E. f_equal.
      apply IH; trivial. split; discriminate.
Qed.

Lemma join_lacks (c : ascii) (sep : string) (xs : list string) :
  Py.lacks c sep = true ->
  Forall (fun s => Py.lacks c s = true) xs ->
  Py.lacks c (Py.join sep xs) = true.
Proof.
  intros Ls. induction 1 as [|x xs Lx _ IH]; [reflexivity|].
  destruct xs; [exact Lx|].
  rewrite join_cons, !lacks_app, Lx, Ls, IH. reflexivity.
Qed.

Lemma map_injective {X Y} (f : X -> Y) (l1 l2 : list X) :
  (forall a b, f a = f b -> a = b) -> map f l1 = map f l2 -> l1 = l2.
Proof.
  intros Hf. revert l2. induction l1; intros [|b l2] E; try discriminate; trivial.
  simpl in E. injection E as E1 E2. f_equal; auto.
Qed.

Lemma layers_lacks (c : ascii) (l : list Z) :
  Py.int_char c = false -> Ascii.eqb c "_" = false ->
  Py.lacks c (Py.join "_" (map Py.str_int l)) = true.
Proof.
  intros Hc Hu. apply join_lacks.
  - rewrite lacks_cons, Ascii.eqb_sym, Hu. reflexivity.
  - apply Forall_forall. intros s Hs. apply in_map_iff in Hs as [z [<- _]].
    now apply str_int_chars.
Qed.

Lemma layers_inj (l1 l2 : list Z) :
  Py.join "_" (map Py.str_int l1) = Py.join "_" (map Py.str_int l2) -> l1 = l2.
Proof.
  intros E. apply (map_injective Py.str_int); [apply str_int_inj|].
  assert (L : forall l, Forall (fun s => Py.lacks "_" s = true) (map Py.str_int l)).
  { intros l. apply Forall_forall. intros s Hs. apply in_map_iff in Hs as [z [<- _]].
    now apply str_int_chars. }
  apply (join_inj "_" "" _ _ (L l1) (L l2)); trivial.
  destruct l1 as [|a l1], l2 as [|b l2]; simpl map in *;
    split; trivial; try discriminate; intros _; exfalso.
  - symmetry in E. revert E. apply join_nonempty, str_int_nonempty.
  - revert E. apply join_nonempty, str_int_nonempty.
Qed.

Lemma str_model_inj m1 m2 : str_model m1 = str_model m2 -> m1 = m2.
Proof. destruct m1, m2; intros E; try reflexivity; discriminate E. Qed.

Lemma str_activation_inj a1 a2 : str_activation a1 = str_activation a2 -> a1 = a2.
Proof. destruct a1, a2; intros E; try reflexivity; discriminate E. Qed.

Lemma str_dataset_inj d1 d2 : str_dataset d1 = str_dataset d2 -> d1 = d2.
Proof. destruct d1, d2; intros E; try reflexivity; discriminate E. Qed.

Section Identifier.
Context `{PyFloat}.

Lemma get_experiment_prefix_eq (r : record) :
  get_experiment_prefix r =
  str_dataset (dataset r) ++ "/" ++ Py.join "::" (name_list r).
Proof.
  unfold get_experiment_prefix, Py.os_path_join, EXPERIMENT_PREFIX_SEP.
  fold (name_list r).
  assert (S : Py.startswith "/" (Py.join "::" (name_list r)) = false).
  { unfold name_list. rewrite join_cons. destruct (model_name r); reflexivity. }
  assert (D : (String.eqb (str_dataset (dataset r)) ""
               || Py.endswith "/" (str_dataset (dataset r)))%bool = false).
  { destruct (dataset r); reflexivity. }
  rewrite S, D. reflexivity.
Qed.

Lemma name_list_lacks_colon (r : record) :
  str_float_no_colon ->
  Forall (fun s => Py.lacks ":" s = true) (name_list r).
Proof.
  intros Hf. unfold name_list. repeat constructor.
  - destruct (model_name r); reflexivity.
  - now apply layers_lacks.
  - destruct (activation r); reflexivity.
  - now apply str_int_chars.
  - apply Hf.
  - now apply str_int_chars.
Qed.

Lemma get_experiment_prefix_inj (r1 r2 : record) :
  str_float_injective -> str_float_no_colon ->
  get_experiment_prefix r1 = get_experiment_prefix r2 ->
  dataset r1 = dataset r2 /\ model_name r1 = model_name r2 /\
  layers r1 = layers r2 /\ activation r1 = activation r2 /\
  seed r1 = seed r2 /\ l2_reg r1 = l2_reg r2 /\ img_size r1 = img_size r2.
Proof.
  intros Hinj Hcol E. rewrite !get_experiment_prefix_eq in E.
  apply cut_unique in E as [Ed En];
    try (destruct (dataset r1); reflexivity);
    try (destruct (dataset r2); reflexivity).
  apply join_inj in En;
    [ | now apply name_list_lacks_colon | now apply name_list_lacks_colon
      | split; discriminate ].
  unfold name_list in En.
  injection En as Em El Ea Es Ew Ei.
  repeat split.
  - now apply str_dataset_inj.
  - now apply str_model_inj.
  - now apply layers_inj.
  - now apply str_activation_inj.
  - now apply str_int_inj.
  - now apply Hinj.
  - now apply str_int_inj.
Qed.

End Identifier.

Open Scope list_scope.

(** ** The cartesian product *)

Section Product.
Context {A : Type}.

Lemma flat_map_flat_map {X Y Z} (f : Y -> list Z) (g : X -> list Y) (l : list X) :
  flat_map f (flat_map g l) = flat_map (fun x => flat_map f (g x)) l.
Proof.
  induction l as [|x l IH]; simpl; [reflexivity|].
  now rewrite flat_map_app, IH.
Qed.

Lemma flat_map_map {X Y Z} (f : Y -> list Z) (g : X -> Y) (l : list X) :
  flat_map f (map g l) = flat_map (fun x => f (g x)) l.
Proof. induction l as [|x l IH]; simpl; [reflexivity|]. now rewrite IH. Qed.

Lemma map_flat_map {X Y Z} (f : Y -> Z) (g : X -> list Y) (l : list X) :
  map f (flat_map g l) = flat_map (fun x => map f (g x)) l.
Proof.
  induction l as [|x l IH]; simpl; [reflexivity|]. now rewrite map_app, IH.
Qed.

Lemma product_fold (pools : list (list A)) (acc : list (list A)) :
  fold_left (fun result pool => flat_map (fun x => map (fun y => x ++ [y]) pool) result)
            pools acc
  = flat_map (fun x => map (List.app x) (product_rec pools)) acc.
Proof.
  revert acc. induction pools as [|pool rest IH]; intros acc.
  - simpl. induction acc as [|x acc IHa]; simpl; [reflexivity|].
    now rewrite List.app_nil_r, <- IHa.
  - simpl fold_left. rewrite IH, flat_map_flat_map.
    apply flat_map_ext. intros x. rewrite flat_map_map.
    simpl product_rec. rewrite map_flat_map.
    apply flat_map_ext. intros y. rewrite map_map.
    apply map_ext. intros t. now rewrite <- List.app_assoc.
Qed.

Lemma product_eq (pools : list (list A)) : Py.product pools = product_rec pools.
Proof.
  unfold Py.product. rewrite product_fold. simpl.
  rewrite List.app_nil_r, map_id. reflexivity.
Qed.


Lemma length_flat_map_uniform {X Y} (f : X -> list Y) (l : list X) (n : nat) :
  (forall x, List.length (f x) = n) ->
  List.length (flat_map f l) = List.length l * n.
Proof.
  intros Hf. induction l as [|x l IH]; simpl; [reflexivity|].
  now rewrite length_app, Hf, IH.
Qed.

Lemma product_rec_length (pools : list (list A)) :
  List.length (product_rec pools) = size pools.
Proof.
  induction pools as [|pool rest IH]; [reflexivity|].
  simpl product_rec. rewrite (length_flat_map_uniform _ _ (size rest)).
  - reflexivity.
  - intros y. now rewrite length_map.
Qed.





Lemma nth_error_flat_map_uniform {X Y} (f : X -> list Y) (l : list X) (n i j : nat) :
  (forall x, List.length (f x) = n) -> j < n ->
  nth_error (flat_map f l) (i * n + j)
  = match nth_error l i with
    | Some x => nth_error (f x) j
    | None => None
    end.
Proof.
  intros Hf Hj. revert i. induction l as [|x l IH]; intros i; simpl.
  - destruct i; simpl; now rewrite nth_error_nil.
  - destruct i as [|i]; simpl.
    + apply nth_error_app1. now rewrite Hf.
    + rewrite nth_error_app2 by (rewrite Hf; lia).
      rewrite Hf. replace (n + i * n + j - n) with (i * n + j) by lia. apply IH.
Qed.






End Product.

Section Expander.
Context `{PyFloat}.



Lemma expand_length (args : grid) :
  List.length (expand args) = size (map snd args).
Proof.
  unfold expand, DataFrame. now rewrite length_map, product_eq, product_rec_length.
Qed.




End Expander.

(** ** The dispatcher *)

Section Silence.
Context `{PyFloat} {A : Type}.

Lemma flat_map_nil {X Y} (f : X -> list Y) (l : list X) :
  Forall (fun x => f x = []) l -> flat_map f l = [].
Proof. induction 1 as [|x l Hx _ IH]; simpl; [reflexivity|]. now rewrite Hx, IH. Qed.

Lemma silent_all (t : list (event A)) :
  Forall silent t -> dispatched t = [] /\ submitted t = [] /\ invocations t = [].
Proof.
  intros Ht. repeat split; apply flat_map_nil; eapply Forall_impl; try exact Ht;
    intros [] Hs; try reflexivity; destruct Hs.
Qed.

End Silence.

(** Drops from the goal what a silent piece of trace hands to the job
    function: nothing. *)
Ltac hush H :=
  let D := fresh in
  let S := fresh in
  let I := fresh in
  destruct (silent_all _ H) as [D [S I]]; rewrite ?D, ?S, ?I; clear D S I.

Section DispatcherFacts.
Context `{PyFloat} {A : Type} {jobs : Jobs A}.

Lemma for_each_results (func : job_func) (js : list (nat * A)) (vs : list value) :
  map (fun j => job_outcome func (fst j) (snd j)) js = map Returned vs ->
  for_each (job_result func) js = (map (fun j => Result (fst j)) js, Returned vs).
Proof.
  revert vs. induction js as [|j js IH]; intros [|v vs] E; try discriminate.
  - reflexivity.
  - simpl in E. injection E as E1 E2.
    cbn [for_each]. unfold job_result at 1. rewrite E1. cbn [bind].
    rewrite (IH vs E2). cbn. rewrite List.app_nil_r. reflexivity.
Qed.

Lemma for_each_failure (func : job_func) (js : list (nat * A)) (vs : list value)
    (e : exn) (later : list (outcome value)) :
  map (fun j => job_outcome func (fst j) (snd j)) js = map Returned vs ++ Raised e :: later ->
  for_each (job_result func) js =
  (map (fun j => Result (fst j)) (firstn (S (List.length vs)) js), Raised e).
Proof.
  revert vs. induction js as [|j js IH]; intros vs E.
  - destruct vs; discriminate.
  - destruct vs as [|v vs]; simpl in E; injection E as E1 E2.
    + cbn [for_each]. unfold job_result at 1. rewrite E1. reflexivity.
    + cbn [for_each]. unfold job_result at 1. rewrite E1. cbn [bind].
      rewrite (IH vs E2). reflexivity.
Qed.

Lemma handles_fst (s : nat) (xs : list A) :
  map fst (combine (seq s (List.length xs)) xs) = seq s (List.length xs).
Proof.
  revert s. induction xs as [|x xs IH]; intros s; simpl; [reflexivity|].
  now rewrite IH.
Qed.

Lemma submitted_app (t u : list (event A)) :
  submitted (t ++ u) = submitted t ++ submitted u.
Proof. apply flat_map_app. Qed.

Lemma dispatched_app (t u : list (event A)) :
  dispatched (t ++ u) = dispatched t ++ dispatched u.
Proof. apply flat_map_app. Qed.

Lemma invocations_app (t u : list (event A)) :
  invocations (t ++ u) = invocations t ++ invocations u.
Proof. apply flat_map_app. Qed.

Lemma requested_app (t u : list (event A)) :
  requested (t ++ u) = requested t ++ requested u.
Proof. apply flat_map_app. Qed.

Lemma requested_handles (js : list (nat * A)) :
  requested (A := A) (map (fun j => Result (fst j)) js) = map fst js.
Proof.
  induction js as [|j js IH]; [reflexivity|]. unfold requested in *. simpl.
  now rewrite IH.
Qed.

Lemma firstn_seq_le (k s n : nat) : k <= n -> firstn k (seq s n) = seq s k.
Proof.
  revert s n. induction k as [|k IH]; intros s [|n] Hk; simpl; trivial; [lia|].
  rewrite IH by lia. reflexivity.
Qed.

Lemma handles_firstn (k : nat) (xs : list A) :
  k <= List.length xs ->
  map fst (firstn k (combine (seq 0 (List.length xs)) xs)) = seq 0 k.
Proof.
  intros Hk. rewrite <- firstn_map, handles_fst. now apply firstn_seq_le.
Qed.

Lemma outcomes_length (func : job_func) (xs : list A) :
  List.length (outcomes func xs) = List.length xs.
Proof.
  unfold outcomes. rewrite length_map, length_combine, length_seq. lia.
Qed.

Lemma for_each_silent (func : job_func) (js : list (nat * A)) :
  Forall silent (trace (for_each (job_result func) js)).
Proof.
  induction js as [|j js IH]; [constructor|].
  cbn [for_each]. unfold job_result at 1.
  destruct (job_outcome func (fst j) (snd j)) as [v|e]; cbn [bind];
    [|repeat constructor].
  destruct (for_each (job_result func) js) as [t [vs|e]]; cbn in *;
    try rewrite List.app_nil_r; constructor; trivial; exact I.
Qed.

Lemma wait_silent (b : bool) (func : job_func) (js : list (nat * A)) :
  Forall silent (trace (wait_for_results b func js)).
Proof.
  unfold wait_for_results. destruct b; [|constructor].
  pose proof (for_each_silent func js) as S.
  cbn -[for_each job_result]. destruct (for_each _ _) as [t [vs|e]]; cbn in *.
  - constructor; [exact I|]. apply Forall_app. split; trivial.
    repeat constructor.
  - constructor; [exact I|]. trivial.
Qed.

Lemma wait_success (func : job_func) (js : list (nat * A)) (vs : list value) :
  map (fun j => job_outcome func (fst j) (snd j)) js = map Returned vs ->
  wait_for_results true func js =
  ([Print "Waiting for job to finish"] ++ map (fun j => Result (fst j)) js
     ++ [Print "All jobs finished"], Returned (Some vs)).
Proof.
  intros E. unfold wait_for_results. cbn -[for_each job_result].
  rewrite (for_each_results func js vs E). reflexivity.
Qed.

Lemma wait_failure (func : job_func) (js : list (nat * A)) (vs : list value)
    (e : exn) (later : list (outcome value)) :
  map (fun j => job_outcome func (fst j) (snd j)) js
  = map Returned vs ++ Raised e :: later ->
  wait_for_results true func js =
  ([Print "Waiting for job to finish"]
     ++ map (fun j => Result (fst j)) (firstn (S (List.length vs)) js), Raised e).
Proof.
  intros E. unfold wait_for_results. cbn -[for_each job_result firstn].
  rewrite (for_each_failure func js vs e later E). reflexivity.
Qed.

(** The dispatcher in remote array mode, confirmed, on a table with rows. *)
Lemma remote_run (block_main : bool) (port : option Z) (timeout : Z)
    (func : job_func) (x : A) (rest : list A) :
  port <> Some 0%Z ->
  let jobs_args := debug_cut port (x :: rest) in
  let wait := wait_for_results block_main func
                (combine (seq 0 (List.length jobs_args)) jobs_args) in
  execute_job_submission (operator := confirming) block_main port timeout (x :: rest) func
  = (preamble port timeout (x :: rest)
       ++ [MapArray func jobs_args; Print "Job submitted"] ++ trace wait,
     result wait).
Proof.
  intros Hp. unfold execute_job_submission, wait_for_results, preamble.
  destruct port as [[|p|p]|]; [congruence| | |]; destruct block_main;
    cbn -[for_each job_result Py.str_int]; try reflexivity;
    destruct (for_each _ _) as [t [v|e]]; reflexivity.
Qed.

(** The dispatcher in local mode, confirmed, on a table with rows. *)
Lemma local_run (block_main : bool) (timeout : Z) (func : job_func)
    (x : A) (rest : list A) :
  execute_job_submission (operator := confirming) block_main (Some 0%Z) timeout
                         (x :: rest) func
  = (preamble (Some 0%Z) timeout (x :: rest)
       ++ [Print "Running in locally"; Call func [x]],
     match run_here func [x] with
     | Some e => Raised e
     | None => Returned None
     end).
Proof.
  unfold execute_job_submission, preamble. cbn -[Py.str_int].
  destruct (run_here func [x]); reflexivity.
Qed.

Lemma preamble_silent (port : option Z) (timeout : Z) (args : list A) :
  Forall silent (preamble port timeout args).
Proof. unfold preamble. destruct port; repeat constructor. Qed.

Lemma preamble_requested (port : option Z) (timeout : Z) (args : list A) :
  requested (preamble port timeout args) = [].
Proof. unfold preamble. destruct port; reflexivity. Qed.

(** C8.  In remote array mode (any port but 0, confirmed, a table with
  rows) the dispatcher submits the job list; without [block_main] it returns
  no results and requests none; with [block_main] it requests the results
  of the handles one after the other in submission order and returns them
  when all jobs succeed; and when a job fails its exception is the outcome
  of the call and no later result is requested. *)
Theorem blocking_waits_in_order (block_main : bool) (port : option Z) (timeout : Z)
    (func : job_func) (x : A) (rest : list A) :
  port <> Some 0%Z ->
  let run b := execute_job_submission (operator := confirming) b port timeout (x :: rest) func in
  let jobs_args := debug_cut port (x :: rest) in
  (submitted (trace (run block_main)) = jobs_args) /\
  (result (run false) = Returned None /\ requested (trace (run false)) = []) /\
  (forall vs,
      outcomes func jobs_args = map Returned vs ->
      result (run true) = Returned (Some vs) /\
      requested (trace (run true)) = seq 0 (List.length jobs_args)) /\
  (forall vs e later,
      outcomes func jobs_args = map Returned vs ++ Raised e :: later ->
      result (run true) = Raised e /\
      requested (trace (run true)) = seq 0 (S (List.length vs))).
Proof.
  intros Hp run jobs_args. subst run. cbv beta.
  split; [|split; [|split]].
  - rewrite (remote_run block_main port timeout func x rest Hp). cbn [trace fst].
    rewrite !submitted_app.
    hush (preamble_silent port timeout (x :: rest)).
    hush (wait_silent block_main func
            (combine (seq 0 (List.length (debug_cut port (x :: rest))))
                     (debug_cut port (x :: rest)))).
    cbn. now rewrite !List.app_nil_r.
  - rewrite (remote_run false port timeout func x rest Hp). cbn [trace result fst snd].
    split; [reflexivity|].
    rewrite !requested_app, preamble_requested. reflexivity.
  - intros vs Ho. rewrite (remote_run true port timeout func x rest Hp).
    fold jobs_args. unfold outcomes in Ho. rewrite (wait_success _ _ _ Ho).
    cbn [trace result fst snd]. split; [reflexivity|].
    rewrite !requested_app, preamble_requested, requested_handles, handles_fst.
    cbn. now rewrite List.app_nil_r.
  - intros vs e later Ho. rewrite (remote_run true port timeout func x rest Hp).
    fold jobs_args. unfold outcomes in Ho. rewrite (wait_failure _ _ _ _ _ Ho).
    cbn [trace result fst snd]. split; [reflexivity|].
    rewrite !requested_app, preamble_requested, requested_handles.
    rewrite handles_firstn; [reflexivity|].
    pose proof (outcomes_length func jobs_args) as L. unfold outcomes in L.
    rewrite Ho, length_app, length_map in L. simpl in L. lia.
Qed.

(** C3, at the input where the code departs from it.  On an empty job table
  with the debug port set [execute_job_submission] raises [IndexError] where
  it takes the first record: the console is not read and nothing is
  dispatched, but the call does not return. *)
Theorem empty_table_debug_flag_raises (operator : Operator) (block_main : bool)
    (p timeout : Z) (func : job_func) :
  let run := execute_job_submission block_main (Some p) timeout (@nil A) func in
  result run = Raised IndexError /\
  prompted (trace run) = false /\
  dispatched (trace run) = [].
Proof. repeat split. Qed.

Lemma empty_table_without_port (operator : Operator) (block_main : bool)
    (timeout : Z) (func : job_func) :
  let run := execute_job_submission block_main None timeout (@nil A) func in
  result run = Returned None /\
  prompted (trace run) = false /\
  dispatched (trace run) = [].
Proof. repeat split. Qed.

(** C7.  In local mode (port 0), on a table with rows and a confirming
  operator, the dispatcher calls the job function itself, once, on the list
  holding the first record alone; nothing is submitted to the remote
  executor, no other record is dispatched, and the call's exception, if
  any, is the dispatcher's. *)
Theorem local_mode_first_record_only (block_main : bool) (timeout : Z)
    (func : job_func) (x : A) (rest : list A) :
  let run := execute_job_submission (operator := confirming) block_main (Some 0%Z)
                                    timeout (x :: rest) func in
  invocations (trace run) = [(func, WholeList [x])] /\
  dispatched (trace run) = [x] /\
  submitted (trace run) = [] /\
  result run = match run_here func [x] with
               | Some e => Raised e
               | None => Returned None
               end.
Proof.
  cbv zeta. rewrite local_run. cbn [trace result fst snd].
  rewrite invocations_app, dispatched_app, submitted_app.
  hush (preamble_silent (Some 0%Z) timeout (x :: rest)).
  repeat split.
Qed.

Lemma declined_run (operator : Operator) (block_main : bool) (port : option Z)
    (timeout : Z) (func : job_func) (x : A) (rest : list A) :
  String.eqb answer "y" = false ->
  Forall silent
    (trace (execute_job_submission block_main port timeout (x :: rest) func)).
Proof.
  intros Hn. unfold execute_job_submission, input.
  destruct port; cbn -[Py.str_int String.eqb]; rewrite Hn;
    cbn -[Py.str_int]; repeat constructor.
Qed.

Lemma operator_confirming (operator : Operator) :
  answer = "y" -> operator = confirming.
Proof. destruct operator as [a]. cbn. now intros ->. Qed.

(** C9.  Whenever a port is given, whatever its value, at most one record is
  dispatched and it is the first of the table; with a confirming operator
  and a table with rows it is dispatched, and for a port other than 0
  through the remote array executor. *)
Theorem debug_flag_dispatches_first_only (operator : Operator) (block_main : bool)
    (p timeout : Z) (args : list A) (func : job_func) :
  let run := execute_job_submission block_main (Some p) timeout args func in
  List.length (dispatched (trace run)) <= 1 /\
  (forall x, In x (dispatched (trace run)) -> hd_error args = Some x) /\
  (forall x rest,
      args = x :: rest -> answer = "y" ->
      dispatched (trace run) = [x] /\
      (p <> 0%Z -> submitted (trace run) = [x])).
Proof.
  cbv zeta.
  assert (Yes : forall x rest,
             args = x :: rest -> answer = "y" ->
             dispatched (trace (execute_job_submission block_main (Some p) timeout
                                                       args func)) = [x] /\
             (p <> 0%Z ->
              submitted (trace (execute_job_submission block_main (Some p) timeout
                                                       args func)) = [x])).
  { intros x rest -> Hy. apply operator_confirming in Hy. subst operator.
    destruct (Z.eq_dec p 0) as [->|Hp].
    - rewrite local_run. cbn [trace fst]. rewrite dispatched_app.
      hush (preamble_silent (Some 0%Z) timeout (x :: rest)).
      split; [reflexivity|congruence].
    - assert (Hp' : Some p <> Some 0%Z) by congruence.
      rewrite (remote_run block_main (Some p) timeout func x rest Hp').
      cbn [trace fst]. rewrite !dispatched_app, !submitted_app.
      hush (preamble_silent (Some p) timeout (x :: rest)).
      hush (wait_silent block_main func
              (combine (seq 0 (List.length (debug_cut (Some p) (x :: rest))))
                       (debug_cut (Some p) (x :: rest)))).
      split; [reflexivity|intros _; reflexivity]. }
  destruct args as [|x rest].
  - split; [cbn; lia|]. split; [intros x []|]. intros x rest E. discriminate E.
  - destruct (String.eqb answer "y") eqn:Hy.
    + apply String.eqb_eq in Hy. destruct (Yes x rest eq_refl Hy) as [D S].
      rewrite D. split; [cbn; lia|]. split.
      * intros y [<-|[]]. reflexivity.
      * intros y rest' E _. injection E as <- <-. split; [reflexivity|exact S].
    + destruct (silent_all _ (declined_run operator block_main (Some p) timeout
                                func x rest Hy)) as [D _].
      rewrite D. split; [cbn; lia|]. split; [intros y []|].
      intros y rest' _ Hy'. rewrite Hy' in Hy. discriminate Hy.
Qed.

(** C10.  In local mode the job function is called once on the whole
  one-element list; in remote array mode it is called on each record of the
  job list; a list is not a record, and the first subscript of
  [quant.main], by the key [port], fails on a list and succeeds on a record
  with that key. *)
Theorem argument_shape_by_mode (block_main : bool) (port : option Z) (timeout : Z)
    (func : job_func) (x : A) (rest : list A) :
  invocations (trace (execute_job_submission (operator := confirming) block_main
                        (Some 0%Z) timeout (x :: rest) func))
  = [(func, WholeList [x])] /\
  (port <> Some 0%Z ->
   invocations (trace (execute_job_submission (operator := confirming) block_main
                         port timeout (x :: rest) func))
   = map (fun a => (func, OneRecord a)) (debug_cut port (x :: rest))) /\
  (forall (l : list A) (a : A), WholeList l <> OneRecord a) /\
  (forall l : list row, subscript_port (WholeList l) = Raised TypeError) /\
  (forall (r : row) (v : value),
      lookup "port" r = Some v -> subscript_port (OneRecord r) = Returned v).
Proof.
  split; [|split; [|split; [|split]]].
  - rewrite local_run. cbn [trace fst]. rewrite invocations_app.
    hush (preamble_silent (Some 0%Z) timeout (x :: rest)).
    reflexivity.
  - intros Hp. rewrite (remote_run block_main port timeout func x rest Hp).
    cbn [trace fst]. rewrite !invocations_app.
    hush (preamble_silent port timeout (x :: rest)).
    hush (wait_silent block_main func
            (combine (seq 0 (List.length (debug_cut port (x :: rest))))
                     (debug_cut port (x :: rest)))).
    cbn. now rewrite !List.app_nil_r.
  - discriminate.
  - reflexivity.
  - intros r v Hv. cbn. now rewrite Hv.
Qed.

End DispatcherFacts.

(** ** Columns and reports *)

Section Columns.
Context `{PyFloat}.

Lemma lookup_assign_eq (k : string) (v : value) (x : row) :
  lookup k (assign k v x) = Some v.
Proof.
  induction x as [|[k' v'] x IH]; cbn [assign lookup].
  - now rewrite String.eqb_refl.
  - destruct (String.eqb k k') eqn:E; cbn [lookup].
    + now rewrite String.eqb_refl.
    + now rewrite E.
Qed.

Lemma lookup_assign_neq (k k' : string) (v : value) (x : row) :
  String.eqb k k' = false -> lookup k (assign k' v x) = lookup k x.
Proof.
  intros N. induction x as [|[k0 v0] x IH]; cbn [assign lookup].
  - now rewrite N.
  - destruct (String.eqb k' k0) eqn:E; cbn [lookup].
    + apply String.eqb_eq in E. subst k0. now rewrite N.
    + destruct (String.eqb k k0); [reflexivity|exact IH].
Qed.

Lemma str_column_set_eq (k s : string) (r : record) :
  str_column k (set_column k (VStr s) r) = s.
Proof. unfold str_column, set_column. cbn [other]. now rewrite lookup_assign_eq. Qed.

Lemma str_column_set_neq (k k' : string) (v : value) (r : record) :
  String.eqb k k' = false -> str_column k (set_column k' v r) = str_column k r.
Proof.
  intros N. unfold str_column, set_column. cbn [other].
  now rewrite lookup_assign_neq.
Qed.


Section Traces.
Context {A : Type}.

Lemma print_each_run (lines : list string) :
  print_each (A := A) lines = (map Print lines, Returned tt).
Proof.
  induction lines as [|l lines IH]; [reflexivity|].
  cbn [print_each]. rewrite IH. reflexivity.
Qed.

Lemma bind_run {X Y} (t : list (event A)) (x : X) (k : X -> M A Y) :
  bind (t, Returned x) k = (t ++ trace (k x), result (k x)).
Proof. unfold bind, trace, result. now destruct (k x). Qed.

Lemma prints_silent (lines : list string) : Forall (silent (A := A)) (map Print lines).
Proof. induction lines; constructor; trivial. exact I. Qed.
End Traces.

End Columns.

(** ** The submitters *)

Section SubmitterFacts.
Context `{PyFloat} {paths : Paths} {host : Host} {operator : Operator}.
Context {pandas : Pandas} {jobs : Jobs record}.

Lemma bind_table_rows (rows : list row) (table : list record) :
  bind_rows rows = Some table -> table <> [] -> bind_table rows = ret table.
Proof.
  intros Hb Hn. unfold bind_table. destruct rows as [|x rows].
  - injection Hb as <-. congruence.
  - now rewrite Hb.
Qed.

Lemma grads_columns_eq (r : record) :
  set_column "checkpoint_path"
    (VStr (get_save_path
             (set_column "experiment_output_dir"
                (VStr (Py.os_path_join LOCAL_OUTPUT_DIR
                         (str_column "experiment_prefix"
                            (set_column "experiment_prefix"
                               (VStr (get_experiment_prefix r)) r))))
                (set_column "experiment_prefix" (VStr (get_experiment_prefix r)) r))))
    (set_column "experiment_output_dir"
       (VStr (Py.os_path_join LOCAL_OUTPUT_DIR
                (str_column "experiment_prefix"
                   (set_column "experiment_prefix" (VStr (get_experiment_prefix r)) r))))
       (set_column "experiment_prefix" (VStr (get_experiment_prefix r)) r))
  = grads_columns r.
Proof. rewrite str_column_set_eq. reflexivity. Qed.

Lemma grads_columns_checkpoint (r : record) :
  str_column "checkpoint_path" (grads_columns r) = get_save_path r.
Proof. unfold grads_columns. apply str_column_set_eq. Qed.

Lemma grads_columns_output_dir (r : record) :
  str_column "experiment_output_dir" (grads_columns r) = experiment_output_dir r.
Proof.
  unfold grads_columns. rewrite str_column_set_neq by reflexivity.
  apply str_column_set_eq.
Qed.

Lemma bind_ret {A X Y} (x : X) (k : X -> M A Y) : bind (ret x) k = k x.
Proof. unfold bind, ret. now destruct (k x). Qed.

Lemma bind_print {A Y} (l : string) (k : unit -> M A Y) :
  bind (print l) k = (Print l :: trace (k tt), result (k tt)).
Proof. unfold bind, print, tell, trace, result. now destruct (k tt). Qed.

Lemma bind_print_each {A Y} (ls : list string) (k : unit -> M A Y) :
  bind (print_each ls) k = (map Print ls ++ trace (k tt), result (k tt)).
Proof. rewrite print_each_run. apply bind_run. Qed.

Lemma submit_grads_run (block_main : bool) (port : option Z) (timeout : Z)
    (batch_size : ActivationSwitch -> option Z) (args : grid) (table : list record) :
  existsb (String.eqb "activation") (map fst args) = true ->
  bind_rows (grads_rows block_main port timeout batch_size args) = Some table ->
  table <> [] ->
  let dispatch :=
    execute_job_submission block_main port timeout
      (map grads_columns (filter valid_ids table)) grads_main in
  submit_grads block_main port timeout batch_size args
  = (map Print (grads_report (filter (fun r => negb (checkpoint_exists r)) table)
                             (filter output_dir_exists table)
                             (filter valid_ids table))
       ++ trace dispatch,
     result dispatch).
Proof.
  intros Ha Hb Hn dispatch. unfold submit_grads.
  rewrite Ha, bind_ret. unfold grads_rows in Hb.
  rewrite (bind_table_rows _ table Hb Hn), bind_ret.
  rewrite !map_map.
  rewrite (map_ext _ grads_columns) by (intros r; apply grads_columns_eq).
  rewrite !filter_map_swap, !map_map.
  rewrite (filter_ext (fun r => negb (path_exists (str_column "checkpoint_path" (grads_columns r))))
                      (fun r => negb (checkpoint_exists r)))
    by (intros r; now rewrite grads_columns_checkpoint).
  rewrite (filter_ext (fun r => path_exists (str_column "experiment_output_dir" (grads_columns r)))
                      output_dir_exists)
    by (intros r; now rewrite grads_columns_output_dir).
  rewrite (filter_ext (fun r => path_exists (str_column "checkpoint_path" (grads_columns r))
                                && negb (path_exists (str_column "experiment_output_dir"
                                                                 (grads_columns r))))
                      valid_ids)
    by (intros r; now rewrite grads_columns_checkpoint, grads_columns_output_dir).
  rewrite !(map_ext (fun r => str_column "checkpoint_path" (grads_columns r)) get_save_path)
    by apply grads_columns_checkpoint.
  rewrite !(map_ext (fun r => str_column "experiment_output_dir" (grads_columns r))
                    experiment_output_dir)
    by apply grads_columns_output_dir.
  fold dispatch.
  repeat (rewrite ?bind_print, ?bind_print_each; cbn [trace result fst snd]).
  unfold grads_report. rewrite !map_app. cbn [map List.app].
  repeat (rewrite <- ?List.app_assoc; cbn [List.app]). reflexivity.
Qed.


End SubmitterFacts.

Section ConfirmedArray.
Context `{PyFloat} {A : Type} {jobs : Jobs A}.

(** With no debug port and a confirming operator, the whole table goes to
    the remote executor. *)
Lemma confirmed_array_submits_all (block_main : bool) (timeout : Z)
    (args : list A) (func : job_func) :
  submitted (trace (execute_job_submission (operator := confirming) block_main None
                                           timeout args func)) = args.
Proof.
  destruct args as [|x rest]; [reflexivity|].
  rewrite remote_run by discriminate. cbn [trace fst].
  rewrite !submitted_app.
  hush (preamble_silent None timeout (x :: rest)).
  hush (wait_silent block_main func
          (combine (seq 0 (List.length (debug_cut None (x :: rest))))
                   (debug_cut None (x :: rest)))).
  cbn. now rewrite !List.app_nil_r.
Qed.
End ConfirmedArray.

Section Claims.
Context `{PyFloat} {paths : Paths} {host : Host} {operator : Operator}.
Context {pandas : Pandas} {jobs : Jobs record}.


(** C1 (as amended).  For every candidate job table of [submit_grads] the
  dispatcher receives exactly the jobs whose checkpoint exists and whose
  output directory does not; every job whose checkpoint is missing is
  reported under the checkpoints heading; and the jobs reported under the
  output directories heading are all those whose output directory exists,
  whether or not their checkpoint does.  With no debug port and a
  confirming operator the jobs received are all submitted. *)
Theorem submit_grads_filters_by_both_checks (block_main : bool)
    (port : option Z) (timeout : Z) (batch_size : ActivationSwitch -> option Z)
    (args : grid) (table : list record) :
  existsb (String.eqb "activation") (map fst args) = true ->
  bind_rows (grads_rows block_main port timeout batch_size args) = Some table ->
  table <> [] ->
  let checkpoint_missing := filter (fun r => negb (checkpoint_exists r)) table in
  let output_exists := filter output_dir_exists table in
  let valid := filter valid_ids table in
  let dispatch :=
    execute_job_submission block_main port timeout (map grads_columns valid) grads_main in
  let run := submit_grads block_main port timeout batch_size args in
  (forall r, In r valid <->
             In r table /\ path_exists (get_save_path r) = true
             /\ path_exists (experiment_output_dir r) = false) /\
  (forall r, In r checkpoint_missing <->
             In r table /\ path_exists (get_save_path r) = false) /\
  (forall r, In r output_exists <->
             In r table /\ path_exists (experiment_output_dir r) = true) /\
  (forall r, get_save_path (grads_columns r) = get_save_path r /\
             experiment_output_dir (grads_columns r) = experiment_output_dir r) /\
  run = (map Print (grads_report checkpoint_missing output_exists valid)
           ++ trace dispatch,
         result dispatch) /\
  (answer = "y" -> port = None -> submitted (trace run) = map grads_columns valid).
Proof.
  intros Ha Hb Hn checkpoint_missing output_exists valid dispatch run.
  assert (Run := submit_grads_run block_main port timeout batch_size args table Ha Hb Hn).
  cbv zeta in Run. fold checkpoint_missing output_exists valid dispatch run in Run.
  split; [|split; [|split; [|split; [|split]]]].
  - intros r. unfold valid, valid_ids, checkpoint_exists, output_dir_exists.
    rewrite filter_In, andb_true_iff, negb_true_iff. reflexivity.
  - intros r. unfold checkpoint_missing. rewrite filter_In, negb_true_iff. reflexivity.
  - intros r. apply filter_In.
  - intros r. split; reflexivity.
  - exact Run.
  - intros Hy ->. apply operator_confirming in Hy. subst operator.
    rewrite Run. cbn [trace fst]. rewrite submitted_app.
    hush (prints_silent (A := record) (grads_report checkpoint_missing output_exists valid)).
    apply confirmed_array_submits_all.
Qed.


(** C5.  When distinct floats print differently and without a colon, two
  records that differ in model, layers, activation, seed, l2_reg or img_size
  have different identifiers, and two records that agree on those fields
  and on the dataset have the same identifier, whatever their other
  columns. *)
Theorem identifier_injective_on_consumed_fields :
  str_float_injective -> str_float_no_colon ->
  forall r1 r2 : record,
    (model_name r1 <> model_name r2 \/ layers r1 <> layers r2 \/
     activation r1 <> activation r2 \/ seed r1 <> seed r2 \/
     l2_reg r1 <> l2_reg r2 \/ img_size r1 <> img_size r2 ->
     get_experiment_prefix r1 <> get_experiment_prefix r2) /\
    (dataset r1 = dataset r2 -> model_name r1 = model_name r2 ->
     layers r1 = layers r2 -> activation r1 = activation r2 ->
     seed r1 = seed r2 -> l2_reg r1 = l2_reg r2 -> img_size r1 = img_size r2 ->
     get_experiment_prefix r1 = get_experiment_prefix r2).
Proof.
  intros Hinj Hcol r1 r2. split.
  - intros Hd E.
    destruct (get_experiment_prefix_inj r1 r2 Hinj Hcol E)
      as [_ [Em [El [Ea [Es [Ew Ei]]]]]].
    destruct Hd as [D|[D|[D|[D|[D|D]]]]]; now apply D.
  - intros Ed Em El Ea Es Ew Ei. unfold get_experiment_prefix, name_list.
    now rewrite Ed, Em, El, Ea, Es, Ew, Ei.
Qed.

End Claims.

(** ** The properties on the sample data *)

Lemma whole_floats_injective : @str_float_injective whole_floats.
Proof.
  intros [a|] [b|] E; cbn in E; trivial.
  - apply cut_unique in E as [E _]; try (now apply str_int_chars).
    f_equal. now apply str_int_inj.
  - exfalso. apply (f_equal (Py.lacks ".")) in E.
    rewrite lacks_app, lacks_head, andb_false_r in E. discriminate E.
  - exfalso. apply (f_equal (Py.lacks ".")) in E.
    rewrite lacks_app, lacks_head, andb_false_r in E. discriminate E.
Qed.

Lemma whole_floats_no_colon : @str_float_no_colon whole_floats.
Proof.
  intros [a|]; cbn; [|reflexivity].
  rewrite lacks_app, str_int_chars by reflexivity. reflexivity.
Qed.

Lemma identifier_injective_witness :
  get_experiment_prefix resnet18_seed1 <> get_experiment_prefix resnet18_seed2.
Proof.
  apply (identifier_injective_on_consumed_fields
           whole_floats_injective whole_floats_no_colon resnet18_seed1 resnet18_seed2).
  right. right. right. left. discriminate.
Defined.


Lemma submit_grads_witness :
  submitted (trace (submit_grads (paths := sample_paths) (host := one_checkpoint)
                      (operator := confirming) (pandas := strict_pandas) (jobs := quiet_jobs)
                      true None 10 (fun _ => Some 32%Z) single_grid))
  = map (grads_columns (paths := sample_paths))
        (filter (valid_ids (paths := sample_paths) (host := one_checkpoint)) single_table).
Proof.
  apply (submit_grads_filters_by_both_checks
           (paths := sample_paths) (host := one_checkpoint) (operator := confirming)
           (pandas := strict_pandas) (jobs := quiet_jobs)
           true None 10 (fun _ => Some 32%Z) single_grid single_table).
  - reflexivity.
  - reflexivity.
  - discriminate.
  - reflexivity.
  - reflexivity.
Defined.


(** C1 as stated fails on a disk that holds a job's output directory and not
    its checkpoint: the job is outside the intersection, yet its output
    directory is printed under the output directories heading, so the run
    does not print the report the claim describes. *)
Lemma output_report_lists_job_without_checkpoint :
  let run := submit_grads (paths := sample_paths) (host := stale_output)
               (operator := confirming) (pandas := strict_pandas) (jobs := quiet_jobs)
               true None 10 (fun _ => Some 32%Z) single_grid in
  let both r := (output_dir_exists (paths := sample_paths) (host := stale_output) r
                 && checkpoint_exists (host := stale_output) r)%bool in
  bind_rows (grads_rows true None 10 (fun _ => Some 32%Z) single_grid) = Some single_table /\
  filter both single_table = [] /\
  printed (trace run)
  = [ "time: 2024-01-01 00:00:00";
      "Checkpoints skipped:";
      "checkpoints/MNIST/RESNET18::64_128::RELU::1::0.0::32.pt";
      "Output dirs skipped:";
      "outputs/MNIST/RESNET18::64_128::RELU::1::0.0::32";
      "Valid args:";
      "total num of jobs 0";
      "No jobs to run exiting" ] /\
  ~ (exists t,
        trace run
        = map Print (grads_report (paths := sample_paths) (host := stale_output)
                       (filter (fun r => negb (checkpoint_exists (host := stale_output) r))
                               single_table)
                       (filter both single_table)
                       (filter (valid_ids (paths := sample_paths) (host := stale_output))
                               single_table))
            ++ t).
Proof.
  cbv zeta. split; [reflexivity|]. split; [reflexivity|]. split; [reflexivity|].
  intros [t E]. vm_compute in E. discriminate E.
Qed.



Lemma blocking_witness :
  let run := execute_job_submission (operator := confirming) (jobs := second_fails)
               true None 10 [10; 20; 30] grads_main in
  result run = Raised (JobFailed "out of memory") /\
  requested (trace run) = [0; 1].
Proof.
  destruct (blocking_waits_in_order (jobs := second_fails) true None 10 grads_main
              10 [20; 30] ltac:(discriminate)) as [_ [_ [_ Fails]]].
  apply (Fails [VInt 0] (JobFailed "out of memory") [Returned (VInt 2)]).
  reflexivity.
Defined.

Lemma debug_flag_witness :
  submitted (trace (execute_job_submission (operator := confirming) (jobs := quiet_jobs)
                      true (Some 5%Z) 10 [10; 20; 30] grads_main)) = [10].
Proof.
  destruct (debug_flag_dispatches_first_only (jobs := quiet_jobs) confirming true 5 10
              [10; 20; 30] grads_main) as [_ [_ First]].
  destruct (First 10 [20; 30] eq_refl eq_refl) as [_ Remote].
  apply Remote. discriminate.
Defined.

Lemma argument_shape_witness :
  invocations (trace (execute_job_submission (operator := confirming) (jobs := quiet_jobs)
                        false None 10 [10; 20; 30] quant_main))
  = [(quant_main, OneRecord 10); (quant_main, OneRecord 20); (quant_main, OneRecord 30)].
Proof.
  destruct (argument_shape_by_mode (jobs := quiet_jobs) false None 10 quant_main
              10 [20; 30]) as [_ [Remote _]].
  apply Remote. discriminate.
Defined.

(** The example of the specification: two models and two seeds give four
    records, the seed running fastest; with the checkpoint of the first
    alone on disk, the other three are submitted. *)
Example specification_example :
  map (fun x => (lookup "model_name" x, lookup "seed" x)) (expand sample_grid)
  = [ (Some (VModel RESNET18), Some (VInt 1)); (Some (VModel RESNET18), Some (VInt 2));
      (Some (VModel RESNET34), Some (VInt 1)); (Some (VModel RESNET34), Some (VInt 2)) ] /\
  map (fun r => (model_name r, seed r))
      (submitted (trace (submit_training (host := one_checkpoint) (operator := confirming)
                           (pandas := strict_pandas) (jobs := quiet_jobs)
                           true None 10 (fun _ => Some 32%Z) (whole 1) sample_grid)))
  = [ (RESNET18, 2%Z); (RESNET34, 1%Z); (RESNET34, 2%Z) ].
Proof. split; reflexivity. Qed.

(** A debug run of [submit_grads] when no job is valid: the dispatcher fails
    on its empty table. *)
Example debug_run_with_nothing_valid :
  result (submit_grads (paths := sample_paths) (host := stale_output)
            (operator := confirming) (pandas := strict_pandas) (jobs := quiet_jobs)
            true (Some 0%Z) 10 (fun _ => Some 32%Z) single_grid)
  = Raised IndexError.
Proof. reflexivity. Qed.

(** * Further properties of the code *)

(** ** The dispatcher on any input *)

Section DispatcherMore.
Context `{PyFloat} {A : Type} {jobs : Jobs A}.

Lemma declined_run_trace (operator : Operator) (block_main : bool) (port : option Z)
    (timeout : Z) (func : job_func) (x : A) (rest : list A) :
  answer <> "y" ->
  execute_job_submission block_main port timeout (x :: rest) func
  = (declined_trace port (x :: rest), Returned None).
Proof.
  intros Hn. apply String.eqb_neq in Hn.
  unfold execute_job_submission, input, declined_trace.
  destruct port; cbn -[Py.str_int String.eqb]; rewrite Hn; reflexivity.
Qed.

Lemma confirmed_run_prompts (block_main : bool) (port : option Z) (timeout : Z)
    (func : job_func) (x : A) (rest : list A) :
  prompted (trace (execute_job_submission (operator := confirming) block_main port
                     timeout (x :: rest) func)) = true.
Proof.
  assert (Hp : port = Some 0%Z \/ port <> Some 0%Z).
  { destruct port as [[|p|p]|]; [now left|right; discriminate..]. }
  destruct Hp as [->|Hp].
  - rewrite local_run. cbn [trace fst]. unfold prompted, preamble.
    rewrite !existsb_app. cbn. reflexivity.
  - rewrite (remote_run block_main port timeout func x rest Hp). cbn [trace fst].
    unfold prompted, preamble. rewrite !existsb_app. cbn.
    destruct port; cbn; now rewrite ?orb_true_r.
Qed.

Lemma confirmed_run_dispatches (block_main : bool) (port : option Z) (timeout : Z)
    (func : job_func) (x : A) (rest : list A) :
  let run := execute_job_submission (operator := confirming) block_main port
               timeout (x :: rest) func in
  dispatched (trace run) = debug_cut port (x :: rest) /\
  used_executor (trace run) = true.
Proof.
  cbv zeta.
  assert (Hp : port = Some 0%Z \/ port <> Some 0%Z).
  { destruct port as [[|p|p]|]; [now left|right; discriminate..]. }
  destruct Hp as [->|Hp].
  - rewrite local_run. cbn [trace fst]. rewrite dispatched_app.
    hush (preamble_silent (Some 0%Z) timeout (x :: rest)).
    split; [reflexivity|]. unfold used_executor, preamble.
    rewrite !existsb_app. cbn. now rewrite ?orb_true_r.
  - rewrite (remote_run block_main port timeout func x rest Hp). cbn [trace fst].
    rewrite !dispatched_app.
    hush (preamble_silent port timeout (x :: rest)).
    hush (wait_silent block_main func
            (combine (seq 0 (List.length (debug_cut port (x :: rest))))
                     (debug_cut port (x :: rest)))).
    split; [cbn; now rewrite !List.app_nil_r|].
    unfold used_executor. rewrite !existsb_app. cbn. now rewrite ?orb_true_r.
Qed.

(** X1.  When the table has a job and the operator answers anything but [y],
  the dispatcher returns [None] after the prompt: no record reaches a job
  function, no result is requested, the executor is not even constructed,
  and the last line printed is [Aborted]. *)
Theorem declined_submission_has_no_effect (operator : Operator) (block_main : bool)
    (port : option Z) (timeout : Z) (func : job_func) (x : A) (rest : list A) :
  answer <> "y" ->
  let run := execute_job_submission block_main port timeout (x :: rest) func in
  result run = Returned None /\
  prompted (trace run) = true /\
  dispatched (trace run) = [] /\
  requested (trace run) = [] /\
  used_executor (trace run) = false /\
  last (printed (trace run)) "" = "Aborted".
Proof.
  intros Hn. cbv zeta. rewrite (declined_run_trace operator _ _ _ _ _ _ Hn).
  unfold declined_trace. cbn [trace result fst snd].
  destruct port; repeat split.
Qed.

(** X2.  On every table, port and answer the dispatcher hands the job function
  either nothing or exactly the table after the debug cut; it reads the
  console if and only if the table has a row; and it constructs the executor
  if and only if the table has a row and the operator answered [y]. *)
Theorem dispatcher_dispatches_cut_or_nothing (operator : Operator) (block_main : bool)
    (port : option Z) (timeout : Z) (args : list A) (func : job_func) :
  let run := execute_job_submission block_main port timeout args func in
  (dispatched (trace run) = [] \/ dispatched (trace run) = debug_cut port args) /\
  (prompted (trace run) = true <-> args <> []) /\
  (used_executor (trace run) = true <-> answer = "y" /\ args <> []).
Proof.
  cbv zeta. destruct args as [|x rest].
  - destruct port; cbn; (split; [now left|]); split; split;
      try discriminate; try congruence; intros [_ E]; congruence.
  - destruct (string_dec answer "y") as [Hy|Hn].
    + apply operator_confirming in Hy. subst operator.
      destruct (confirmed_run_dispatches block_main port timeout func x rest) as [D U].
      rewrite D, U, confirmed_run_prompts.
      split; [now right|]. split; split; trivial; try discriminate.
      intros _. split; [reflexivity|discriminate].
    + rewrite (declined_run_trace operator _ _ _ _ _ _ Hn).
      unfold declined_trace. cbn [trace fst].
      split; [left; destruct port; reflexivity|].
      split; [split; [discriminate|intros _; destruct port; reflexivity]|].
      split; [destruct port; discriminate|intros [Hy _]; contradiction].
Qed.

End DispatcherMore.

(** ** [submit_measurements] *)

Section Measurements.
Context `{PyFloat} {host : Host} {operator : Operator} {jobs : Jobs row}.

Lemma measurement_row_columns (block_main : bool) (port : option Z) (timeout : Z)
    (x : row) :
  let y := assign "timeout" (VInt timeout)
             (assign "block_main" (VBool block_main)
                (assign "port" (value_of_port port) x)) in
  lookup "port" y = Some (value_of_port port) /\
  lookup "block_main" y = Some (VBool block_main) /\
  lookup "timeout" y = Some (VInt timeout) /\
  (forall k, k <> "port" -> k <> "block_main" -> k <> "timeout" ->
             lookup k y = lookup k x).
Proof.
  cbv zeta. repeat split.
  - rewrite !lookup_assign_neq by reflexivity. apply lookup_assign_eq.
  - rewrite lookup_assign_neq by reflexivity. apply lookup_assign_eq.
  - apply lookup_assign_eq.
  - intros k Kp Kb Kt. rewrite !lookup_assign_neq; trivial; now apply String.eqb_neq.
Qed.

(** X3.  [submit_measurements] filters nothing: it prints the time and gives
  the dispatcher one row per combination of the grid, each the combination's
  own row with the [port], [block_main] and [timeout] columns set to its
  arguments (so the job finds [args["port"]]); with no debug port and a
  confirming operator all of them are submitted. *)
Theorem submit_measurements_submits_every_combination (block_main : bool)
    (port : option Z) (timeout : Z) (args : grid) :
  let rows := measurement_rows block_main port timeout args in
  let dispatch := execute_job_submission block_main port timeout rows quant_main in
  let run := submit_measurements block_main port timeout args in
  run = (Print ("time: " ++ now) :: trace dispatch, result dispatch) /\
  List.length rows = size (map snd args) /\
  (forall y, In y rows ->
     exists x, In x (expand args) /\
       lookup "port" y = Some (value_of_port port) /\
       lookup "block_main" y = Some (VBool block_main) /\
       lookup "timeout" y = Some (VInt timeout) /\
       (forall k, k <> "port" -> k <> "block_main" -> k <> "timeout" ->
                  lookup k y = lookup k x) /\
       subscript_port (OneRecord y) = Returned (value_of_port port)) /\
  (answer = "y" -> port = None -> submitted (trace run) = rows).
Proof.
  cbv zeta.
  assert (Run : submit_measurements block_main port timeout args
                = (Print ("time: " ++ now)
                     :: trace (execute_job_submission block_main port timeout
                                 (measurement_rows block_main port timeout args)
                                 quant_main),
                   result (execute_job_submission block_main port timeout
                             (measurement_rows block_main port timeout args)
                             quant_main))).
  { unfold submit_measurements. now rewrite bind_print. }
  split; [exact Run|]. split; [|split].
  - unfold measurement_rows. rewrite !length_map. apply expand_length.
  - intros y Hy. unfold measurement_rows in Hy. rewrite !map_map in Hy.
    apply in_map_iff in Hy as [x [<- Hx]]. exists x. split; [exact Hx|].
    destruct (measurement_row_columns block_main port timeout x) as [P [B [T K]]].
    repeat split; trivial. cbn [subscript_port]. now rewrite P.
  - intros Hy ->. apply operator_confirming in Hy. subst operator.
    rewrite Run. cbn [trace fst].
    change (submitted (Print ("time: " ++ now) :: ?t)) with (submitted t).
    apply confirmed_array_submits_all.
Qed.

End Measurements.

(** ** Paths of a job *)

Open Scope string_scope.

Lemma length_append (s t : string) :
  String.length (s ++ t) = String.length s + String.length t.
Proof. induction s as [|a s IH]; cbn; [reflexivity|now rewrite IH]. Qed.

Lemma append_cancel_r (a b t : string) : a ++ t = b ++ t -> a = b.
Proof.
  revert b. induction a as [|c a IH]; intros [|d b] E; cbn in E.
  - reflexivity.
  - apply (f_equal String.length) in E. cbn in E. rewrite length_append in E. lia.
  - apply (f_equal String.length) in E. cbn in E. rewrite length_append in E. lia.
  - injection E as -> E. f_equal. now apply IH.
Qed.

Open Scope list_scope.

Section JobPaths.
Context `{PyFloat} {paths : Paths}.

Lemma consumed_eq (r1 r2 : record) :
  consumed r1 = consumed r2 <->
  dataset r1 = dataset r2 /\ model_name r1 = model_name r2 /\
  layers r1 = layers r2 /\ activation r1 = activation r2 /\
  seed r1 = seed r2 /\ l2_reg r1 = l2_reg r2 /\ img_size r1 = img_size r2.
Proof.
  unfold consumed. split.
  - intros E. injection E as -> -> -> -> -> -> ->. repeat split.
  - intros [-> [-> [-> [-> [-> [-> ->]]]]]]. reflexivity.
Qed.

Lemma consumed_prefix (r1 r2 : record) :
  consumed r1 = consumed r2 -> get_experiment_prefix r1 = get_experiment_prefix r2.
Proof.
  intros E. apply consumed_eq in E as [Ed [Em [El [Ea [Es [Ew Ei]]]]]].
  unfold get_experiment_prefix, name_list. now rewrite Ed, Em, El, Ea, Es, Ew, Ei.
Qed.

Lemma output_dir_prefix (r1 r2 : record) :
  experiment_output_dir r1 = experiment_output_dir r2 ->
  get_experiment_prefix r1 = get_experiment_prefix r2.
Proof.
  unfold experiment_output_dir, Py.os_path_join.
  assert (S : forall r : record, Py.startswith "/" (get_experiment_prefix r) = false).
  { intros r. rewrite get_experiment_prefix_eq. destruct (dataset r); reflexivity. }
  rewrite !S.
  destruct (String.eqb LOCAL_OUTPUT_DIR "" || Py.endswith "/" LOCAL_OUTPUT_DIR)%bool;
    intros E; apply append_cancel_l in E; trivial.
  now apply (append_cancel_l "/") in E.
Qed.

(** X8.  When distinct floats print differently and without a colon, two jobs
  have the same checkpoint path exactly when they agree on the dataset and
  the six named fields, and the same holds for the output directory: no two
  different jobs of a grid share a checkpoint file or an output directory,
  and columns outside the seven never separate two jobs. *)
Theorem paths_identify_the_job :
  str_float_injective -> str_float_no_colon ->
  forall r1 r2 : record,
    (get_save_path r1 = get_save_path r2 <-> consumed r1 = consumed r2) /\
    (experiment_output_dir r1 = experiment_output_dir r2 <-> consumed r1 = consumed r2).
Proof.
  intros Hinj Hcol r1 r2. split; split.
  - unfold get_save_path. intros E.
    apply append_cancel_l, append_cancel_r in E.
    apply consumed_eq. now apply get_experiment_prefix_inj.
  - intros E. unfold get_save_path. now rewrite (consumed_prefix r1 r2 E).
  - intros E. apply output_dir_prefix in E.
    apply consumed_eq. now apply get_experiment_prefix_inj.
  - intros E. unfold experiment_output_dir. now rewrite (consumed_prefix r1 r2 E).
Qed.

End JobPaths.

(** ** Grids that lack a column *)

Section MissingColumns.
Context `{PyFloat} {paths : Paths} {host : Host} {operator : Operator}.
Context {pandas : Pandas} {jobs : Jobs record}.

Lemma lookup_combine_missing (k : string) (columns : list string) (t : list value) :
  existsb (String.eqb k) columns = false -> lookup k (combine columns t) = None.
Proof.
  revert t. induction columns as [|c columns IH]; intros [|v t] E; try reflexivity.
  cbn in E. apply orb_false_elim in E as [E1 E2].
  cbn [combine lookup]. rewrite E1. now apply IH.
Qed.

Lemma expand_lookup_missing (k : string) (args : grid) (x : row) :
  existsb (String.eqb k) (map fst args) = false ->
  In x (expand args) -> lookup k x = None.
Proof.
  intros E Hx. unfold expand, DataFrame in Hx.
  apply in_map_iff in Hx as [t [<- _]]. now apply lookup_combine_missing.
Qed.

Lemma bind_keywords_missing (k : string) (x : row) :
  In k prefix_keywords -> lookup k x = None -> bind_keywords x = None.
Proof.
  intros Hk E. unfold bind_keywords.
  cbn in Hk. destruct Hk as [<-|[<-|[<-|[<-|[<-|[<-|[<-|[]]]]]]]]; rewrite E;
    repeat match goal with
           | |- context [match lookup ?c x with _ => _ end] =>
               destruct (lookup c x) as [[]|]; try reflexivity
           end;
    reflexivity.
Qed.

Lemma bind_rows_head (x : row) (rest : list row) :
  bind_keywords x = None -> bind_rows (x :: rest) = None.
Proof. intros E. cbn. now rewrite E. Qed.

(** X4.  A grid with a combination but without one of the seven columns the
  identifier is made of stops both submitters before anything is reported or
  dispatched: [submit_training] raises [TypeError] having printed nothing,
  [submit_grads] raises after the time line, [KeyError] for a missing
  [activation] column and [TypeError] otherwise. *)
Theorem grid_without_naming_column_raises (block_main : bool) (port : option Z)
    (timeout : Z) (batch_size : ActivationSwitch -> option Z)
    (warmup_epochs_ratio : float) (args : grid) (k : string) :
  In k prefix_keywords ->
  existsb (String.eqb k) (map fst args) = false ->
  expand args <> [] ->
  submit_training block_main port timeout batch_size warmup_epochs_ratio args
  = ([], Raised TypeError) /\
  submit_grads block_main port timeout batch_size args
  = ([Print ("time: " ++ now)],
     Raised (if existsb (String.eqb "activation") (map fst args)
             then TypeError else KeyError "activation")).
Proof.
  intros Hk E Hne. split.
  - unfold submit_training.
    destruct (expand args) as [|x rest] eqn:Ex; [congruence|].
    assert (B : bind_rows (x :: rest) = None).
    { apply bind_rows_head, (bind_keywords_missing k); trivial.
      apply (expand_lookup_missing k args); trivial. rewrite Ex. now left. }
    unfold bind_table. rewrite B. reflexivity.
  - unfold submit_grads. rewrite bind_print.
    destruct (existsb (String.eqb "activation") (map fst args)) eqn:Ea;
      [|reflexivity].
    rewrite bind_ret.
    destruct (expand args) as [|x rest] eqn:Ex; [congruence|].
    cbn [map].
    match goal with
    | |- context [bind (bind_table (?y :: ?ys)) _] =>
        assert (B : bind_rows (y :: ys) = None)
    end.
    { apply bind_rows_head, (bind_keywords_missing k); trivial.
      assert (L : lookup k x = None).
      { apply (expand_lookup_missing k args); trivial. rewrite Ex. now left. }
      assert (Hk' : k <> "batch_size" /\ k <> "timeout" /\ k <> "block_main"
                    /\ k <> "port").
      { cbn in Hk. destruct Hk as [<-|[<-|[<-|[<-|[<-|[<-|[<-|[]]]]]]]];
          repeat split; discriminate. }
      destruct Hk' as [K1 [K2 [K3 K4]]].
      rewrite !lookup_assign_neq; trivial; now apply String.eqb_neq. }
    unfold bind_table. rewrite B. reflexivity.
Qed.

(** X5.  A training grid whose rows bind but which has no [epochs] column
  prints the report of the skipped checkpoints and then raises
  [KeyError] for [epochs]: the operator is not prompted and nothing is
  dispatched, whatever exists on disk. *)
Theorem training_grid_without_epochs_raises (block_main : bool) (port : option Z)
    (timeout : Z) (batch_size : ActivationSwitch -> option Z)
    (warmup_epochs_ratio : float) (args : grid) (table : list record) :
  existsb (String.eqb "epochs") (map fst args) = false ->
  bind_rows (expand args) = Some table ->
  table <> [] ->
  let run := submit_training block_main port timeout batch_size warmup_epochs_ratio args in
  run = (Print "Checkpoints skipped because they do already exist"
           :: map Print (map get_save_path (filter checkpoint_exists table)),
         Raised (KeyError "epochs")) /\
  prompted (trace run) = false /\
  dispatched (trace run) = [].
Proof.
  intros He Hb Hn. cbv zeta.
  assert (Run : submit_training block_main port timeout batch_size warmup_epochs_ratio args
                = (Print "Checkpoints skipped because they do already exist"
                     :: map Print (map get_save_path (filter checkpoint_exists table)),
                   Raised (KeyError "epochs"))).
  { unfold submit_training.
    rewrite He, (bind_table_rows _ table Hb Hn), bind_ret.
    rewrite !map_map, !filter_map_swap, !map_map.
    rewrite (filter_ext _ checkpoint_exists) by (intros r; now rewrite str_column_set_eq).
    rewrite (map_ext _ get_save_path) by (intros r; now rewrite str_column_set_eq).
    rewrite bind_print, bind_print_each. cbn [trace result fst snd bind raise].
    now rewrite List.app_nil_r, map_map. }
  rewrite Run. cbn [trace fst]. split; [reflexivity|].
  set (lines := map get_save_path (filter checkpoint_exists table)).
  split.
  - change (prompted (Print ?l :: ?t)) with (prompted t).
    induction lines as [|l lines IH]; [reflexivity|exact IH].
  - change (dispatched (Print ?l :: ?t)) with (dispatched t).
    hush (prints_silent (A := record) lines). reflexivity.
Qed.

End MissingColumns.

(** ** No combination is lost *)

Section Accounting.
Context `{PyFloat} {paths : Paths} {host : Host}.

Lemma length_filter_negb {X} (f : X -> bool) (l : list X) :
  List.length (filter f l) + List.length (filter (fun x => negb (f x)) l)
  = List.length l.
Proof.
  induction l as [|x l IH]; [reflexivity|].
  cbn. destruct (f x); cbn; lia.
Qed.

Lemma bind_rows_length (rows : list row) (table : list record) :
  bind_rows rows = Some table -> List.length table = List.length rows.
Proof.
  revert table. induction rows as [|x rows IH]; intros table E; cbn in E.
  - now injection E as <-.
  - destruct (bind_keywords x); [|discriminate].
    destruct (bind_rows rows) as [rs|]; [|discriminate].
    injection E as <-. cbn. now rewrite (IH rs).
Qed.

End Accounting.

Section AccountingRuns.
Context `{PyFloat} {paths : Paths} {host : Host}.
Context {pandas : Pandas} {jobs : Jobs record}.

Lemma printed_app {A : Type} (t u : list (event A)) :
  printed (t ++ u) = printed t ++ printed u.
Proof. apply flat_map_app. Qed.

Lemma printed_prints {A : Type} (lines : list string) :
  printed (A := A) (map Print lines) = lines.
Proof.
  induction lines as [|l lines IH]; [reflexivity|].
  cbn [map]. change (printed (Print l :: ?t)) with (l :: printed t). now rewrite IH.
Qed.


(** X7.  The report of [submit_grads] names every job of the table, whatever
  the operator answers afterwards: a job with a checkpoint has its output
  directory printed, a job without one its checkpoint path; the table has one
  job per combination, and the valid jobs and the jobs under a skip heading
  add up to it. *)
Theorem grads_report_names_every_job (operator : Operator) (block_main : bool)
    (port : option Z) (timeout : Z) (batch_size : ActivationSwitch -> option Z)
    (args : grid) (table : list record) :
  existsb (String.eqb "activation") (map fst args) = true ->
  bind_rows (grads_rows block_main port timeout batch_size args) = Some table ->
  table <> [] ->
  let run := submit_grads block_main port timeout batch_size args in
  List.length table = size (map snd args) /\
  List.length (filter valid_ids table)
  + List.length (filter (fun r => negb (checkpoint_exists r) || output_dir_exists r) table)
  = size (map snd args) /\
  (forall r, In r table ->
     if checkpoint_exists r
     then In (experiment_output_dir r) (printed (trace run))
     else In (get_save_path r) (printed (trace run))).
Proof.
  intros Ha Hb Hne. cbv zeta.
  assert (L : List.length table = size (map snd args)).
  { rewrite (bind_rows_length _ _ Hb). unfold grads_rows.
    rewrite !length_map. apply expand_length. }
  split; [exact L|split].
  - rewrite <- L, <- (length_filter_negb valid_ids table). f_equal. f_equal.
    apply filter_ext. intros r. unfold valid_ids.
    now rewrite negb_andb, negb_involutive.
  - intros r Hr.
    rewrite (submit_grads_run block_main port timeout batch_size args table Ha Hb Hne).
    cbv zeta. cbn [trace fst]. rewrite printed_app, printed_prints.
    unfold grads_report.
    destruct (checkpoint_exists r) eqn:Hc.
    + apply in_or_app. left.
      destruct (output_dir_exists r) eqn:Ho.
      * do 4 (apply in_or_app; right). apply in_or_app. left.
        apply in_map, filter_In. now split.
      * do 6 (apply in_or_app; right).
        apply in_map, filter_In. split; [exact Hr|]. unfold valid_ids.
        now rewrite Hc, Ho.
    + apply in_or_app. left. do 2 (apply in_or_app; right). apply in_or_app. left.
      apply in_map, filter_In. split; [exact Hr|]. now rewrite Hc.
Qed.

End AccountingRuns.

(** ** Switches and their names *)

Section Switches.

Lemma getitem_found {E : Type} `{ConvertableEnum E} (value : string) (e : E) :
  getitem value = Some e -> name e = value /\ In e members.
Proof.
  unfold getitem. intros F. apply find_some in F as [Hin Hn].
  split; [now apply String.eqb_eq|exact Hin].
Qed.

Lemma getitem_missing {E : Type} `{ConvertableEnum E} (value : string) :
  getitem value = None -> ~ In value (map name members).
Proof.
  unfold getitem. intros F Hin. apply in_map_iff in Hin as [e [Hn He]].
  pose proof (find_none _ _ F e He) as N. cbn in N.
  apply String.eqb_neq in N. contradiction.
Qed.

(** X9.  [ConvertableEnum.convert] inverts [str] on every member of the five
  switches; whatever the class and the string, a converted member has that
  string as its name, and a string that is no member's name raises
  [ArgumentTypeError] with the message that lists the names in definition
  order.  No class gives two members one value, so no name is an alias. *)
Theorem convert_inverts_str :
  (forall l : LossSwitch, convert (str_loss l) = Done l) /\
  (forall m : ModelSwitch, convert (str_model m) = Done m) /\
  (forall a : ActivationSwitch, convert (str_activation a) = Done a) /\
  (forall d : DatasetSwitch, convert (str_dataset d) = Done d) /\
  (forall a : AugmentationSwitch, convert (str_augmentation a) = Done a) /\
  (forall (E : Type) (cls : ConvertableEnum E) (value : string),
     match convert value with
     | Done e => name e = value /\ In e members
     | Failed err =>
         ~ In value (map name members) /\
         err = ArgumentTypeError
                 ("Invalid " ++ cls_name ++ " value '" ++ value ++ "'. Choose from "
                  ++ Py.join ", " (map name members) ++ ".")
     end) /\
  NoDup (map enum_value (members (E := LossSwitch))) /\
  NoDup (map enum_value (members (E := ModelSwitch))) /\
  NoDup (map enum_value (members (E := ActivationSwitch))) /\
  NoDup (map enum_value (members (E := DatasetSwitch))) /\
  NoDup (map enum_value (members (E := AugmentationSwitch))).
Proof.
  repeat split.
  - intros []; reflexivity.
  - intros []; reflexivity.
  - intros []; reflexivity.
  - intros []; reflexivity.
  - intros []; reflexivity.
  - intros E cls value. unfold convert.
    destruct (getitem value) as [e|] eqn:G.
    + now apply getitem_found.
    + split; [now apply getitem_missing|reflexivity].
  - cbn. repeat constructor; cbn; intuition discriminate.
  - cbn. repeat constructor; cbn; intuition discriminate.
  - cbn. repeat constructor; cbn; intuition discriminate.
  - cbn. repeat constructor; cbn; intuition discriminate.
  - cbn. repeat constructor; cbn; intuition discriminate.
Qed.

End Switches.

Section Modules.
Context `{PyFloatOps}.

(** X10.  [convert_str_to_activation_fn] takes a member or its name alike, and
  no member raises [NameError]: [LEAKY_RELU] gives [LeakyReLU] (it is tested
  before [RELU], which its name contains), [RELU] gives [ReLU], and a
  softplus member gives [Softplus] of the float read from the literal its
  name encodes, [SOFTPLUS_B_01] reading [.01] and [SOFTPLUS_B1] reading [1]. *)
Theorem activation_fn_of_every_member (a : ActivationSwitch) :
  convert_str_to_activation_fn (VStr (str_activation a))
  = convert_str_to_activation_fn (VActivation a) /\
  convert_str_to_activation_fn (VActivation a)
  = match a with
    | LEAKY_RELU => Done LeakyReLU
    | RELU => Done ReLU
    | _ =>
        match float_of_string (beta_literal a) with
        | Some beta => Done (Softplus beta)
        | None => Failed (Builtin ValueError)
        end
    end.
Proof. split; [reflexivity|]. destruct a; reflexivity. Qed.

(** X11.  [convert_str_to_loss_fn] returns a loss, with reduction [sum], for
  the two members of [LossSwitch] and raises [NameError] for any other value:
  in particular for the name of a member as a string, which has to go through
  [convert] first. *)
Theorem loss_fn_takes_members_only (loss : value) :
  convert_str_to_loss_fn loss
  = match loss with
    | VLoss MSE => Done (MSELoss "sum")
    | VLoss CE => Done (CrossEntropyLoss "sum")
    | _ => Failed (NameError (str_value loss))
    end /\
  (forall l : LossSwitch,
     convert_str_to_loss_fn (VStr (str_loss l)) = Failed (NameError (str_loss l)) /\
     match convert (str_loss l) with
     | Done member => convert_str_to_loss_fn (VLoss member) = convert_str_to_loss_fn (VLoss l)
     | Failed _ => False
     end).
Proof.
  split.
  - destruct loss as [| | | | | |[]| | |]; reflexivity.
  - intros []; split; reflexivity.
Qed.

End Modules.

(** ** [determine_device] *)

Section DeviceFacts.
Context `{PyFloatOps} {R : Type} {node : Node}.

(** X12.  [determine_device] raises [KeyError] without printing when the
  dictionary has no [port]; otherwise it prints the device and writes it
  under [device], leaving every other key as it was.  On a job made by
  [submit_measurements] the device is [cpu] in local mode (port 0) even where
  CUDA is available, and follows the availability of CUDA for any other
  port or none. *)
Theorem determine_device_by_port (args : row) :
  match lookup "port" args with
  | None => determine_device (R := R) args = ([], Failed (Builtin (KeyError "port")))
  | Some port =>
      let device := if eq_zero port then "cpu"
                    else if cuda_is_available then "cuda" else "cpu" in
      let after := assign "device" (VStr device) args in
      determine_device (R := R) args
      = ([Stdout ("Using " ++ device ++ " device")], Done after) /\
      lookup "device" after = Some (VStr device) /\
      (forall k, k <> "device" -> lookup k after = lookup k args)
  end /\
  (forall (block_main : bool) (port : option Z) (timeout : Z) (grid : grid) (y : row),
     In y (measurement_rows block_main port timeout grid) ->
     let device := match port with
                   | Some 0%Z => "cpu"
                   | _ => if cuda_is_available then "cuda" else "cpu"
                   end in
     determine_device (R := R) y
     = ([Stdout ("Using " ++ device ++ " device")],
        Done (assign "device" (VStr device) y))).
Proof.
  assert (G : forall (a : row) (port : value),
             lookup "port" a = Some port ->
             determine_device (R := R) a
             = ([Stdout ("Using " ++ (if eq_zero port then "cpu"
                                      else if cuda_is_available then "cuda" else "cpu")
                         ++ " device")],
                Done (assign "device"
                        (VStr (if eq_zero port then "cpu"
                               else if cuda_is_available then "cuda" else "cpu")) a))).
  { intros a port Hp. unfold determine_device, subscript. rewrite Hp. cbn.
    destruct (eq_zero port), cuda_is_available; reflexivity. }
  split.
  - destruct (lookup "port" args) as [port|] eqn:Hp.
    + cbv zeta. split; [now apply G|split].
      * apply lookup_assign_eq.
      * intros k Hk. apply lookup_assign_neq. now apply String.eqb_neq.
    + unfold determine_device, subscript. now rewrite Hp.
  - intros block_main port timeout grid y Hy. cbv zeta.
    unfold measurement_rows in Hy. rewrite !map_map in Hy.
    apply in_map_iff in Hy as [x [<- _]].
    rewrite (G _ (value_of_port port));
      [|apply (measurement_row_columns block_main port timeout x)].
    destruct port as [[|p|p]|]; reflexivity.
Qed.

End DeviceFacts.

(** ** The registry of [src/datasets.py] *)

Section DictFacts.
Context {K V : Type} (eq_dec : forall a b : K, {a = b} + {a <> b}).

Lemma dict_get_set (k k' : K) (v : V) (d : list (K * V)) :
  dict_get eq_dec k' (dict_set eq_dec k v d)
  = if eq_dec k' k then Some v else dict_get eq_dec k' d.
Proof.
  induction d as [|[k0 v0] d IH]; cbn.
  - reflexivity.
  - destruct (eq_dec k k0) as [->|N]; cbn.
    + destruct (eq_dec k' k0); reflexivity.
    + destruct (eq_dec k' k0) as [->|N'].
      * destruct (eq_dec k0 k); [congruence|reflexivity].
      * exact IH.
Qed.

End DictFacts.

Lemma upper_str_dataset (d : DatasetSwitch) :
  PyStr.upper (str_dataset d) = str_dataset d.
Proof. destruct d; reflexivity. Qed.

Section RegistryFacts.
Context {data_paths : DataPaths}.

(** X13.  [register_dataset] either finds the root [<NAME>_ROOT] in the paths
  module, and then the registry maps the name to the function, the function
  carries that root, and every other key and every other function is as
  before; or it raises [AttributeError] for that attribute. *)
Theorem register_dataset_then_lookup (name : DatasetSwitch) (func : dataset_func)
    (st : module_state) :
  let attribute := (str_dataset name ++ "_ROOT")%string in
  match register_dataset name func st, paths_attribute attribute with
  | Done st', Some root =>
      (forall d : DatasetSwitch,
         dict_get DatasetSwitch_eq_dec d (registered_datasets st')
         = if DatasetSwitch_eq_dec d name then Some func
           else dict_get DatasetSwitch_eq_dec d (registered_datasets st)) /\
      (forall f : dataset_func,
         dict_get dataset_func_eq_dec f (root_path_attribute st')
         = if dataset_func_eq_dec f func then Some root
           else dict_get dataset_func_eq_dec f (root_path_attribute st))
  | Failed e, None => e = AttributeError attribute
  | _, _ => False
  end.
Proof.
  cbv zeta. unfold register_dataset. rewrite upper_str_dataset.
  destruct (paths_attribute (str_dataset name ++ "_ROOT")) as [root|]; [|reflexivity].
  cbn [registered_datasets root_path_attribute]. split.
  - intros d. apply dict_get_set.
  - intros f. apply dict_get_set.
Qed.

(** X14.  Whatever the paths module defines, importing [src/datasets.py] with
  the [DatasetSwitch] of [src/utils.py] raises [AttributeError] at its first
  decorator, which names the member [IMAGENET] the switch does not have.  The
  decorators after it would register the five members, each with its own
  function and root, or raise [AttributeError] for a root the paths module
  lacks. *)
Theorem import_stops_at_imagenet :
  import_datasets = Failed (AttributeError "IMAGENET") /\
  match run_decorators (tl decorators) fresh_module with
  | Done st =>
      registered_datasets st
      = [ (IMAGENETTE, get_imagenette_dataset);
          (FASHION_MNIST, get_fashion_mnist_dataset);
          (CIFAR10, get_cifar10_dataset);
          (MNIST, get_mnist_dataset);
          (GRADS, get_grad_dataloader) ] /\
      map (fun entry => Some (snd entry)) (root_path_attribute st)
      = map (fun entry => paths_attribute (str_dataset (fst entry) ++ "_ROOT"))
            (registered_datasets st)
  | Failed e =>
      exists d : DatasetSwitch,
        e = AttributeError (str_dataset d ++ "_ROOT") /\
        paths_attribute (str_dataset d ++ "_ROOT") = None
  end.
Proof.
  split; [reflexivity|].
  cbn [tl decorators run_decorators DatasetSwitch_attribute]. cbn.
  unfold register_dataset. rewrite !upper_str_dataset. cbn.
  destruct (paths_attribute "IMAGENETTE_ROOT") eqn:E1;
    cbn; [|exists IMAGENETTE; now split].
  destruct (paths_attribute "FASHION_MNIST_ROOT") eqn:E2;
    cbn; [|exists FASHION_MNIST; now split].
  destruct (paths_attribute "CIFAR10_ROOT") eqn:E3;
    cbn; [|exists CIFAR10; now split].
  destruct (paths_attribute "MNIST_ROOT") eqn:E4;
    cbn; [|exists MNIST; now split].
  destruct (paths_attribute "GRADS_ROOT") eqn:E5;
    cbn; [|exists GRADS; now split].
  cbn. now rewrite E1, E2, E3, E4, E5.
Qed.

End RegistryFacts.

(** ** Paths of the data *)

Open Scope string_scope.

Lemma endswith_app (suffix s : string) : PyStr.endswith suffix (s ++ suffix) = true.
Proof.
  induction s as [|a s IH]; cbn.
  - destruct suffix; cbn; [reflexivity|]. now rewrite Ascii.eqb_refl, String.eqb_refl.
  - rewrite IH. apply orb_true_r.
Qed.

Lemma eqb_lacks (c : ascii) (s t : string) :
  Py.lacks c s = false -> Py.lacks c t = true -> String.eqb s t = false.
Proof.
  intros Hs Ht. apply String.eqb_neq. intros ->. congruence.
Qed.

Lemma endswith_after (c : ascii) (suffix dir file : string) :
  Py.lacks c suffix = true ->
  PyStr.endswith suffix (dir ++ String c file) = PyStr.endswith suffix file.
Proof.
  intros Hs. induction dir as [|a dir IH].
  - cbn [append PyStr.endswith].
    rewrite (eqb_lacks c (String c file) suffix); [reflexivity| |exact Hs].
    apply lacks_head.
  - cbn [append]. cbn [PyStr.endswith]. rewrite IH.
    rewrite (eqb_lacks c (String a (dir ++ String c file)) suffix); [reflexivity| |exact Hs].
    rewrite lacks_cons, lacks_app, lacks_head.
    now rewrite andb_false_r, andb_false_r.
Qed.

Lemma basename_join (dir file : string) :
  Py.lacks "/" file = true -> PyStr.basename (dir ++ "/" ++ file) = file.
Proof.
  intros Hf. induction dir as [|a dir IH].
  - cbn. now rewrite Hf.
  - cbn [append PyStr.basename].
    change (dir ++ String "/" file) with (dir ++ "/" ++ file).
    assert (L : Py.lacks "/" (dir ++ "/" ++ file) = false).
    { rewrite lacks_app. change ("/" ++ file) with (String "/" file).
      rewrite lacks_head. apply andb_false_r. }
    now rewrite L.
Qed.

Lemma replace_tgz (stem : string) :
  Py.lacks "." stem = true -> PyStr.replace ".tgz" "" (stem ++ ".tgz") = stem.
Proof.
  intros Hs. unfold PyStr.replace.
  induction stem as [|a stem IH]; [reflexivity|].
  rewrite lacks_cons in Hs. apply andb_true_iff in Hs as [Ha Hs].
  cbn [append PyStr.replace_from String.prefix].
  destruct (ascii_dec "." a) as [<-|N]; [discriminate Ha|].
  now rewrite (IH Hs).
Qed.

Open Scope list_scope.

(** ** Directories of a job *)

Section DirectoryFacts.
Context `{PyFloatOps} {R : Type}.
Context {paths : Paths} {data_paths : DataPaths} {node : Node}.

Lemma resolve_run (st : module_state) (args : row) (d : DatasetSwitch)
    (func : dataset_func) (root : string) (port : value) :
  lookup "dataset" args = Some (VDataset d) ->
  dict_get DatasetSwitch_eq_dec d (registered_datasets st) = Some func ->
  dict_get dataset_func_eq_dec func (root_path_attribute st) = Some root ->
  lookup "port" args = Some port ->
  let compute := if eq_zero port then get_local_data_dir d else get_remote_data_dir d in
  let output := if eq_zero port then LOCAL_OUTPUT_DIR else COMPUTE_OUTPUT_DIR in
  let tgz := PyStr.endswith ".tgz" root in
  let base := Py.os_path_join compute
                (if tgz then PyStr.replace ".tgz" "" (PyStr.basename root)
                 else PyStr.basename root) in
  resolve_data_directories (R := R) st args
  = ([Makedirs base; Makedirs output],
     Done (root, compute, if tgz then "tgz" else "tar", base,
           if tgz then compute else base, output, LOCAL_OUTPUT_DIR)).
Proof.
  intros Hd Hf Hr Hp. cbv zeta.
  unfold resolve_data_directories, subscript, registered, root_path_of.
  rewrite Hd. cbn. rewrite Hf. cbn. rewrite Hr. cbn. rewrite Hp. cbn.
  destruct (eq_zero port), (PyStr.endswith ".tgz" root); reflexivity.
Qed.

(** X15.  For a registered dataset whose root is [dir/file]: when [file] is
  [stem.tgz] and the stem has no dot, the extension is [tgz], the base
  directory is the stem under the compute directory and archives are
  extracted into the compute directory itself; when [file] does not end in
  [.tgz] the extension is [tar] and the whole file name, extension included,
  names the base directory, which is also the target.  The compute and output
  directories are the local ones exactly when the port equals 0. *)
Theorem archive_root_layout (st : module_state) (args : row) (d : DatasetSwitch)
    (func : dataset_func) (dir file : string) (port : value) :
  lookup "dataset" args = Some (VDataset d) ->
  dict_get DatasetSwitch_eq_dec d (registered_datasets st) = Some func ->
  dict_get dataset_func_eq_dec func (root_path_attribute st)
  = Some (dir ++ "/" ++ file)%string ->
  lookup "port" args = Some port ->
  Py.lacks "/" file = true ->
  let root := (dir ++ "/" ++ file)%string in
  let compute := if eq_zero port then get_local_data_dir d else get_remote_data_dir d in
  let output := if eq_zero port then LOCAL_OUTPUT_DIR else COMPUTE_OUTPUT_DIR in
  (forall stem : string,
     file = (stem ++ ".tgz")%string -> Py.lacks "." stem = true ->
     resolve_data_directories (R := R) st args
     = ([Makedirs (Py.os_path_join compute stem); Makedirs output],
        Done (root, compute, "tgz", Py.os_path_join compute stem, compute, output,
              LOCAL_OUTPUT_DIR))) /\
  (PyStr.endswith ".tgz" file = false ->
     resolve_data_directories (R := R) st args
     = ([Makedirs (Py.os_path_join compute file); Makedirs output],
        Done (root, compute, "tar", Py.os_path_join compute file,
              Py.os_path_join compute file, output, LOCAL_OUTPUT_DIR))).
Proof.
  intros Hd Hf Hr Hp Hfile. cbv zeta.
  pose proof (resolve_run st args d func _ port Hd Hf Hr Hp) as Run.
  cbv zeta in Run.
  change (dir ++ "/" ++ file)%string with (dir ++ String "/" file)%string in Run.
  rewrite (endswith_after "/" ".tgz" dir file eq_refl) in Run.
  change (dir ++ String "/" file)%string with (dir ++ "/" ++ file)%string in Run.
  rewrite (basename_join dir file Hfile) in Run.
  split.
  - intros stem -> Hs. rewrite endswith_app, replace_tgz in Run by exact Hs.
    exact Run.
  - intros E. rewrite E in Run. exact Run.
Qed.


End DirectoryFacts.

(** ** The sampler *)

Lemma nth_error_constant {X} (x : X) (n j : nat) :
  j < n -> nth_error (map (fun _ => x) (seq 0 n)) j = Some x.
Proof.
  intros Hj. rewrite nth_error_map, nth_error_seq.
  apply Nat.ltb_lt in Hj. now rewrite Hj.
Qed.

(** X17.  [RepeatedSequentialSampler] yields every index of the data source
  [num_repeats] times in a row, in increasing order: the element at position
  [k] is [k / num_repeats].  For a non-negative count the number of elements
  yielded is what [__len__] returns; for a negative count nothing is yielded
  while [__len__] returns a negative number. *)
Theorem sampler_repeats_each_index (s : RepeatedSequentialSampler) :
  let n := datasource_len s in
  let r := Z.to_nat (num_repeats s) in
  List.length (sampler_iter s) = n * r /\
  (forall k, k < n * r -> nth_error (sampler_iter s) k = Some (k / r)) /\
  ((0 <= num_repeats s)%Z -> Z.of_nat (List.length (sampler_iter s)) = sampler_len s) /\
  ((num_repeats s < 0)%Z -> 0 < n -> sampler_iter s = [] /\ (sampler_len s < 0)%Z).
Proof.
  cbv zeta. unfold sampler_iter, sampler_len, range.
  set (n := datasource_len s). set (r := Z.to_nat (num_repeats s)).
  assert (L : List.length
                (flat_map (fun i : nat => map (fun _ : nat => i) (seq 0 r)) (seq 0 n))
              = n * r).
  { rewrite (length_flat_map_uniform _ _ r), length_seq; [reflexivity|].
    intros x. now rewrite length_map, length_seq. }
  split; [exact L|split; [|split]].
  - intros k Hk.
    assert (Hr : r <> 0) by (intros E; rewrite E in Hk; lia).
    rewrite (Nat.div_mod_eq k r) at 1. rewrite (Nat.mul_comm r).
    rewrite (nth_error_flat_map_uniform _ _ r).
    + rewrite nth_error_seq.
      assert (Hd : k / r < n) by (apply Nat.Div0.div_lt_upper_bound; lia).
      apply Nat.ltb_lt in Hd. rewrite Hd. cbn [Nat.add].
      apply nth_error_constant. now apply Nat.mod_upper_bound.
    + intros x. now rewrite length_map, length_seq.
    + now apply Nat.mod_upper_bound.
  - intros Hr. rewrite L. subst r. lia.
  - intros Hr Hn. split.
    + assert (E : r = 0) by (subst r; lia). rewrite E. cbn.
      clear. induction (seq 0 n) as [|a l IH]; [reflexivity|exact IH].
    + nia.
Qed.

(** ** [quant.main] *)

Ltac branch :=
  match goal with
  | |- context [match ?x with _ => _ end] =>
      lazymatch x with
      | context [match _ with _ => _ end] => fail
      | _ => destruct x eqn:?
      end
  end.

Ltac unfold_main :=
  unfold main, determine_device, resolve_data_directories, move_data_to_compute_node,
    extract_the_dataset_on_compute_node, run_checked, registered, root_path_of,
    subscript, lift, perform, job_ret, job_raise, gt_zero, effects, returned.

Section MainFacts.
Context `{PyFloatOps} {R : Type}.
Context {paths : Paths} {data_paths : DataPaths} {node : Node} {measures : Measures R}.

(** X19.  [quant.main] writes the results file if and only if it returns
  normally.  Whenever the measures are run, exactly three commands ran
  before them: the module load, whose status is not looked at, then the copy
  of the local output directory to the directory the measures are given as
  [root_path], with [rsync] or [fpsync], and the extraction, which both
  returned 0; and the measures receive the [device] key that
  [determine_device] wrote. *)
Theorem results_written_after_every_step (st : module_state) (args : func_arg row) :
  let run := main st args in
  (existsb is_to_csv (effects run) = true <-> returned run = Done tt) /\
  (forall (root_path : string) (kwargs : row),
     In (MeasuresMain root_path kwargs) (effects run) ->
     exists (compressed : bool) (command : string),
       let argv :=
         if compressed
         then ["time"; "rsync"; "-avh"; "--progress"; LOCAL_OUTPUT_DIR; root_path]
         else ["time"; "fpsync"; "-n"; "8"; "-m"; "tarify"; "-s"; "2000M";
               LOCAL_OUTPUT_DIR; root_path] in
       commands (effects run)
       = [["module load Fpart/1.5.1-gcc-8.5.0"]; argv; [command]] /\
       returncode argv = 0%Z /\ shell_returncode command = 0%Z /\
       has_key "device" kwargs = true).
Proof.
  cbv zeta. destruct args as [l|y].
  - cbn. split; [split; discriminate|]. intros ? ? [E|[]]. discriminate E.
  - unfold main.
    match goal with
    | |- context [job_bind (determine_device ?a) ?k] =>
        set (tail := job_bind (determine_device a) k);
        assert (T : (existsb is_to_csv (effects tail) = true <-> returned tail = Done tt) /\
                    (forall (root_path : string) (kwargs : row),
                       In (MeasuresMain root_path kwargs) (effects tail) ->
                       exists (compressed : bool) (command : string),
                         let argv :=
                           if compressed
                           then ["time"; "rsync"; "-avh"; "--progress";
                                 LOCAL_OUTPUT_DIR; root_path]
                           else ["time"; "fpsync"; "-n"; "8"; "-m"; "tarify"; "-s";
                                 "2000M"; LOCAL_OUTPUT_DIR; root_path] in
                         commands (effects tail)
                         = [["module load Fpart/1.5.1-gcc-8.5.0"]; argv; [command]] /\
                         returncode argv = 0%Z /\ shell_returncode command = 0%Z /\
                         has_key "device" kwargs = true))
    end.
    + subst tail. unfold_main. cbn.
      repeat (branch; cbn);
        (split; [split; (discriminate || reflexivity)|]);
        intros root_path kwargs Hin;
        repeat (destruct Hin as [Hin|Hin]; try discriminate Hin);
        try contradiction.
      all: injection Hin as <- <-.
      all: match goal with
           | E : PyStr.endswith ".tgz" _ = ?b |- _ => exists b
           end; eexists; cbv zeta.
      all: (split; [reflexivity|]).
      all: (split; [apply Z.eqb_eq, negb_false_iff; eassumption|]).
      all: (split; [apply Z.eqb_eq, negb_false_iff; eassumption|]).
      all: unfold has_key; now rewrite lookup_assign_eq.
    + destruct tail as [t r]. unfold effects, returned in *. cbn [fst snd] in T.
      unfold subscript, lift, perform, job_ret, job_raise, gt_zero. cbn.
      destruct (lookup "port" y) as [port|];
        [|cbn; split; [split; discriminate|intros ? ? [E|[]]; discriminate E]].
      destruct port; cbn;
        try (split; [exact (proj1 T)|];
             intros root_path kwargs [E|Hin]; [discriminate E|];
             exact (proj2 T root_path kwargs Hin));
        try (split; [split; discriminate|intros ? ? [E|[]]; discriminate E]).
      * destruct b; cbn.
        -- destruct job_hostname; cbn.
           ++ split; [exact (proj1 T)|].
              intros root_path kwargs Hin.
              repeat (destruct Hin as [Hin|Hin]; try discriminate Hin).
              exact (proj2 T root_path kwargs Hin).
           ++ split; [split; discriminate|intros ? ? [E|[]]; discriminate E].
        -- split; [exact (proj1 T)|].
           intros root_path kwargs [E|Hin]; [discriminate E|].
           exact (proj2 T root_path kwargs Hin).
      * destruct (Z.ltb 0 z); cbn.
        -- destruct job_hostname; cbn.
           ++ split; [exact (proj1 T)|].
              intros root_path kwargs Hin.
              repeat (destruct Hin as [Hin|Hin]; try discriminate Hin).
              exact (proj2 T root_path kwargs Hin).
           ++ split; [split; discriminate|intros ? ? [E|[]]; discriminate E].
        -- split; [exact (proj1 T)|].
           intros root_path kwargs [E|Hin]; [discriminate E|].
           exact (proj2 T root_path kwargs Hin).
      * destruct (float_gt_zero x); cbn.
        -- destruct job_hostname; cbn.
           ++ split; [exact (proj1 T)|].
              intros root_path kwargs Hin.
              repeat (destruct Hin as [Hin|Hin]; try discriminate Hin).
              exact (proj2 T root_path kwargs Hin).
           ++ split; [split; discriminate|intros ? ? [E|[]]; discriminate E].
        -- split; [exact (proj1 T)|].
           intros root_path kwargs [E|Hin]; [discriminate E|].
           exact (proj2 T root_path kwargs Hin).
Qed.

(** X18.  [quant.main] opens the debugger's port exactly when it is called on
  a dictionary whose [port] is a number greater than zero and the job
  environment gives a host name: never for a missing port, [None], zero or
  a negative port. *)
Theorem debugger_listens_for_positive_port_only (st : module_state)
    (args : func_arg row) :
  existsb is_listen (effects (main st args))
  = match args with
    | WholeList _ => false
    | OneRecord y =>
        match lookup "port" y with
        | None | Some VNone => false
        | Some port =>
            match gt_zero port, job_hostname with
            | Done true, Done _ => true
            | _, _ => false
            end
        end
    end.
Proof.
  destruct args as [l|y]; [reflexivity|]. unfold main.
  match goal with
  | |- context [job_bind (determine_device ?a) ?k] =>
      assert (T : existsb is_listen (effects (job_bind (determine_device a) k)) = false);
      [|set (tail := job_bind (determine_device a) k) in *]
  end.
  - unfold_main. cbn. repeat (branch; cbn); reflexivity.
  - destruct tail as [t r]. unfold effects in *. cbn [fst] in T.
    unfold subscript, lift, perform, job_ret, job_raise, gt_zero. cbn.
    destruct (lookup "port" y) as [port|]; [|reflexivity].
    destruct port; cbn; rewrite ?T; try reflexivity.
    + destruct b; cbn; rewrite ?T; [|reflexivity].
      destruct job_hostname; cbn; [|reflexivity].
      reflexivity.
    + destruct (Z.ltb 0 z); cbn; rewrite ?T; [|reflexivity].
      destruct job_hostname; cbn; [|reflexivity].
      reflexivity.
    + destruct (float_gt_zero x); cbn; rewrite ?T; [|reflexivity].
      destruct job_hostname; cbn; [|reflexivity].
      reflexivity.
Qed.

(** X20.  In local mode (port 0) a confirmed [submit_measurements] calls
  [quant.main] once, on the list that holds the first row; [quant.main]
  prints that list and raises [TypeError] at [args["port"]].  Called on the
  row itself it would go on and choose the [cpu] device. *)
Theorem local_measurement_run_fails_in_main {host : Host} {jobs : Jobs row}
    (st : module_state) (block_main : bool) (timeout : Z) (args : grid)
    (x : row) (rest : list row) :
  measurement_rows block_main (Some 0%Z) timeout args = x :: rest ->
  invocations (trace (submit_measurements (operator := confirming) block_main
                        (Some 0%Z) timeout args))
  = [(quant_main, WholeList [x])] /\
  main st (WholeList [x]) = ([StdoutArgs (WholeList [x])], Failed (Builtin TypeError)) /\
  exists more,
    effects (main st (OneRecord x))
    = StdoutArgs (OneRecord x) :: Stdout "Using cpu device" :: more.
Proof.
  intros Rows. split; [|split; [reflexivity|]].
  - unfold submit_measurements. rewrite bind_print. cbn [trace fst].
    change (invocations (Print ?l :: ?t)) with (invocations t).
    fold (measurement_rows block_main (Some 0%Z) timeout args). rewrite Rows.
    rewrite local_run. cbn [trace fst]. rewrite invocations_app.
    hush (preamble_silent (A := row) (Some 0%Z) timeout (x :: rest)).
    reflexivity.
  - assert (P : lookup "port" x = Some (VInt 0)).
    { assert (Hx : In x (measurement_rows block_main (Some 0%Z) timeout args))
        by (rewrite Rows; now left).
      unfold measurement_rows in Hx. rewrite !map_map in Hx.
      apply in_map_iff in Hx as [x0 [<- _]].
      apply (measurement_row_columns block_main (Some 0%Z) timeout x0). }
    unfold main, determine_device, subscript, lift, perform, job_ret, job_raise, effects.
    rewrite P. cbn.
    match goal with
    | |- context [job_bind ?c ?k] => destruct (job_bind c k) as [t r]
    end.
    cbn. now exists t.
Qed.

End MainFacts.

(** ** Augmentations *)

Section AugmentationFacts.
Context `{PyFloatOps}.

(** X21.  For CIFAR10, MNIST and FashionMNIST, at every argument, the test
  pipeline is the beginning of the training pipeline; the two are equal
  unless the augmentation is [TRAIN], where the test pipeline has no noise
  and no blur.  The functions fail only with [NotImplementedError] for a
  requested inverse: in [EXP_VIS] mode for CIFAR10 and MNIST, in any mode but
  [EXP_GEN] for FashionMNIST. *)
Theorem test_pipeline_starts_training_pipeline (img_size : Z) (add_inverse : bool)
    (gaussian_noise_var gaussian_blur_var : float) (augmentation : AugmentationSwitch) :
  match get_aug_cifar10 img_size add_inverse gaussian_noise_var gaussian_blur_var
                        augmentation with
  | Done (train, test) =>
      starts_with test train /\
      match augmentation with
      | TRAIN => existsb is_noise test = false /\ existsb is_blur test = false /\
                 In RandomHorizontalFlip train
      | _ => train = test
      end
  | Failed e =>
      augmentation = EXP_VIS /\ add_inverse = true /\
      e = NotImplementedError "AddInverse not implemented for CIFAR10"
  end /\
  match get_aug_mnist img_size add_inverse gaussian_noise_var gaussian_blur_var
                      augmentation with
  | Done (train, test) =>
      starts_with test train /\
      match augmentation with
      | TRAIN => existsb is_noise test = false /\ existsb is_blur test = false
      | _ => train = test
      end
  | Failed e =>
      augmentation = EXP_VIS /\ add_inverse = true /\
      e = NotImplementedError "AddInverse not implemented for MNIST"
  end /\
  match get_aug_fmnist img_size add_inverse gaussian_noise_var gaussian_blur_var
                       augmentation with
  | Done (test, train) =>
      starts_with test train /\
      match augmentation with
      | TRAIN => existsb is_noise test = false /\ existsb is_blur test = false
      | _ => train = test
      end
  | Failed e =>
      augmentation <> EXP_GEN /\ add_inverse = true /\
      e = NotImplementedError "AddInverse not implemented for FashionMNIST"
  end.
Proof.
  unfold get_aug_cifar10, get_aug_mnist, get_aug_fmnist, append_if.
  destruct augmentation, add_inverse,
    (float_gt_zero gaussian_noise_var), (float_gt_zero gaussian_blur_var);
    cbn; repeat split; auto; discriminate.
Qed.

(** X22.  A FashionMNIST pipeline never holds [AddInverse]: where the function
  returns with [add_inverse] set it returns what it returns without.  For
  CIFAR10 and MNIST outside [EXP_VIS], each pipeline holds [AddInverse] when
  [add_inverse] is set and [Normalize] when it is not, never both; in
  [EXP_VIS] it holds neither. *)
Theorem add_inverse_by_dataset (img_size : Z) (add_inverse : bool)
    (gaussian_noise_var gaussian_blur_var : float) (augmentation : AugmentationSwitch) :
  match get_aug_fmnist img_size add_inverse gaussian_noise_var gaussian_blur_var
                       augmentation with
  | Done (test, train) =>
      existsb is_add_inverse (test ++ train) = false /\
      get_aug_fmnist img_size false gaussian_noise_var gaussian_blur_var augmentation
      = Done (test, train)
  | Failed _ => add_inverse = true
  end /\
  match get_aug_cifar10 img_size add_inverse gaussian_noise_var gaussian_blur_var
                        augmentation with
  | Done (train, test) =>
      match augmentation with
      | EXP_VIS => existsb is_add_inverse (test ++ train) = false /\
                   existsb is_normalize (test ++ train) = false
      | _ => existsb is_add_inverse test = add_inverse /\
             existsb is_add_inverse train = add_inverse /\
             existsb is_normalize test = negb add_inverse /\
             existsb is_normalize train = negb add_inverse
      end
  | Failed _ => add_inverse = true
  end /\
  match get_aug_mnist img_size add_inverse gaussian_noise_var gaussian_blur_var
                      augmentation with
  | Done (train, test) =>
      match augmentation with
      | EXP_VIS => existsb is_add_inverse (test ++ train) = false /\
                   existsb is_normalize (test ++ train) = false
      | _ => existsb is_add_inverse test = add_inverse /\
             existsb is_add_inverse train = add_inverse /\
             existsb is_normalize test = negb add_inverse /\
             existsb is_normalize train = negb add_inverse
      end
  | Failed _ => add_inverse = true
  end.
Proof.
  unfold get_aug_cifar10, get_aug_mnist, get_aug_fmnist, append_if.
  destruct augmentation, add_inverse,
    (float_gt_zero gaussian_noise_var), (float_gt_zero gaussian_blur_var);
    cbn; repeat split; auto.
Qed.

(** X23.  [get_aug_imagenet] and [get_aug_imagenette] fail together, only in
  [TRAIN] mode on a split that is neither [train] nor [test], with the same
  [ValueError]; otherwise both return a pipeline that begins with [ToTensor],
  and the two agree up to the noise transform.  They differ exactly in
  [EXP_GEN] mode with a noise variance that is not positive, where
  Imagenette adds the noise and ImageNet does not. *)
Theorem imagenet_and_imagenette_pipelines (img_size : Z)
    (augmentation : AugmentationSwitch) (add_inverse : bool)
    (gaussian_noise_var gaussian_blur_var : float) (split : string) :
  let imagenet := get_aug_imagenet img_size augmentation add_inverse gaussian_noise_var
                                   gaussian_blur_var split in
  let imagenette := get_aug_imagenette img_size augmentation add_inverse
                                       gaussian_noise_var gaussian_blur_var split in
  match imagenet, imagenette with
  | Done a, Done b =>
      hd_error a = Some ToTensor /\
      filter (fun t => negb (is_noise t)) b = filter (fun t => negb (is_noise t)) a /\
      existsb is_noise b
      = match augmentation with
        | TRAIN => String.eqb split "train"
        | EXP_GEN => true
        | EXP_VIS => false
        end /\
      existsb is_noise a
      = match augmentation with
        | TRAIN => String.eqb split "train"
        | EXP_GEN => float_gt_zero gaussian_noise_var
        | EXP_VIS => false
        end /\
      (if AugmentationSwitch_eqb augmentation EXP_GEN
          && negb (float_gt_zero gaussian_noise_var)
       then a <> b else a = b)
  | Failed e, Failed e' =>
      e = e' /\ e = ValueErrorMsg ("Split " ++ split ++ " not recognized") /\
      augmentation = TRAIN /\ split <> "train" /\ split <> "test"
  | _, _ => False
  end.
Proof.
  cbv zeta. unfold get_aug_imagenet, get_aug_imagenette, append_if, bound.
  destruct augmentation; cbn.
  - repeat split.
  - destruct add_inverse, (float_gt_zero gaussian_noise_var),
      (float_gt_zero gaussian_blur_var); cbn; repeat split; discriminate.
  - destruct (String.eqb split "train") eqn:Etrain.
    + destruct add_inverse, (float_gt_zero gaussian_blur_var); cbn; repeat split.
    + destruct (String.eqb split "test") eqn:Etest.
      * destruct add_inverse; cbn; repeat split.
      * cbn. repeat split; now apply String.eqb_neq.
Qed.

End AugmentationFacts.

(** ** Loading a registered dataset *)

Section LoaderFacts.
Context `{PyFloatOps} {S L : Type} {torch : Torch S L}.

(** X24.  [get_training_and_test_dataloader] calls the registered function
  with the keyword [get_only_test]; [get_fashion_mnist_dataset],
  [get_cifar10_dataset] and [get_grad_dataloader] neither name it nor take
  arbitrary keywords, so for a dataset registered with one of them the
  loader raises [TypeError] at every argument. *)
Theorem loader_refuses_three_registered_functions (st : module_state)
    (dataset : DatasetSwitch) (func : dataset_func) (root_path : string)
    (batch_size num_workers prefetch_factor : Z) (get_only_test shuffle : bool)
    (sampler : option (option torchvision_dataset -> res S)) (kw : dataset_kwargs) :
  dict_get DatasetSwitch_eq_dec dataset (registered_datasets st) = Some func ->
  In func [get_fashion_mnist_dataset; get_cifar10_dataset; get_grad_dataloader] ->
  get_training_and_test_dataloader st dataset root_path batch_size num_workers
    prefetch_factor get_only_test shuffle sampler kw
  = Failed (Builtin TypeError).
Proof.
  intros Hf Hin. unfold get_training_and_test_dataloader. rewrite Hf.
  destruct Hin as [<-|[<-|[<-|[]]]]; reflexivity.
Qed.

(** X25.  Of the registered functions that accept the loader's call, only
  [get_imagenet_dataset] looks at [get_only_test]: with the flag it returns
  no training data and without it always some.  [get_imagenette_dataset] and
  [get_mnist_dataset] return the same with and without the flag, training
  data included, so a training set that cannot be constructed fails a
  test-only load as well. *)
Theorem get_only_test_is_honoured_by_imagenet_only (root_path : string)
    (get_only_test : bool) (kw : dataset_kwargs) :
  call_registered get_imagenette_dataset root_path get_only_test kw
  = call_registered get_imagenette_dataset root_path (negb get_only_test) kw /\
  call_registered get_mnist_dataset root_path get_only_test kw
  = call_registered get_mnist_dataset root_path (negb get_only_test) kw /\
  match call_registered get_imagenette_dataset root_path get_only_test kw,
        call_registered get_mnist_dataset root_path get_only_test kw with
  | Done (None, _), _ | _, Done (None, _) => False
  | _, _ => True
  end /\
  match call_registered get_imagenet_dataset root_path get_only_test kw with
  | Done (training_data, _) =>
      if get_only_test then training_data = None else training_data <> None
  | Failed _ => True
  end.
Proof.
  split; [reflexivity|split; [reflexivity|split]].
  - unfold call_registered, run_get_imagenette_dataset, run_get_mnist_dataset, res_bind.
    repeat (branch; try exact I).
  - unfold call_registered, run_get_imagenet_dataset, res_bind.
    repeat (branch; try exact I); try reflexivity; discriminate.
Qed.

End LoaderFacts.

(** ** The further properties on the sample data *)

Lemma declined_submission_witness :
  dispatched (trace (execute_job_submission (operator := declining) (jobs := quiet_jobs)
                       true None 10 [resnet18_seed1; resnet18_seed2] training_main))
  = [].
Proof.
  apply (declined_submission_has_no_effect (jobs := quiet_jobs) declining true None 10
           training_main resnet18_seed1 [resnet18_seed2]).
  discriminate.
Defined.

Lemma missing_column_witness :
  submit_training (host := one_checkpoint)
    (operator := confirming) (pandas := strict_pandas) (jobs := quiet_jobs)
    true None 10 (fun _ => Some 32%Z) (whole 1) seedless_grid
  = ([], Raised TypeError).
Proof.
  apply (grid_without_naming_column_raises (paths := sample_paths)
           (host := one_checkpoint) (operator := confirming) (pandas := strict_pandas)
           (jobs := quiet_jobs) true None 10 (fun _ => Some 32%Z) (whole 1)
           seedless_grid "seed").
  - cbn. auto 10.
  - reflexivity.
  - vm_compute. discriminate.
Defined.


Lemma grads_report_witness :
  List.length single_table = size (map snd single_grid).
Proof.
  assert (N : single_table <> []) by discriminate.
  exact (proj1 (grads_report_names_every_job (paths := sample_paths)
                  (host := stale_output) (pandas := strict_pandas) (jobs := quiet_jobs)
                  confirming true None 10 (fun _ => Some 32%Z) single_grid single_table
                  eq_refl eq_refl N)).
Defined.

Lemma paths_witness :
  get_save_path resnet18_seed1 = get_save_path resnet18_seed2 <->
  consumed resnet18_seed1 = consumed resnet18_seed2.
Proof.
  apply (paths_identify_the_job (paths := sample_paths)
           whole_floats_injective whole_floats_no_colon resnet18_seed1 resnet18_seed2).
Defined.

Lemma missing_epochs_witness :
  result (submit_training (host := one_checkpoint) (operator := confirming)
            (pandas := strict_pandas) (jobs := quiet_jobs)
            true None 10 (fun _ => Some 32%Z) (whole 1) single_grid)
  = Raised (KeyError "epochs").
Proof.
  pose proof (training_grid_without_epochs_raises (host := one_checkpoint)
                (operator := confirming) (pandas := strict_pandas) (jobs := quiet_jobs)
                true None 10 (fun _ => Some 32%Z) (whole 1) single_grid single_job
                eq_refl eq_refl) as W.
  cbv zeta in W. rewrite (proj1 (W ltac:(discriminate))). reflexivity.
Defined.

Lemma archive_root_witness :
  resolve_data_directories (H0 := whole_float_ops) (R := unit) (paths := sample_paths)
    (data_paths := sample_data_paths) sample_module mnist_job
  = ([Makedirs "/scratch/local/MNIST/mnist"; Makedirs "/scratch/local/outputs"],
     Done ("/data/mnist.tgz", "/scratch/local/MNIST", "tgz",
           "/scratch/local/MNIST/mnist", "/scratch/local/MNIST",
           "/scratch/local/outputs", "outputs")).
Proof.
  exact (proj1 (archive_root_layout (H0 := whole_float_ops) (R := unit)
                  (paths := sample_paths) (data_paths := sample_data_paths)
                  sample_module mnist_job MNIST get_mnist_dataset "/data" "mnist.tgz"
                  VNone eq_refl eq_refl eq_refl eq_refl eq_refl)
               "mnist" eq_refl eq_refl).
Defined.

Lemma local_measurement_witness :
  main (H0 := whole_float_ops) (paths := sample_paths) (data_paths := sample_data_paths)
       (node := sample_node) (measures := sample_measures)
       sample_module (WholeList [local_measurement_job])
  = ([StdoutArgs (WholeList [local_measurement_job])], Failed (Builtin TypeError)).
Proof.
  apply (local_measurement_run_fails_in_main (H0 := whole_float_ops)
           (paths := sample_paths) (data_paths := sample_data_paths)
           (node := sample_node) (measures := sample_measures)
           (host := one_checkpoint) (jobs := quiet_jobs)
           sample_module true 10 single_grid local_measurement_job []).
  reflexivity.
Defined.

Lemma loader_witness :
  get_training_and_test_dataloader (H0 := whole_float_ops) (torch := sample_torch)
    sample_module FASHION_MNIST "/data/fashion" 32 2 4 false true None sample_kwargs
  = Failed (Builtin TypeError).
Proof.
  apply (loader_refuses_three_registered_functions (H0 := whole_float_ops)
           (torch := sample_torch) sample_module FASHION_MNIST
           get_fashion_mnist_dataset).
  - reflexivity.
  - now left.
Defined.
